(** * Garden of Tasks: the task cache and sync reconciler

    A shallow embedding of [src/App.tsx], [src/services/taskStorage.ts]
    (the task cache and the plant catalogue), the token storage service,
    [src/components/AsanaConnect.tsx] and the grid layout of
    [src/components/Garden.tsx], with the properties of the reconciler
    proved over it.

    Conventions of the embedding:
    - JavaScript strings are [string]s (UTF-8 bytes);
    - a value that may be [undefined] or [null] is an [option];
    - the browser (localStorage, React state, clock, random generator) is
      an explicit [World] threaded through a state-and-exception monad,
      with a trace of the storage calls, requests and timers made;
    - the Asana API is a [Remote]: the reply to each request and the time
      it takes;
    - an [async] function is run to its end, and so is a timer it sets;
      the [while] loop that follows the pages of a listing takes fuel,
      and a call whose fuel runs out is [Starved];
    - time passes while the page waits for a reply or a timer, and only
      then: two readings of the clock with no wait between them coincide
      here, where in a browser the later one may be larger;
    - [console] output is not modelled; each operation returns instead
      the branch it ended on. *)

From Stdlib Require Import ZArith NArith List String Ascii Bool Lia.
From Stdlib Require Import DecimalString.
From Stdlib Require DecimalNat DecimalFacts Finite.
Import ListNotations.
Open Scope string_scope.
Open Scope list_scope.

(* ===================================================================== *)
(** * JavaScript primitives used by the sources *)
(* ===================================================================== *)

Module Js.

(** Truthiness of a string-or-undefined value: [undefined], [null] and
    the empty string are falsy. *)
Definition truthy (v : option string) : option string :=
  match v with
  | Some s => if s =? "" then None else Some s
  | None => None
  end.

(** [hay.includes(needle)] *)
Fixpoint includes (needle hay : string) : bool :=
  if String.prefix needle hay then true
  else match hay with
       | EmptyString => false
       | String _ rest => includes needle rest
       end.

(** Template interpolation of a non-negative integer, [`${n}`]. *)
Definition ofNat (n : nat) : string := NilZero.string_of_uint (Nat.to_uint n).

(** ** [String.prototype.trim]

    White space is ECMAScript's WhiteSpace and LineTerminator code
    points, recognised here in their UTF-8 encoding: [ws1], [ws2] and
    [ws3] test the code points of one, two and three bytes. *)
Definition byte (c : ascii) : nat := nat_of_ascii c.

Definition ws1 (a : ascii) : bool :=
  let n := byte a in
  (((9 <=? n) && (n <=? 13)) || (n =? 32))%nat.

Definition ws2 (a b : ascii) : bool :=
  ((byte a =? 194) && (byte b =? 160))%nat.          (* U+00A0 *)

Definition ws3 (a b c : ascii) : bool :=
  let x := byte a in let y := byte b in let z := byte c in
  (((x =? 225) && (y =? 154) && (z =? 128))           (* U+1680 *)
   || ((x =? 226) && (y =? 128) &&
       (((128 <=? z) && (z <=? 138))                  (* U+2000..U+200A *)
        || (z =? 168) || (z =? 169)                   (* U+2028, U+2029 *)
        || (z =? 175)))                               (* U+202F *)
   || ((x =? 226) && (y =? 129) && (z =? 159))        (* U+205F *)
   || ((x =? 227) && (y =? 128) && (z =? 128))        (* U+3000 *)
   || ((x =? 239) && (y =? 187) && (z =? 191)))%nat.  (* U+FEFF *)

Fixpoint trimStart (s : string) : string :=
  match s with
  | EmptyString => EmptyString
  | String a r1 =>
      if ws1 a then trimStart r1
      else match r1 with
           | EmptyString => s
           | String b r2 =>
               if ws2 a b then trimStart r2
               else match r2 with
                    | EmptyString => s
                    | String c r3 => if ws3 a b c then trimStart r3 else s
                    end
           end
  end.

(** Is the whole string white space? *)
Fixpoint blank (s : string) : bool :=
  match s with
  | EmptyString => true
  | String a r1 =>
      if ws1 a then blank r1
      else match r1 with
           | EmptyString => false
           | String b r2 =>
               if ws2 a b then blank r2
               else match r2 with
                    | EmptyString => false
                    | String c r3 => if ws3 a b c then blank r3 else false
                    end
           end
  end.

Fixpoint trimEnd (s : string) : string :=
  match s with
  | EmptyString => EmptyString
  | String a r => if blank s then EmptyString else String a (trimEnd r)
  end.

Definition trim (s : string) : string := trimEnd (trimStart s).

End Js.

(* ===================================================================== *)
(** * Task records *)
(* ===================================================================== *)

(** Date strings.  The sources build them with [Date] arithmetic in the
    local time zone; the embedding keeps the instant symbolic. *)
Inductive DateStr : Type :=
| IsoOf (ms : Z)                 (** [new Date(ms).toISOString()] *)
| IsoDaysBefore (d : nat) (ms : Z)  (** [setDate(getDate() - d)] on [ms] *)
| IsoYearsBefore (y : nat) (ms : Z) (** [setFullYear(getFullYear() - y)] *)
| RawDate (s : string).          (** any other stored text *)

(** Truthiness of a stored date string. *)
Definition truthyDate (v : option DateStr) : option DateStr :=
  match v with
  | Some (RawDate s) => if s =? "" then None else v
  | _ => v
  end.

(** The fields of a task the sources read or write.  Records of the API
    carry [gid]; the synthetic ones of [generateMockTasks] carry [id]
    (here [task_id]) and [resource_type] instead. *)
Record Task : Type := mkTask {
  gid : option string;
  task_id : option string;
  name : string;
  completed : bool;
  completed_at : option DateStr;
  resource_type : option string
}.

(** The merge key of a record: its [gid] when truthy. *)
Definition identifier (t : Task) : option string := Js.truthy (gid t).

(* ===================================================================== *)
(** * JavaScript [Map]: insertion-ordered, keyed by string *)
(* ===================================================================== *)

Module JsMap.

Definition t : Type := list (string * Task).

Definition empty : t := [].

Definition keys (m : t) : list string := map fst m.

(** [Array.from(m.values())] *)
Definition values (m : t) : list Task := map snd m.

Fixpoint get (k : string) (m : t) : option Task :=
  match m with
  | [] => None
  | (k', v) :: rest => if k =? k' then Some v else get k rest
  end.

Definition has (k : string) (m : t) : bool :=
  match get k m with Some _ => true | None => false end.

(** [m.set(k, v)]: an existing key keeps its position and takes the new
    value; a new key goes to the end. *)
Fixpoint set (k : string) (v : Task) (m : t) : t :=
  match m with
  | [] => [(k, v)]
  | (k', v') :: rest =>
      if k =? k' then (k, v) :: rest else (k', v') :: set k v rest
  end.

Definition size (m : t) : nat := List.length m.

End JsMap.

(* ===================================================================== *)
(** * The merge of [autoRefreshTasks] and [fetchTasksForToken] *)
(* ===================================================================== *)

(** Body of both [forEach] loops: a record without [gid] is skipped, any
    other is [set] under its [gid].  (The counters [newCount] and
    [updatedCount] only feed [console.log] and are left out.) *)
Definition mergeStep (taskMap : JsMap.t) (task : Task) : JsMap.t :=
  match identifier task with
  | Some taskId => JsMap.set taskId task taskMap
  | None => taskMap
  end.

Definition mergeInto (taskMap : JsMap.t) (tasks : list Task) : JsMap.t :=
  fold_left mergeStep tasks taskMap.

(** [const taskMap = new Map(); existingTasks.forEach(...)] *)
Definition seedMap (existingTasks : list Task) : JsMap.t :=
  mergeInto JsMap.empty existingTasks.

(** [mergedTasks]: seed from the cache, merge the response, read the
    values back. *)
Definition mergeTasks (existingTasks newTasks : list Task) : list Task :=
  JsMap.values (mergeInto (seedMap existingTasks) newTasks).

(** ** The merge as the specification words it

    An insertion-ordered map is described by the list of insertions made
    into it: its keys are the inserted keys in order of first insertion,
    and each key holds the value inserted last under it. *)

Fixpoint firstOccurrences (ks : list string) : list string :=
  match ks with
  | [] => []
  | k :: rest => k :: filter (fun k' => negb (k' =? k)) (firstOccurrences rest)
  end.

Definition lastInserted (k : string) (ins : list (string * Task)) : option Task :=
  fold_left (fun acc kv => if fst kv =? k then Some (snd kv) else acc) ins None.

Definition entry (k : string) (v : option Task) : list (string * Task) :=
  match v with Some t => [(k, t)] | None => [] end.

Definition insertionOrdered (ins : list (string * Task)) : list (string * Task) :=
  flat_map (fun k => entry k (lastInserted k ins)) (firstOccurrences (map fst ins)).

(** The insertions a task sequence gives rise to: records lacking an
    identifier are skipped. *)
Definition insertion (t : Task) : list (string * Task) :=
  match identifier t with Some k => [(k, t)] | None => [] end.

Definition insertions (tasks : list Task) : list (string * Task) :=
  flat_map insertion tasks.

(** Reference merge: the map built by inserting the cached records, then
    the incoming ones in response order. *)
Definition mergeReference (cached incoming : list Task) : list Task :=
  map snd (insertionOrdered (insertions cached ++ insertions incoming)).

(* ===================================================================== *)
(** * The browser: localStorage, React state, clock *)
(* ===================================================================== *)

(** What [JSON.parse] gives back for the task cache ([TaskCache] of
    taskStorage.ts). *)
Module TaskCache.
Record t : Type := make { tasks : list Task; timestamp : Z }.
End TaskCache.

(** The three localStorage keys of the application. *)
Inductive Key : Type :=
| TOKEN_STORAGE_KEY      (** ['garden_tasks_asana_token'] *)
| TASKS_STORAGE_KEY      (** ['garden_tasks_cached_tasks'] *)
| LAST_SYNC_KEY.         (** ['garden_tasks_last_sync'] *)

(** localStorage.  An item is [None] when absent; for the task cache also
    when its text does not parse to a cache object. *)
Record Storage : Type := mkStorage {
  tokenItem : option string;
  tasksItem : option TaskCache.t;
  lastSyncItem : option DateStr
}.

(** The [useState] cells of [App]. *)
Record AppState : Type := mkApp {
  token : option string;
  tasks : list Task;
  loading : bool;
  error : option string;
  autoRefreshing : bool
}.

(** The [useState] cells of [AsanaConnect]. *)
Record FormState : Type := mkForm {
  formToken : string;
  hasSavedToken : bool
}.

(** A query of the task listing endpoint, by its URL parameters. *)
Record TaskQuery : Type := mkQuery {
  workspace : string;
  assignee : string;
  completed_since : option DateStr;
  limit : nat;
  offset : option string;
  opt_fields : string
}.

(** Effects visible outside the page. *)
Inductive Event : Type :=
| GetItem (k : Key)
| SetItem (k : Key)
| RemoveItem (k : Key)
| FetchUser (accessToken : string)
| FetchTasks (accessToken : string) (q : TaskQuery)
| SetTimeout (ms : Z).

Record World : Type := mkWorld {
  storage : Storage;
  app : AppState;
  form : FormState;
  clock : Z;                (** [Date.now()], in milliseconds *)
  rolls : nat;              (** calls of [Math.random()] made so far *)
  trace : list Event        (** effects so far, oldest first *)
}.

(** A thrown value: an [Error] with its [name] and [message]. *)
Record Exn : Type := mkExn { exn_name : string; message : string }.

Definition newError (msg : string) : Exn := mkExn "Error" msg.

(** [String(error)], as in ["..." + error]. *)
Definition errorToString (e : Exn) : string :=
  if exn_name e =? "" then message e
  else if message e =? "" then exn_name e
  else (exn_name e ++ ": " ++ message e)%string.

(* ===================================================================== *)
(** * The Asana API *)
(* ===================================================================== *)

Record Workspace : Type := mkWorkspace { ws_gid : string }.

(** [userData.data] of [/users/me]. *)
Record UserData : Type := mkUser {
  user_gid : string;
  workspaces : option (list Workspace)
}.

Inductive UserReply : Type :=
| UserRejected (e : Exn)                 (** [fetch] or [json()] rejects *)
| UserNotOk (status : nat) (errorText : string)
| UserOk (data : option UserData).

Inductive PageReply : Type :=
| PageRejected (e : Exn)                 (** [fetch] or [json()] rejects,
                                             or the body has no [data] *)
| PageNotOk (status : nat) (errorText : string)
| PageOk (data : list Task) (next_page_offset : option string).

(** The remote source and the page's other inputs from outside: what each
    request is answered with, how long the answer takes, and the random
    generator. *)
Record Remote : Type := mkRemote {
  userReply : string -> UserReply;
  userLatency : N;
  pageReply : string -> TaskQuery -> PageReply;
  pageLatency : TaskQuery -> N;
  dice : nat -> nat         (** the numbers the random generator draws *)
}.

(* ===================================================================== *)
(** * The monad of the embedding: state and exceptions *)
(* ===================================================================== *)

(** [Starved]: the loop bound ran out before the call returned. *)
Inductive Outcome (A : Type) : Type :=
| Ret (a : A)
| Throw (e : Exn)
| Starved.

Arguments Ret {A} a.
Arguments Throw {A} e.
Arguments Starved {A}.

Definition M (A : Type) : Type := World -> Outcome A * World.

Definition ret {A} (a : A) : M A := fun w => (Ret a, w).

Definition bind {A B} (m : M A) (k : A -> M B) : M B :=
  fun w => match m w with
           | (Ret a, w') => k a w'
           | (Throw e, w') => (Throw e, w')
           | (Starved, w') => (Starved, w')
           end.

Definition throw {A} (e : Exn) : M A := fun w => (Throw e, w).

Definition starve {A} : M A := fun w => (Starved, w).

(** [try { m } catch (e) { handler e }] *)
Definition tryCatch {A} (m : M A) (handler : Exn -> M A) : M A :=
  fun w => match m w with
           | (Throw e, w') => handler e w'
           | r => r
           end.

(** [try { m } finally { cleanup }]; [cleanup] does not throw here. *)
Definition tryFinally {A} (m : M A) (cleanup : M unit) : M A :=
  fun w => match m w with
           | (Starved, w') => (Starved, w')
           | (r, w') => (r, snd (cleanup w'))
           end.

Declare Scope monad_scope.
Delimit Scope monad_scope with monad.
Notation "x <- m ;; k" := (bind m (fun x => k))
  (at level 61, m at next level, right associativity) : monad_scope.
Notation "m ;; k" := (bind m (fun _ => k))
  (at level 61, right associativity) : monad_scope.
Open Scope monad_scope.

Definition run {A} (m : M A) (w : World) : World := snd (m w).
Definition outcome {A} (m : M A) (w : World) : Outcome A := fst (m w).

(** ** Primitive effects *)

Definition getStorage : M Storage := fun w => (Ret (storage w), w).
Definition getApp : M AppState := fun w => (Ret (app w), w).
Definition getForm : M FormState := fun w => (Ret (form w), w).

Definition modifyStorage (f : Storage -> Storage) : M unit :=
  fun w => (Ret tt, mkWorld (f (storage w)) (app w) (form w) (clock w) (rolls w) (trace w)).

Definition modifyApp (f : AppState -> AppState) : M unit :=
  fun w => (Ret tt, mkWorld (storage w) (f (app w)) (form w) (clock w) (rolls w) (trace w)).

Definition modifyForm (f : FormState -> FormState) : M unit :=
  fun w => (Ret tt, mkWorld (storage w) (app w) (f (form w)) (clock w) (rolls w) (trace w)).

Definition emit (e : Event) : M unit :=
  fun w => (Ret tt, mkWorld (storage w) (app w) (form w) (clock w) (rolls w) (trace w ++ [e])).

Definition elapse (ms : Z) : M unit :=
  fun w => (Ret tt, mkWorld (storage w) (app w) (form w) (clock w + ms) (rolls w) (trace w)).

(** [Date.now()].  The clock moves in [elapse] only. *)
Definition dateNow : M Z := fun w => (Ret (clock w), w).

(** [new Date().toISOString()] *)
Definition newDateISOString : M DateStr := now <- dateNow ;; ret (IsoOf now).

(** [setTimeout(callback, ms)].  An operation is run until the timers it
    set have fired: the callback runs here, once [ms] have passed.  The
    source function that set the timer returns before that, in the state
    reached after [emit]. *)
Definition setTimeout (callback : M unit) (ms : Z) : M unit :=
  emit (SetTimeout ms) ;; elapse ms ;; callback.

(** React setters. *)
Definition setToken (v : option string) : M unit :=
  modifyApp (fun a => mkApp v (tasks a) (loading a) (error a) (autoRefreshing a)).
Definition setTasks (v : list Task) : M unit :=
  modifyApp (fun a => mkApp (token a) v (loading a) (error a) (autoRefreshing a)).
Definition setLoading (v : bool) : M unit :=
  modifyApp (fun a => mkApp (token a) (tasks a) v (error a) (autoRefreshing a)).
Definition setError (v : option string) : M unit :=
  modifyApp (fun a => mkApp (token a) (tasks a) (loading a) v (autoRefreshing a)).
Definition setAutoRefreshing (v : bool) : M unit :=
  modifyApp (fun a => mkApp (token a) (tasks a) (loading a) (error a) v).
Definition setFormToken (v : string) : M unit :=
  modifyForm (fun f => mkForm v (hasSavedToken f)).
Definition setHasSavedToken (v : bool) : M unit :=
  modifyForm (fun f => mkForm (formToken f) v).

(* ===================================================================== *)
(** * services/tokenStorage *)
(* ===================================================================== *)

(** The [try]/[catch] around each localStorage call guards against a
    storage that throws; the embedding's storage never does. *)
Module tokenStorage.

Definition saveToken (token : string) : M unit :=
  emit (RemoveItem TOKEN_STORAGE_KEY) ;;
  modifyStorage (fun s => mkStorage None (tasksItem s) (lastSyncItem s)) ;;
  emit (SetItem TOKEN_STORAGE_KEY) ;;
  modifyStorage (fun s => mkStorage (Some token) (tasksItem s) (lastSyncItem s)).

Definition getToken : M (option string) :=
  emit (GetItem TOKEN_STORAGE_KEY) ;;
  s <- getStorage ;;
  ret (tokenItem s).

Definition clearToken : M unit :=
  emit (RemoveItem TOKEN_STORAGE_KEY) ;;
  modifyStorage (fun s => mkStorage None (tasksItem s) (lastSyncItem s)) ;;
  emit (GetItem TOKEN_STORAGE_KEY).

(** [!!localStorage.getItem(TOKEN_STORAGE_KEY)] *)
Definition hasToken : M bool :=
  emit (GetItem TOKEN_STORAGE_KEY) ;;
  s <- getStorage ;;
  ret (match Js.truthy (tokenItem s) with Some _ => true | None => false end).

(** The keys [localStorage.key(i)] enumerates.  The order is the
    browser's; here it is the order in which the keys are declared.  An
    item the embedding holds as [None] counts as absent, and the keys of
    other applications are not modelled. *)
Definition presentKeys (s : Storage) : list Key :=
  (match tokenItem s with Some _ => [TOKEN_STORAGE_KEY] | None => [] end)
  ++ (match tasksItem s with Some _ => [TASKS_STORAGE_KEY] | None => [] end)
  ++ (match lastSyncItem s with Some _ => [LAST_SYNC_KEY] | None => [] end).

(** The [for] loop of [debugStorage]. *)
Fixpoint readAll (keys : list Key) : M unit :=
  match keys with
  | [] => ret tt
  | key :: rest => emit (GetItem key) ;; readAll rest
  end.

(** [debugStorage], called once when the module is imported: it reads
    the credential item, then every item there is. *)
Definition debugStorage : M unit :=
  emit (GetItem TOKEN_STORAGE_KEY) ;;
  s <- getStorage ;;
  readAll (presentKeys s).

End tokenStorage.

(* ===================================================================== *)
(** * services/taskStorage *)
(* ===================================================================== *)

Module taskStorage.

Definition saveTasks (tasks : list Task) : M unit :=
  now <- dateNow ;;
  let cache := TaskCache.make tasks now in
  emit (SetItem TASKS_STORAGE_KEY) ;;
  modifyStorage (fun s => mkStorage (tokenItem s) (Some cache) (lastSyncItem s)).

Definition getTasks : M (list Task) :=
  emit (GetItem TASKS_STORAGE_KEY) ;;
  s <- getStorage ;;
  match tasksItem s with
  | None => ret []
  | Some cache => ret (TaskCache.tasks cache)
  end.

Definition getLastSyncTimestamp : M (option Z) :=
  emit (GetItem TASKS_STORAGE_KEY) ;;
  s <- getStorage ;;
  match tasksItem s with
  | None => ret None
  | Some cache => ret (Some (TaskCache.timestamp cache))
  end.

Definition saveLastSyncDate (date : DateStr) : M unit :=
  emit (SetItem LAST_SYNC_KEY) ;;
  modifyStorage (fun s => mkStorage (tokenItem s) (tasksItem s) (Some date)).

Definition getLastSyncDate : M (option DateStr) :=
  emit (GetItem LAST_SYNC_KEY) ;;
  s <- getStorage ;;
  ret (lastSyncItem s).

Definition clearTasks : M unit :=
  emit (RemoveItem TASKS_STORAGE_KEY) ;;
  modifyStorage (fun s => mkStorage (tokenItem s) None (lastSyncItem s)) ;;
  emit (RemoveItem LAST_SYNC_KEY) ;;
  modifyStorage (fun s => mkStorage (tokenItem s) (tasksItem s) None).

End taskStorage.

(* ===================================================================== *)
(** * App.tsx *)
(* ===================================================================== *)

(** How a call ended: the branch on which the source prints its closing
    console line.  The functions of the source return nothing; the tag is
    the embedding's record of the path taken. *)
Inductive FetchEnd : Type :=
| DemoData               (** "Using demo mode with mock data" *)
| MergedAndCached        (** "Set and cached tasks successfully with real data" *)
| UsedCache              (** "Using existing N cached tasks" *)
| FoundAsMe              (** "... completed tasks with paginated approach" *)
| FoundUndated           (** "... with final paginated approach" *)
| FoundNothing           (** none of the three queries returned a task *)
| TasksApiError (e : Exn)  (** "Using mock data due to tasks API error" *)
| FetchError (e : Exn).    (** "Using mock data due to error" *)

Inductive RefreshEnd : Type :=
| NoAccessToken
| NoLastSyncDate         (** "No last sync date found, skipping auto-refresh" *)
| NoWorkspace            (** user data missing or without workspace *)
| NoNewTasks             (** "No new tasks to add, keeping existing cache" *)
| RefreshMerged          (** "Merged: ..." *)
| RefreshError (e : Exn).  (** "Auto-refresh error:" *)

Inductive LookbackEnd : Type :=
| LookbackDemo
| LookbackCached         (** "Set and cached tasks successfully with real data" *)
| LookbackEmpty          (** "No completed tasks found" *)
| LookbackTasksError (e : Exn)  (** "Error fetching tasks:" *)
| LookbackNoWorkspace
| LookbackError (e : Exn).      (** "Error:" *)

Definition taskTypes : list string :=
  ["Research"; "Design"; "Development"; "Testing"; "Deployment";
   "Documentation"; "Meeting"].

Definition FIVE_MINUTES_MS : Z := 5 * 60 * 1000.

Definition tasksPerPage : nat := 100.

(** The record pushed by the [i]-th turn of [generateMockTasks], completed
    [days] days before [today]. *)
Definition mockTask (i days : nat) (today : Z) : Task :=
  {| gid := None;
     task_id := Some ("task-" ++ Js.ofNat i)%string;
     name := (nth (i mod List.length taskTypes) taskTypes "" ++ " Task "
              ++ Js.ofNat i)%string;
     completed := true;
     completed_at := Some (IsoDaysBefore days today);
     resource_type := Some "task" |}.

(** The user-facing messages of the outer [catch] of [fetchTasksForToken]. *)
Definition classify (errorMessage : string) : string :=
  if Js.includes "401" errorMessage then
    "Authentication failed: Your Asana token might be invalid or expired. Please get a new token."
  else if Js.includes "403" errorMessage then
    "Access denied: You don't have permission to access this Asana resource."
  else if Js.includes "429" errorMessage then
    "Rate limit exceeded: Too many requests to Asana. Please try again later."
  else if Js.includes "5" errorMessage then
    "Asana server error: The Asana service might be experiencing issues. Please try again later."
  else if Js.includes "fetch" errorMessage || Js.includes "network" errorMessage then
    "Network error: Could not connect to Asana. Please check your internet connection."
  else if Js.includes "Timestamp must be in ISO-8601" errorMessage then
    "Date format error: We've fixed the date format issue. Please try again."
  else if Js.includes "Must specify exactly one of" errorMessage then
    "API requirement: We've updated the API query format. Please try again."
  else ("Failed to fetch tasks from Asana: " ++ errorMessage)%string.

(** [userData && userData.workspaces && userData.workspaces.length > 0],
    with [workspaces[0].gid] and [userData.gid]. *)
Definition firstWorkspace (userData : option UserData) : option (string * string) :=
  match userData with
  | Some u =>
      match workspaces u with
      | Some (ws :: _) => Some (ws_gid ws, user_gid u)
      | _ => None
      end
  | None => None
  end.

Definition nonEmpty {A} (l : list A) : bool := (0 <? List.length l)%nat.

Arguments nonEmpty {A} l : simpl never.

Section App.

Variable remote : Remote.

(** [Math.floor(Math.random() * n)]: the next draw, brought below [n]. *)
Definition randomBelow (n : nat) : M nat :=
  fun w => (Ret (dice remote (rolls w) mod n),
            mkWorld (storage w) (app w) (form w) (clock w) (S (rolls w)) (trace w)).

(** The [for] loop of [generateMockTasks], [n] turns from index [i]. *)
Fixpoint mockLoop (n i : nat) (tasks : list Task) : M (list Task) :=
  match n with
  | O => ret tasks
  | S n' =>
      today <- dateNow ;;
      days <- randomBelow 30 ;;
      mockLoop n' (S i) (tasks ++ [mockTask i days today])
  end.

Definition generateMockTasks (count : nat) : M (list Task) :=
  mockLoop count 1 [].

Definition getThirtyDaysAgoISOString : M DateStr :=
  now <- dateNow ;; ret (IsoDaysBefore 30 now).

Definition getOneYearAgoISOString : M DateStr :=
  now <- dateNow ;; ret (IsoYearsBefore 1 now).

Definition isCacheStale (timestamp : Z) : M bool :=
  now <- dateNow ;;
  ret (now - timestamp >? FIVE_MINUTES_MS)%Z.

(** [await fetch(userEndpoint, { headers })] and reading the answer. *)
Definition fetchUser (accessToken : string) : M UserReply :=
  emit (FetchUser accessToken) ;;
  elapse (Z.of_N (userLatency remote)) ;;
  match userReply remote accessToken with
  | UserRejected e => throw e
  | reply => ret reply
  end.

Definition fetchPage (accessToken : string) (q : TaskQuery) : M PageReply :=
  emit (FetchTasks accessToken q) ;;
  elapse (Z.of_N (pageLatency remote q)) ;;
  match pageReply remote accessToken q with
  | PageRejected e => throw e
  | reply => ret reply
  end.

Definition fetchUserData (accessToken : string) : M (option UserData) :=
  userResponse <- fetchUser accessToken ;;
  match userResponse with
  | UserOk data => ret data
  | _ => ret None
  end.

(** The [while (hasMore)] loop, shared by the three listings of the
    source, which differ in their endpoint only.  [fuel] bounds the
    number of pages followed. *)
Fixpoint fetchPages (fuel : nat) (accessToken : string)
    (tasksEndpoint : option string -> TaskQuery)
    (offset : option string) (allCompletedTasks : list Task)
    : M (list Task) :=
  match fuel with
  | O => starve
  | S fuel' =>
      tasksResponse <- fetchPage accessToken (tasksEndpoint offset) ;;
      match tasksResponse with
      | PageOk data next_page_offset =>
          let completedTasks := filter completed data in
          let allCompletedTasks := allCompletedTasks ++ completedTasks in
          match Js.truthy next_page_offset with
          | Some offset' =>
              fetchPages fuel' accessToken tasksEndpoint (Some offset')
                         allCompletedTasks
          | None => ret allCompletedTasks
          end
      | _ => ret allCompletedTasks        (* [break] *)
      end
  end.

Definition assignedEndpoint (workspace userId : string) (completedSince : DateStr)
    (offset : option string) : TaskQuery :=
  mkQuery workspace userId (Some completedSince) tasksPerPage offset
          "gid,name,completed,completed_at".

Definition meEndpoint (workspace : string) (completedSince : DateStr)
    (offset : option string) : TaskQuery :=
  mkQuery workspace "me" (Some completedSince) tasksPerPage offset
          "name,completed,completed_at".

Definition allTasksEndpoint (workspace : string) (offset : option string)
    : TaskQuery :=
  mkQuery workspace "me" None tasksPerPage offset "name,completed,completed_at".

Definition fetchAssignedTasks (fuel : nat)
    (accessToken workspace userId : string) (completedSince : DateStr)
    : M (list Task) :=
  fetchPages fuel accessToken (assignedEndpoint workspace userId completedSince)
             None [].

(** The demo branch of both fetch functions. *)
Definition demoMode : M unit :=
  setTimeout (mockTasks <- generateMockTasks 15 ;;
              setTasks mockTasks ;;
              setLoading false) 1000.

Definition autoRefreshTasks (fuel : nat) (accessToken : string) : M RefreshEnd :=
  if accessToken =? "" then ret NoAccessToken
  else
    tryFinally
      (tryCatch
         (lastSyncDate <- taskStorage.getLastSyncDate ;;
          match truthyDate lastSyncDate with
          | None => setAutoRefreshing false ;; ret NoLastSyncDate
          | Some lastSyncDate =>
              existingTasks <- taskStorage.getTasks ;;
              userData <- fetchUserData accessToken ;;
              match firstWorkspace userData with
              | Some (workspace, userId) =>
                  newTasks <- fetchAssignedTasks fuel accessToken workspace
                                                 userId lastSyncDate ;;
                  if nonEmpty newTasks then
                    let taskMap := seedMap existingTasks in
                    let taskMap := mergeInto taskMap newTasks in
                    let mergedTasks := JsMap.values taskMap in
                    setTasks mergedTasks ;;
                    taskStorage.saveTasks mergedTasks ;;
                    date <- newDateISOString ;;
                    taskStorage.saveLastSyncDate date ;;
                    ret RefreshMerged
                  else ret NoNewTasks
              | None => ret NoWorkspace
              end
          end)
         (fun error => ret (RefreshError error)))
      (setAutoRefreshing false).

Definition fetchTasksWithLookback (fuel : nat) (accessToken : string)
    (lookbackDate : DateStr) : M LookbackEnd :=
  setLoading true ;;
  setError None ;;
  if accessToken =? "demo" then demoMode ;; ret LookbackDemo
  else
    tryCatch
      (userResponse <- fetchUser accessToken ;;
       match userResponse with
       | UserRejected e => throw e
       | UserNotOk status errorText =>
           throw (newError ("Asana API error: " ++ Js.ofNat status ++ " - "
                            ++ errorText)%string)
       | UserOk data =>
           match firstWorkspace data with
           | Some (workspace, userId) =>
               tryCatch
                 (allTasks <- fetchAssignedTasks fuel accessToken workspace
                                                 userId lookbackDate ;;
                  if nonEmpty allTasks then
                    setTasks allTasks ;;
                    taskStorage.saveTasks allTasks ;;
                    date <- newDateISOString ;;
                    taskStorage.saveLastSyncDate date ;;
                    setLoading false ;;
                    ret LookbackCached
                  else
                    setTasks [] ;;
                    setLoading false ;;
                    ret LookbackEmpty)
                 (fun error =>
                    setError (Some ("Failed to fetch tasks: "
                                    ++ errorToString error)%string) ;;
                    setLoading false ;;
                    ret (LookbackTasksError error))
           | None =>
               setError (Some "No workspaces found in your Asana account") ;;
               setLoading false ;;
               ret LookbackNoWorkspace
           end
       end)
      (fun error =>
         setError (Some ("Failed to connect to Asana: "
                         ++ errorToString error)%string) ;;
         setLoading false ;;
         ret (LookbackError error)).

Definition fetchAllHistoricalTasks (fuel : nat) : M (option LookbackEnd) :=
  a <- getApp ;;
  match Js.truthy (token a) with
  | Some token =>
      taskStorage.clearTasks ;;
      lookbackDate <- getOneYearAgoISOString ;;
      r <- fetchTasksWithLookback fuel token lookbackDate ;;
      ret (Some r)
  | None => ret None
  end.

Definition handleAsanaConnect (newToken : string) : M unit :=
  setError None ;;
  setToken (Some newToken) ;;
  (if newToken =? "demo" then ret tt else tokenStorage.saveToken newToken) ;;
  taskStorage.clearTasks.

Definition fetchTasksForToken (fuel : nat) (accessToken : string) : M FetchEnd :=
  setLoading true ;;
  setError None ;;
  if accessToken =? "demo" then demoMode ;; ret DemoData
  else
    existingTasks <- taskStorage.getTasks ;;
    let taskMap := seedMap existingTasks in
    tryFinally
      (tryCatch
         (userResponse <- fetchUser accessToken ;;
          match userResponse with
          | UserRejected e => throw e
          | UserNotOk status errorText =>
              throw (newError ("Asana API error: " ++ Js.ofNat status ++ " - "
                               ++ errorText)%string)
          | UserOk data =>
              match firstWorkspace data with
              | Some (workspace, userId) =>
                  lastSyncDate <- taskStorage.getLastSyncDate ;;
                  thirtyDaysAgo <- getThirtyDaysAgoISOString ;;
                  let completedSince :=
                    match truthyDate lastSyncDate with
                    | Some d => d
                    | None => thirtyDaysAgo
                    end in
                  tryCatch
                    (newCompletedTasks <-
                       fetchAssignedTasks fuel accessToken workspace userId
                                          completedSince ;;
                     if nonEmpty newCompletedTasks then
                       let taskMap := mergeInto taskMap newCompletedTasks in
                       let mergedTasks := JsMap.values taskMap in
                       setTasks mergedTasks ;;
                       taskStorage.saveTasks mergedTasks ;;
                       date <- newDateISOString ;;
                       taskStorage.saveLastSyncDate date ;;
                       setLoading false ;;
                       ret MergedAndCached
                     else if nonEmpty existingTasks then
                       setTasks existingTasks ;;
                       setLoading false ;;
                       ret UsedCache
                     else
                       allCompletedTasks <-
                         fetchPages fuel accessToken
                                    (meEndpoint workspace completedSince) None [] ;;
                       if nonEmpty allCompletedTasks then
                         setTasks allCompletedTasks ;;
                         setLoading false ;;
                         ret FoundAsMe
                       else
                         allCompletedTasks <-
                           fetchPages fuel accessToken
                                      (allTasksEndpoint workspace) None [] ;;
                         if nonEmpty allCompletedTasks then
                           setTasks allCompletedTasks ;;
                           setLoading false ;;
                           ret FoundUndated
                         else ret FoundNothing)
                    (fun apiError =>
                       mockTasks <- generateMockTasks 20 ;;
                       setTasks mockTasks ;;
                       ret (TasksApiError apiError))
              | None =>
                  throw (newError "No workspaces found in your Asana account. Please ensure you have access to at least one workspace.")
              end
          end)
         (fun error =>
            setError (Some (classify (message error))) ;;
            mockTasks <- generateMockTasks 20 ;;
            setTasks mockTasks ;;
            ret (FetchError error)))
      (setLoading false).

Definition handleDisconnect : M unit :=
  tokenStorage.clearToken ;;
  taskStorage.clearTasks ;;
  setToken None ;;
  setTasks [].

(** The first [useEffect]: runs once, when the page loads.  It returns
    the token [autoRefreshTasks] is started with, if it is. *)
Definition mountEffect : M (option string) :=
  savedToken <- tokenStorage.getToken ;;
  match Js.truthy savedToken with
  | Some savedToken =>
      setToken (Some savedToken) ;;
      cachedTasks <- taskStorage.getTasks ;;
      if nonEmpty cachedTasks then
        setTasks cachedTasks ;;
        cacheTimestamp <- taskStorage.getLastSyncTimestamp ;;
        stale <- match cacheTimestamp with
                 | Some ts => if (ts =? 0)%Z then ret false else isCacheStale ts
                 | None => ret false
                 end ;;
        if stale then setAutoRefreshing true ;; ret (Some savedToken)
        else setLoading false ;; ret None
      else ret None
  | None => ret None
  end.

(** The second [useEffect]: runs when [token] has changed. *)
Definition tokenEffect (fuel : nat) : M (option FetchEnd) :=
  a <- getApp ;;
  match Js.truthy (token a) with
  | Some token =>
      if (List.length (tasks a) =? 0)%nat || (token =? "demo") then
        r <- fetchTasksForToken fuel token ;; ret (Some r)
      else ret None
  | None => ret None
  end.

(** The two effects of [App] in the order in which they run when the
    page loads, followed by the refresh the first of them starts:
    [autoRefreshTasks] is not awaited, so its network part runs after
    [tokenEffect].  This is [App] on its own.  The connect form it mounts
    in its first render, whose timer calls [handleAsanaConnect] 100 ms
    later, and the reads of [debugStorage] belong to [pageLoad]. *)
Definition bootstrap (fuel : nat) : M (option RefreshEnd) :=
  refresh <- mountEffect ;;
  tokenEffect fuel ;;
  match refresh with
  | Some savedToken => r <- autoRefreshTasks fuel savedToken ;; ret (Some r)
  | None => ret None
  end.

(** [connect(credential)]: the handler, then the effect its [setToken]
    sets off. *)
Definition connect (fuel : nat) (credential : string) : M (option FetchEnd) :=
  handleAsanaConnect credential ;;
  tokenEffect fuel.

End App.

(** [taskStorage.getTasks()] as a function of the storage. *)
Definition cachedTasks (s : Storage) : list Task :=
  match tasksItem s with
  | Some cache => TaskCache.tasks cache
  | None => []
  end.

Arguments fetchPages : simpl never.
Arguments fetchAssignedTasks : simpl never.
Arguments generateMockTasks : simpl never.
Arguments mergeInto : simpl never.
Arguments seedMap : simpl never.
Arguments classify : simpl never.

(** The records [generateMockTasks] returns when called at time [today]
    after [drawn] draws of the generator. *)
Definition mockList (remote : Remote) (today : Z) (drawn count : nat) : list Task :=
  map (fun j => mockTask (S j) (dice remote (drawn + j) mod 30) today)
      (seq 0 count).

(** A world after [n] more draws of the generator. *)
Definition rolled (n : nat) (w : World) : World :=
  mkWorld (storage w) (app w) (form w) (clock w) (rolls w + n) (trace w).

(* ===================================================================== *)
(** * components/AsanaConnect.tsx *)
(* ===================================================================== *)

Module AsanaConnect.

Section Handlers.

(** The [onConnect] prop. *)
Variable onConnect : string -> M unit.

Definition handleConnect : M unit :=
  f <- getForm ;;
  let tokenToUse :=
    match Js.truthy (Some (Js.trim (formToken f))) with
    | Some t => t
    | None => "demo"
    end in
  (if tokenToUse =? "demo" then ret tt
   else tokenStorage.saveToken tokenToUse ;; setHasSavedToken true) ;;
  onConnect tokenToUse.

Definition handleDemoConnect : M unit := onConnect "demo".

Definition handleClearToken : M unit :=
  tokenStorage.clearToken ;;
  setFormToken "" ;;
  setHasSavedToken false.

(** The [useEffect] of the form, run once when it is mounted.  Both
    timers are set before either fires; the second only moves the focus
    to the input, which is not modelled, no more than the [isLoaded]
    cell, which is never read. *)
Definition autoConnectEffect : M unit :=
  savedToken <- tokenStorage.getToken ;;
  match Js.truthy savedToken with
  | Some savedToken =>
      setFormToken savedToken ;;
      setHasSavedToken true ;;
      emit (SetTimeout 100) ;;
      emit (SetTimeout 100) ;;
      elapse 100 ;;
      onConnect savedToken
  | None =>
      emit (SetTimeout 100) ;;
      elapse 100
  end.

(** The same effect in two parts, for a page on which other code runs
    between them: what it does when the form is mounted, returning the
    token the first timer holds, and what the timers do when they fire,
    whether or not the form is still mounted (the effect returns no
    cleanup). *)
Definition mountBody : M (option string) :=
  savedToken <- tokenStorage.getToken ;;
  match Js.truthy savedToken with
  | Some savedToken =>
      setFormToken savedToken ;;
      setHasSavedToken true ;;
      emit (SetTimeout 100) ;;
      emit (SetTimeout 100) ;;
      ret (Some savedToken)
  | None =>
      emit (SetTimeout 100) ;;
      ret None
  end.

Definition timersFire (saved : option string) : M unit :=
  elapse 100 ;;
  match saved with
  | Some savedToken => onConnect savedToken
  | None => ret tt
  end.

(** [onChange] of the input, with [e.target.value]. *)
Definition handleTokenChange (newToken : string) : M unit :=
  setFormToken newToken.

Definition handleSubmit : M unit := handleConnect.

Definition handleForceReset : M unit :=
  setFormToken "" ;;
  setHasSavedToken false ;;
  tokenStorage.clearToken.

End Handlers.

End AsanaConnect.

(* ===================================================================== *)
(** * The plant catalogue (second part of services/taskStorage.ts) *)
(* ===================================================================== *)

Module plants.

Record PlantAsset : Type := mkPlant {
  plant_id : string;
  plant_name : string;
  imageUrl : string;
  width : nat;
  height : nat
}.

(** [PLANTS]: the categories in the order of the object literal, which
    is the order of [Object.keys]. *)
Definition PLANTS : list (string * list PlantAsset) :=
  [ ("trees",
     [ mkPlant "oak" "Oak Tree" "https://i.imgur.com/wqKBh2k.png" 128 256;
       mkPlant "pine" "Pine Tree" "https://i.imgur.com/GJgSxjw.png" 96 224 ]);
    ("flowers",
     [ mkPlant "rose" "Rose" "https://i.imgur.com/cY8sTxK.png" 64 96;
       mkPlant "sunflower" "Sunflower" "https://i.imgur.com/tfpDJ1P.png" 64 128 ]);
    ("bushes",
     [ mkPlant "berry" "Berry Bush" "https://i.imgur.com/OZH8Dbm.png" 96 96 ]);
    ("decorations",
     [ mkPlant "rock" "Rock" "https://i.imgur.com/Kb1dnhI.png" 64 48;
       mkPlant "pond" "Pond" "https://i.imgur.com/L9Xtlcj.png" 128 96 ]) ].

(** [PLANTS[category]] *)
Fixpoint lookup (category : string) (table : list (string * list PlantAsset))
    : option (list PlantAsset) :=
  match table with
  | [] => None
  | (k, v) :: rest => if category =? k then Some v else lookup category rest
  end.

Section Select.

Variable remote : Remote.

(** The result is [None] where the source would return [undefined]; an
    index into [undefined] throws a [TypeError]. *)
Definition getPlantForTask (_task : Task) : M (option PlantAsset) :=
  let plantCategories := map fst PLANTS in
  i <- randomBelow remote (List.length plantCategories) ;;
  match nth_error plantCategories i with
  | Some randomCategory =>
      match lookup randomCategory PLANTS with
      | Some plantsInCategory =>
          j <- randomBelow remote (List.length plantsInCategory) ;;
          ret (nth_error plantsInCategory j)
      | None =>
          throw (mkExn "TypeError" "Cannot read properties of undefined (reading 'length')")
      end
  | None =>
      throw (mkExn "TypeError" "Cannot read properties of undefined (reading 'length')")
  end.

End Select.

End plants.

(* ===================================================================== *)
(** * components/Garden.tsx: the grid of plants *)
(* ===================================================================== *)

(** The layout computed by [renderBeautifulPlants] for a list of [n]
    tasks, before the random displacement of each plant.  [Math.sqrt] is
    taken as the correctly rounded root of IEEE 754, for which the
    ceiling of the root and of the quotient are the exact ones at every
    length an array can have.  The function is called for [n > 0] only:
    the effect that calls it returns early on an empty list. *)
Module Garden.

(** [Math.ceil(Math.sqrt(taskList.length * 2))] *)
Definition plantsPerRow (n : nat) : nat := Nat.sqrt_up (n * 2).

(** [Math.ceil(taskList.length / plantsPerRow)] *)
Definition rows (n : nat) : nat := (n + plantsPerRow n - 1) / plantsPerRow n.

(** [Math.floor(index / plantsPerRow)] *)
Definition row (n index : nat) : nat := index / plantsPerRow n.

(** [index % plantsPerRow] *)
Definition col (n index : nat) : nat := index mod plantsPerRow n.

(** [plantContainer.zIndex = 10 + row] *)
Definition zIndex (n index : nat) : nat := 10 + row n index.

End Garden.

(* ===================================================================== *)
(** * Vocabulary of the statements *)
(* ===================================================================== *)

Definition insertAll (ins : list (string * Task)) (m : JsMap.t) : JsMap.t :=
  fold_left (fun m kv => JsMap.set (fst kv) (snd kv) m) ins m.

(** Every entry sits under the identifier of its record. *)
Definition keyed (m : list (string * Task)) : Prop :=
  Forall (fun kv => identifier (snd kv) = Some (fst kv)) m.

(** The identifiers of the records that have one, in order. *)
Definition identifiers (tasks : list Task) : list string :=
  map fst (insertions tasks).

Definition knownIn (ks : list string) (k : string) : bool :=
  existsb (String.eqb k) ks.

(** The map both operations build, as a run of insertions. *)
Definition mergedMap (existingTasks newTasks : list Task) : JsMap.t :=
  insertAll (insertions existingTasks ++ insertions newTasks) JsMap.empty.

(** A cache is well formed when every record has an identifier and no
    two records share one. *)
Definition wellFormed (cached : list Task) : Prop :=
  Forall (fun t => identifier t <> None) cached /\ NoDup (identifiers cached).

(** [w'] differs from [w] by network traffic only: time has passed and
    requests satisfying [P] were logged. *)
Record traffic (P : Event -> Prop) (w w' : World) : Prop := mkTraffic {
  traffic_storage : storage w' = storage w;
  traffic_app : app w' = app w;
  traffic_form : form w' = form w;
  traffic_rolls : rolls w' = rolls w;
  traffic_clock : (clock w <= clock w')%Z;
  traffic_trace : exists evs, trace w' = trace w ++ evs /\ Forall P evs
}.

Definition isPageFetch (accessToken : string)
    (endpoint : option string -> TaskQuery) (e : Event) : Prop :=
  exists offset, e = FetchTasks accessToken (endpoint offset).

Definition isRead (e : Event) : Prop :=
  match e with GetItem _ => True | _ => False end.


(** A synthetic record: completed, without [gid], dated at most 29 days
    before [today]. *)
Definition synthetic (today : Z) (t : Task) : Prop :=
  completed t = true /\ gid t = None /\ resource_type t = Some "task"
  /\ exists days, days < 30 /\ completed_at t = Some (IsoDaysBefore days today).

(** Every listing request among the events asked for tasks completed
    since [since]. *)
Definition listedSince (since : DateStr) (e : Event) : Prop :=
  match e with
  | FetchTasks _ q => completed_since q = Some since
  | _ => True
  end.

(** The lower bound [fetchTasksForToken] lists from: the cursor, or
    thirty days before the time the identity lookup returned. *)
Definition completedSinceAt (remote : Remote) (w : World) : DateStr :=
  match truthyDate (lastSyncItem (storage w)) with
  | Some d => d
  | None => IsoDaysBefore 30 (clock w + Z.of_N (userLatency remote))
  end.


(** The world one second after the demo timer was set in [w]. *)
Definition afterDemo (remote : Remote) (w : World) : World :=
  mkWorld (storage w)
          (mkApp (token (app w))
                 (mockList remote (clock w + 1000) (rolls w) 15)
                 false None (autoRefreshing (app w)))
          (form w) (clock w + 1000) (rolls w + 15)
          (trace w ++ [SetTimeout 1000]).

(** The page after a reload: localStorage persists, the state of the
    components starts afresh. *)
Definition reload (w : World) : World :=
  mkWorld (storage w) (mkApp None [] false None false) (mkForm "" false)
          (clock w) (rolls w) (trace w).

(** An operation leaves the stored credential as it found it. *)
Definition keepsCredential {A} (m : M A) : Prop :=
  forall w, tokenItem (storage (run m w)) = tokenItem (storage w).

(** No request went out among the events. *)
Definition isLocal (e : Event) : Prop :=
  match e with
  | FetchUser _ | FetchTasks _ _ => False
  | _ => True
  end.

(** The identifiers of two task lists are disjoint. *)
Definition apart (cached incoming : list Task) : Prop :=
  forall k, In k (identifiers cached) -> ~ In k (identifiers incoming).

(** What a listing call gives back with [more] put in place of its
    result. *)
Definition mapOutcome {A B} (f : A -> B) (o : Outcome A) : Outcome B :=
  match o with
  | Ret a => Ret (f a)
  | Throw e => Throw e
  | Starved => Starved
  end.

(** A record the remote sends on some page of a listing. *)
Definition sentBy (remote : Remote) (accessToken : string)
    (endpoint : option string -> TaskQuery) (t : Task) : Prop :=
  exists offset data next,
    pageReply remote accessToken (endpoint offset) = PageOk data next
    /\ In t data.

(** The same page [ms] milliseconds later. *)
Definition later (ms : Z) (w : World) : World :=
  mkWorld (storage w) (app w) (form w) (clock w + ms) (rolls w) (trace w).

(** A request, if [e] is one, carries the credential [accessToken], and
    a listing request asks for pages of [tasksPerPage]. *)
Definition sentWith (accessToken : string) (e : Event) : Prop :=
  match e with
  | FetchUser t => t = accessToken
  | FetchTasks t q => t = accessToken /\ limit q = tasksPerPage
  | _ => True
  end.

(** Nothing went out and nothing was written among the events: reads
    and timers only. *)
Definition isQuiet (e : Event) : Prop :=
  match e with
  | GetItem _ | SetTimeout _ => True
  | _ => False
  end.

(* ===================================================================== *)
(** * The page load *)
(* ===================================================================== *)

(** The test of the second effect of [App]: the token
    [fetchTasksForToken] is called with, if it is. *)
Definition tokenEffectTarget : M (option string) :=
  a <- getApp ;;
  match Js.truthy (token a) with
  | Some token =>
      if (List.length (tasks a) =? 0)%nat || (token =? "demo") then
        ret (Some token)
      else ret None
  | None => ret None
  end.

(** How far a page load is followed: until nothing is under way any
    more, or until [App] starts a request. *)
Inductive LoadEnd : Type :=
| Settled                          (** the timers of the form have fired *)
| RefreshStarted (savedToken : string)  (** [autoRefreshTasks(savedToken)] *)
| FetchStarted (token : string).        (** [fetchTasksForToken(token)] *)

(** A load of the page, as React runs it in a production build: the
    import of the token storage, the first render with its effects, the
    form's before [App]'s, and the render that follows once the token is
    set.  When [App] starts the refresh or the fetch, the load is
    followed up to that call and no further: the timer of the form then
    fires while the requests are under way, an interleaving the
    embedding does not order.  Otherwise it is followed until the timers
    have fired, on a form that is no longer mounted if a token was
    found. *)
Definition pageLoad : M LoadEnd :=
  fun w =>
    (tokenStorage.debugStorage ;;
     saved <- AsanaConnect.mountBody ;;
     refresh <- mountEffect ;;
     match refresh with
     | Some savedToken => ret (RefreshStarted savedToken)
     | None =>
         target <- tokenEffectTarget ;;
         match target with
         | Some token => ret (FetchStarted token)
         | None =>
             AsanaConnect.timersFire handleAsanaConnect saved ;;
             ret Settled
         end
     end) (reload w).

(* ===================================================================== *)
(** * Sample data *)
(* ===================================================================== *)

Module Sample.

(** A task as the listing endpoint returns it. *)
Definition apiTask (gid name : string) (completedMs : Z) : Task :=
  mkTask (Some gid) None name true (Some (IsoOf completedMs)) None.

Definition roses : Task := apiTask "1201" "Water the roses" 1000.
Definition hedge : Task := apiTask "1202" "Trim the hedge" 2000.
Definition hedge' : Task := apiTask "1202" "Trim the hedge again" 2500.
Definition pond : Task := apiTask "1203" "Clean the pond" 3000.
Definition stray : Task :=
  mkTask None None "No identifier" true (Some (IsoOf 4000)) None.

Definition initialApp : AppState := mkApp None [] false None false.

Definition noStorage : Storage := mkStorage None None None.

(** The login page, with [input] typed into the token field. *)
Definition loginPage (input : string) : World :=
  mkWorld noStorage initialApp (mkForm input false) 1700000000000 0 [].

Definition failedToFetch : Exn := mkExn "TypeError" "Failed to fetch".

(** No network: every request is rejected. *)
Definition offline : Remote :=
  mkRemote (fun _ => UserRejected failedToFetch) 0
           (fun _ _ => PageRejected failedToFetch) (fun _ => 0%N)
           (fun n => n).

Definition me : UserData := mkUser "u7" (Some [mkWorkspace "ws1"]).

Definition unfinished : Task :=
  mkTask (Some "1204") None "Plant the bulbs" false None None.

(** A remote with three completed tasks on two pages. *)
Definition garden : Remote :=
  mkRemote (fun _ => UserOk (Some me)) 120
           (fun _ q =>
              match offset q with
              | None => PageOk [roses; hedge] (Some "p2")
              | Some _ => PageOk [pond; unfinished] None
              end)
           (fun _ => 250%N)
           (fun n => 7 * n + 3).

Definition credential : string := "1/1201".

(** A connected session with two cached records, last synced at
    [1699990000000]. *)
Definition connected : World :=
  mkWorld (mkStorage (Some credential)
                     (Some (TaskCache.make [roses; stray] 1699990000000))
                     (Some (IsoOf 1699990000000)))
          (mkApp (Some credential) [roses; stray] false None false)
          (mkForm "" false) 1700000000000 0 [].

(** A remote whose second page of tasks fails with a server error. *)
Definition brokenSecondPage : Remote :=
  mkRemote (fun _ => UserOk (Some me)) 120
           (fun _ q =>
              match offset q with
              | None => PageOk [pond] (Some "p2")
              | Some _ => PageNotOk 500 "Internal Server Error"
              end)
           (fun _ => 250%N)
           (fun n => 7 * n + 3).




(** The login page of a browser that still holds a cache. *)
Definition leftover : World :=
  mkWorld (mkStorage None
                     (Some (TaskCache.make [roses; hedge] 1699990000000))
                     (Some (IsoOf 1699990000000)))
          initialApp (mkForm "" false) 1700000000000 0 [].

(** A session opened with the demo button. *)
Definition demoSession : World :=
  mkWorld noStorage (mkApp (Some "demo") [] false None false)
          (mkForm "" false) 1700000000000 0 [].

(** A remote whose listing endpoint is down: every page is answered with
    status 503. *)
Definition outage : Remote :=
  mkRemote (fun _ => UserOk (Some me)) 120
           (fun _ _ => PageNotOk 503 "Service Unavailable") (fun _ => 250%N)
           (fun n => n).

(** A remote that revokes every token. *)
Definition revoked : Remote :=
  mkRemote (fun _ => UserNotOk 401 "Not Authorized") 120
           (fun _ _ => PageNotOk 401 "Not Authorized") (fun _ => 250%N)
           (fun n => n).

(** A remote that lists nothing under the user's identifier and one
    task under [assignee=me]. *)
Definition onlyAsMe : Remote :=
  mkRemote (fun _ => UserOk (Some me)) 120
           (fun _ q => if assignee q =? "me" then PageOk [roses; unfinished] None
                       else PageOk [] None)
           (fun _ => 250%N)
           (fun n => n).

(** A browser that holds a credential and nothing else. *)
Definition returning : World :=
  mkWorld (mkStorage (Some credential) None None)
          initialApp (mkForm "" false) 1700000000000 0 [].

(** A browser that holds a credential and a cache taken a minute ago. *)
Definition fresh : World :=
  mkWorld (mkStorage (Some credential)
                     (Some (TaskCache.make [roses; hedge] 1699999940000))
                     (Some (IsoOf 1699999940000)))
          initialApp (mkForm "" false) 1700000000000 0 [].

End Sample.

(* ===================================================================== *)
(** * Properties *)
(* ===================================================================== *)

(** ** The insertion-ordered map *)

Section MapFacts.

Import JsMap.

Lemma get_In_keys k m v : get k m = Some v -> In k (keys m).
Proof.
  induction m as [|[k' v'] rest IH]; simpl; [discriminate|].
  destruct (String.eqb_spec k k') as [->|ne]; auto.
Qed.

Lemma get_notin_keys k m : ~ In k (keys m) -> get k m = None.
Proof.
  induction m as [|[k' v'] rest IH]; simpl; [reflexivity|].
  intros H. destruct (String.eqb_spec k k') as [->|ne].
  - exfalso; apply H; now left.
  - apply IH; intros Hin; apply H; now right.
Qed.

Lemma has_true_iff k m : has k m = true <-> In k (keys m).
Proof.
  unfold has. split.
  - destruct (get k m) eqn:E; [|discriminate]. intros _. eapply get_In_keys; eauto.
  - intros H. destruct (get k m) eqn:E; [reflexivity|].
    exfalso. revert H E. induction m as [|[k' v'] rest IH]; simpl; [tauto|].
    destruct (String.eqb_spec k k') as [->|ne]; [discriminate|].
    intros [->|H]; [congruence|auto].
Qed.

Lemma keys_set k v m :
  keys (set k v m) = if has k m then keys m else keys m ++ [k].
Proof.
  unfold has. induction m as [|[k' v'] rest IH]; simpl; [reflexivity|].
  destruct (String.eqb_spec k k') as [->|ne]; simpl; [reflexivity|].
  rewrite IH. destruct (get k rest); reflexivity.
Qed.

Lemma get_set k' k v m :
  get k' (set k v m) = if k' =? k then Some v else get k' m.
Proof.
  induction m as [|[k0 v0] rest IH]; simpl.
  - destruct (k' =? k); reflexivity.
  - destruct (String.eqb_spec k k0) as [->|ne]; simpl.
    + destruct (k' =? k0); reflexivity.
    + rewrite IH. destruct (String.eqb_spec k' k0) as [->|ne'];
        [|reflexivity].
      destruct (String.eqb_spec k0 k); [congruence|reflexivity].
Qed.

Lemma set_same k v m : get k m = Some v -> set k v m = m.
Proof.
  induction m as [|[k' v'] rest IH]; simpl; [discriminate|].
  destruct (String.eqb_spec k k') as [->|ne].
  - now intros [= ->].
  - intros H. now rewrite IH.
Qed.

Lemma set_fresh k v m : ~ In k (keys m) -> set k v m = m ++ [(k, v)].
Proof.
  induction m as [|[k' v'] rest IH]; simpl; [reflexivity|].
  intros H. destruct (String.eqb_spec k k') as [->|ne].
  - exfalso; apply H; now left.
  - rewrite IH; [reflexivity|]. intros Hin; apply H; now right.
Qed.

Lemma NoDup_keys_set k v m : NoDup (keys m) -> NoDup (keys (set k v m)).
Proof.
  intros ND. rewrite keys_set. destruct (has k m) eqn:E; [assumption|].
  apply NoDup_app; [assumption|repeat constructor; simpl; tauto|].
  intros x Hx [<-|[]]. apply has_true_iff in Hx. congruence.
Qed.

Lemma length_set k v m :
  size (set k v m) = if has k m then size m else S (size m).
Proof.
  unfold size. rewrite <- !(length_map fst). fold (keys (set k v m)) (keys m).
  rewrite keys_set. destruct (has k m); [reflexivity|].
  rewrite length_app; simpl; lia.
Qed.

(** A map with distinct keys is determined by its key order and its
    lookups. *)
Lemma canonical m :
  NoDup (keys m) -> m = flat_map (fun k => entry k (get k m)) (keys m).
Proof.
  induction m as [|[k v] rest IH]; simpl; [reflexivity|].
  intros ND. inversion ND as [|? ? Hk ND']; subst.
  rewrite String.eqb_refl. simpl. f_equal.
  rewrite (IH ND') at 1.
  clear IH. revert Hk. generalize (keys rest) as ks.
  induction ks as [|k' ks IHk]; simpl; [reflexivity|].
  intros Hk. destruct (String.eqb_spec k' k) as [->|ne]; [tauto|].
  f_equal. apply IHk. tauto.
Qed.

Lemma JsMap_ext m1 m2 :
  NoDup (keys m1) -> keys m1 = keys m2 ->
  (forall k, get k m1 = get k m2) -> m1 = m2.
Proof.
  intros ND Hk Hg.
  rewrite (canonical m1 ND).
  rewrite (canonical m2) by (rewrite <- Hk; exact ND).
  rewrite Hk. apply flat_map_ext. intros k. now rewrite Hg.
Qed.

End MapFacts.

(** ** Merging as a run of insertions *)

Section MergeFacts.

Import JsMap.

Lemma filter_filter_and {A} (f g : A -> bool) l :
  filter f (filter g l) = filter (fun x => g x && f x) l.
Proof.
  induction l as [|a l IH]; simpl; [reflexivity|].
  destruct (g a); simpl; [destruct (f a)|]; now rewrite IH.
Qed.

Lemma has_knownIn k m : has k m = knownIn (keys m) k.
Proof.
  unfold has, knownIn. induction m as [|[k' v'] rest IH]; simpl; [reflexivity|].
  destruct (k =? k'); simpl; [reflexivity|exact IH].
Qed.

Lemma has_set k' k v m : has k' (set k v m) = (k' =? k) || has k' m.
Proof. unfold has. rewrite get_set. now destruct (k' =? k). Qed.

Lemma mergeInto_insertAll ts m :
  mergeInto m ts = insertAll (insertions ts) m.
Proof.
  unfold mergeInto, insertAll, insertions. revert m.
  induction ts as [|t ts IH]; simpl; intros m; [reflexivity|].
  rewrite fold_left_app, IH. f_equal.
  unfold mergeStep, insertion. now destruct (identifier t).
Qed.

Lemma keys_insertAll ins m :
  keys (insertAll ins m)
  = keys m ++ filter (fun k => negb (has k m)) (firstOccurrences (map fst ins)).
Proof.
  unfold insertAll. revert m.
  induction ins as [|[k v] r IH]; simpl; intros m.
  - now rewrite app_nil_r.
  - rewrite IH, keys_set. rewrite filter_filter_and.
    destruct (has k m) eqn:E; simpl.
    + f_equal. apply filter_ext. intros k'. rewrite has_set.
      now rewrite negb_orb.
    + rewrite <- app_assoc. simpl. do 2 f_equal.
      apply filter_ext. intros k'. rewrite has_set. now rewrite negb_orb.
Qed.

Lemma lastInserted_from k ins acc :
  fold_left (fun a kv => if fst kv =? k then Some (snd kv) else a) ins acc
  = match lastInserted k ins with Some v => Some v | None => acc end.
Proof.
  unfold lastInserted. revert acc.
  induction ins as [|[k0 v0] r IH]; simpl; intros acc; [reflexivity|].
  rewrite IH. rewrite (IH (if k0 =? k then Some v0 else None)).
  destruct (fold_left _ r None); [reflexivity|].
  now destruct (k0 =? k).
Qed.

Lemma get_insertAll k ins m :
  get k (insertAll ins m)
  = match lastInserted k ins with Some v => Some v | None => get k m end.
Proof.
  rewrite <- lastInserted_from. unfold insertAll. revert m.
  induction ins as [|[k0 v0] r IH]; simpl; intros m; [reflexivity|].
  rewrite IH, get_set, (String.eqb_sym k0 k). reflexivity.
Qed.

Lemma NoDup_keys_insertAll ins m :
  NoDup (keys m) -> NoDup (keys (insertAll ins m)).
Proof.
  unfold insertAll. revert m.
  induction ins as [|[k v] r IH]; simpl; intros m ND; [assumption|].
  apply IH. now apply NoDup_keys_set.
Qed.

(** The operational map and the declarative one agree. *)
Lemma insertAll_empty ins : insertAll ins empty = insertionOrdered ins.
Proof.
  assert (ND : NoDup (keys (insertAll ins empty)))
    by (apply NoDup_keys_insertAll; constructor).
  rewrite (canonical _ ND) at 1.
  rewrite keys_insertAll. simpl.
  rewrite forallb_filter_id by (apply forallb_forall; reflexivity).
  unfold insertionOrdered. apply flat_map_ext. intros k.
  rewrite get_insertAll. simpl. now destruct (lastInserted k ins).
Qed.

Lemma keyed_set k v m :
  identifier v = Some k -> keyed m -> keyed (set k v m).
Proof.
  intros Hv. unfold keyed.
  induction m as [|[k' v'] rest IH]; simpl; intros Hm.
  - repeat constructor. exact Hv.
  - inversion Hm; subst. destruct (k =? k'); constructor; auto.
Qed.

Lemma keyed_insertions ts : keyed (insertions ts).
Proof.
  unfold keyed, insertions. induction ts as [|t ts IH]; simpl; [constructor|].
  apply Forall_app. split; [|exact IH].
  unfold insertion. destruct (identifier t) eqn:E; repeat constructor; exact E.
Qed.

Lemma keyed_insertAll ins m : keyed ins -> keyed m -> keyed (insertAll ins m).
Proof.
  unfold insertAll. revert m.
  induction ins as [|[k v] r IH]; simpl; intros m Hi Hm; [assumption|].
  inversion Hi; subst. apply IH; [assumption|]. now apply keyed_set.
Qed.

Lemma insertions_values m : keyed m -> insertions (values m) = m.
Proof.
  unfold keyed, insertions. induction m as [|[k v] rest IH]; simpl;
    intros Hm; [reflexivity|].
  inversion Hm as [|? ? Hv Hr]; subst. simpl in Hv.
  unfold insertion at 1. rewrite Hv. simpl. f_equal. now apply IH.
Qed.

Lemma insertAll_distinct m m0 :
  NoDup (keys (m0 ++ m)) -> insertAll m m0 = m0 ++ m.
Proof.
  unfold insertAll. revert m0.
  induction m as [|[k v] r IH]; simpl; intros m0 ND.
  - now rewrite app_nil_r.
  - assert (Hk : ~ In k (keys m0)).
    { unfold keys in *. rewrite map_app in ND. simpl in ND.
      apply NoDup_remove_2 in ND. intros Hin. apply ND.
      apply in_or_app. now left. }
    rewrite set_fresh by exact Hk.
    rewrite IH; rewrite <- app_assoc; [reflexivity|exact ND].
Qed.

Lemma In_get k v m : NoDup (keys m) -> In (k, v) m -> get k m = Some v.
Proof.
  induction m as [|[k' v'] rest IH]; simpl; [tauto|].
  intros ND [E|Hin]; inversion ND as [|? ? Hk ND']; subst.
  - inversion E; subst. now rewrite String.eqb_refl.
  - destruct (String.eqb_spec k k') as [->|ne]; [|auto].
    exfalso. apply Hk. unfold keys. change k' with (fst (k', v)).
    now apply in_map.
Qed.

Lemma get_In k v m : get k m = Some v -> In (k, v) m.
Proof.
  induction m as [|[k' v'] rest IH]; simpl; [discriminate|].
  destruct (String.eqb_spec k k') as [->|ne].
  - intros [= ->]. now left.
  - intros H. right. auto.
Qed.

Lemma mergeTasks_mergedMap c i : mergeTasks c i = values (mergedMap c i).
Proof.
  unfold mergeTasks, seedMap, mergedMap.
  rewrite !mergeInto_insertAll. unfold insertAll. now rewrite fold_left_app.
Qed.

Lemma mergedMap_keyed c i : keyed (mergedMap c i).
Proof.
  apply keyed_insertAll; [|constructor].
  apply Forall_app; split; apply keyed_insertions.
Qed.

Lemma mergedMap_NoDup c i : NoDup (keys (mergedMap c i)).
Proof. apply NoDup_keys_insertAll. constructor. Qed.

Lemma identifiers_values m : keyed m -> identifiers (values m) = keys m.
Proof. intros H. unfold identifiers. now rewrite insertions_values. Qed.

End MergeFacts.

Section MergeTheorems.

Import JsMap.

Lemma In_firstOccurrences k l : In k (firstOccurrences l) <-> In k l.
Proof.
  induction l as [|a l IH]; simpl; [tauto|].
  rewrite filter_In, IH. split.
  - intros [->|[H _]]; auto.
  - intros [->|H]; [now left|].
    destruct (String.eqb_spec k a) as [->|ne]; [now left|right; split; auto].
Qed.

Lemma knownIn_iff ks k : knownIn ks k = true <-> In k ks.
Proof.
  unfold knownIn. rewrite existsb_exists. split.
  - intros [x [Hin E]]. apply String.eqb_eq in E. now subst.
  - intros H. exists k. split; [assumption|apply String.eqb_refl].
Qed.

Lemma knownIn_firstOccurrences l k :
  knownIn (firstOccurrences l) k = knownIn l k.
Proof.
  destruct (knownIn l k) eqn:E.
  - apply knownIn_iff, In_firstOccurrences, knownIn_iff, E.
  - destruct (knownIn (firstOccurrences l) k) eqn:E'; [|reflexivity].
    apply knownIn_iff in E'. apply (proj1 (In_firstOccurrences _ _)) in E'.
    apply (proj2 (knownIn_iff _ _)) in E'. congruence.
Qed.

Lemma lastInserted_cons k k0 v0 r :
  lastInserted k ((k0, v0) :: r)
  = match lastInserted k r with
    | Some v => Some v
    | None => if k0 =? k then Some v0 else None
    end.
Proof. unfold lastInserted at 1. simpl. apply lastInserted_from. Qed.

Lemma lastInserted_Some k ins :
  In k (map fst ins) -> exists v, lastInserted k ins = Some v.
Proof.
  induction ins as [|[k0 v0] r IH]; simpl; [tauto|].
  intros H. rewrite lastInserted_cons.
  destruct (lastInserted k r) as [v|] eqn:E; [eauto|].
  destruct H as [->|H]; [rewrite String.eqb_refl; eauto|].
  destruct (IH H) as [v Hv]. discriminate.
Qed.

Lemma filter_none {A} (f : A -> bool) l :
  (forall x, In x l -> f x = false) -> filter f l = [].
Proof.
  induction l as [|a l IH]; simpl; intros H; [reflexivity|].
  rewrite (H a) by now left. apply IH. intros x Hx. apply H. now right.
Qed.

(** Inserting a run of insertions a second time changes nothing. *)
Lemma insertAll_twice ins m :
  NoDup (keys m) -> insertAll ins (insertAll ins m) = insertAll ins m.
Proof.
  intros ND. apply JsMap_ext.
  - now do 2 apply NoDup_keys_insertAll.
  - rewrite keys_insertAll. rewrite filter_none; [apply app_nil_r|].
    intros k Hk. apply (proj1 (In_firstOccurrences _ _)) in Hk.
    destruct (lastInserted_Some k ins Hk) as [v Hv].
    unfold has. rewrite get_insertAll, Hv. reflexivity.
  - intros k. rewrite !get_insertAll.
    now destruct (lastInserted k ins).
Qed.

Lemma mergedMap_split c i :
  mergedMap c i = insertAll (insertions i) (insertAll (insertions c) empty).
Proof. unfold mergedMap, insertAll. apply fold_left_app. Qed.

Lemma mergeTasks_again c i :
  mergeTasks (mergeTasks c i) i = mergeTasks c i.
Proof.
  rewrite !mergeTasks_mergedMap. f_equal.
  rewrite mergedMap_split.
  rewrite insertions_values by apply mergedMap_keyed.
  rewrite (insertAll_distinct (mergedMap c i) empty)
    by (simpl; apply mergedMap_NoDup).
  simpl. rewrite mergedMap_split. apply insertAll_twice.
  apply NoDup_keys_insertAll. constructor.
Qed.

Lemma In_values_keyed r m :
  keyed m -> In r (values m) -> exists k, identifier r = Some k /\ In (k, r) m.
Proof.
  unfold values. intros Hm Hin. apply in_map_iff in Hin.
  destruct Hin as [[k t] [E Hin]]. simpl in E. subst t.
  exists k. split; [|assumption].
  unfold keyed in Hm. rewrite Forall_forall in Hm. exact (Hm _ Hin).
Qed.

Lemma mergeTasks_present c r :
  In r (mergeTasks c []) -> mergeTasks c [r] = mergeTasks c [].
Proof.
  rewrite !mergeTasks_mergedMap. intros Hin.
  destruct (In_values_keyed r _ (mergedMap_keyed c []) Hin) as [k [Hk Hkr]].
  f_equal. rewrite (mergedMap_split c [r]), (mergedMap_split c []).
  unfold insertions at 1. simpl. unfold insertion. rewrite Hk. simpl.
  rewrite mergedMap_split in Hkr. simpl in Hkr.
  apply set_same. apply In_get; [|assumption].
  apply NoDup_keys_insertAll. constructor.
Qed.

Lemma values_insertions ts :
  Forall (fun t => identifier t <> None) ts -> values (insertions ts) = ts.
Proof.
  unfold insertions, values. induction ts as [|t ts IH]; simpl; intros H;
    [reflexivity|].
  inversion H as [|? ? Ht Hr]; subst. rewrite map_app, IH by assumption.
  unfold insertion. destruct (identifier t) eqn:E; [reflexivity|congruence].
Qed.

Lemma mergeTasks_wellFormed c : wellFormed c -> mergeTasks c [] = c.
Proof.
  intros [Hid ND]. rewrite mergeTasks_mergedMap. unfold mergedMap.
  simpl. rewrite app_nil_r.
  rewrite (insertAll_distinct (insertions c) empty) by exact ND.
  simpl. now apply values_insertions.
Qed.

End MergeTheorems.

(* ===================================================================== *)
(** * A sample merge *)
(* ===================================================================== *)

Example merge_sample :
  mergeTasks [Sample.roses; Sample.stray; Sample.hedge]
             [Sample.pond; Sample.hedge'; Sample.stray]
  = [Sample.roses; Sample.hedge'; Sample.pond].
Proof. reflexivity. Qed.

(* ===================================================================== *)
(** * Laws of the monad *)
(* ===================================================================== *)

Lemma outcome_bind {A B} (m : M A) (k : A -> M B) w :
  outcome (bind m k) w
  = match outcome m w with
    | Ret a => outcome (k a) (run m w)
    | Throw e => Throw e
    | Starved => Starved
    end.
Proof. unfold outcome, run, bind. now destruct (m w) as [[a|e|] w']. Qed.

Lemma run_bind {A B} (m : M A) (k : A -> M B) w :
  run (bind m k) w
  = match outcome m w with
    | Ret a => run (k a) (run m w)
    | _ => run m w
    end.
Proof. unfold outcome, run, bind. now destruct (m w) as [[a|e|] w']. Qed.

Lemma outcome_tryCatch {A} (m : M A) (h : Exn -> M A) w :
  outcome (tryCatch m h) w
  = match outcome m w with
    | Throw e => outcome (h e) (run m w)
    | o => o
    end.
Proof. unfold outcome, run, tryCatch. now destruct (m w) as [[a|e|] w']. Qed.

Lemma run_tryCatch {A} (m : M A) (h : Exn -> M A) w :
  run (tryCatch m h) w
  = match outcome m w with
    | Throw e => run (h e) (run m w)
    | _ => run m w
    end.
Proof. unfold outcome, run, tryCatch. now destruct (m w) as [[a|e|] w']. Qed.

Lemma outcome_tryFinally {A} (m : M A) (c : M unit) w :
  outcome (tryFinally m c) w = outcome m w.
Proof. unfold outcome, tryFinally. now destruct (m w) as [[a|e|] w']. Qed.

Lemma run_tryFinally {A} (m : M A) (c : M unit) w :
  run (tryFinally m c) w
  = match outcome m w with
    | Starved => run m w
    | _ => run c (run m w)
    end.
Proof. unfold outcome, run, tryFinally. now destruct (m w) as [[a|e|] w']. Qed.

(* ===================================================================== *)
(** * Frames: what the helpers leave alone *)
(* ===================================================================== *)

Section Frames.

Variable remote : Remote.

Lemma traffic_refl P w : traffic P w w.
Proof.
  constructor; try reflexivity; try lia.
  exists []. now rewrite app_nil_r.
Qed.

Lemma traffic_trans P w1 w2 w3 :
  traffic P w1 w2 -> traffic P w2 w3 -> traffic P w1 w3.
Proof.
  intros [s1 a1 f1 r1 c1 [e1 [t1 F1]]] [s2 a2 f2 r2 c2 [e2 [t2 F2]]].
  constructor; try congruence; try lia.
  exists (e1 ++ e2). split; [|now apply Forall_app].
  now rewrite t2, t1, app_assoc.
Qed.

Lemma fetchPage_traffic accessToken q w :
  traffic (eq (FetchTasks accessToken q)) w (run (fetchPage remote accessToken q) w).
Proof.
  unfold run, fetchPage, bind, emit, elapse. simpl.
  destruct (pageReply remote accessToken q); simpl;
    (constructor; simpl; try reflexivity; try lia;
     exists [FetchTasks accessToken q]; split; [reflexivity|repeat constructor]).
Qed.

Lemma fetchPage_outcome accessToken q w :
  outcome (fetchPage remote accessToken q) w
  = match pageReply remote accessToken q with
    | PageRejected e => Throw e
    | reply => Ret reply
    end.
Proof.
  unfold outcome, fetchPage, bind, emit, elapse. simpl.
  now destruct (pageReply remote accessToken q).
Qed.

Lemma fetchPages_S fuel accessToken endpoint offset acc :
  fetchPages remote (S fuel) accessToken endpoint offset acc
  = (tasksResponse <- fetchPage remote accessToken (endpoint offset) ;;
     match tasksResponse with
     | PageOk data next_page_offset =>
         match Js.truthy next_page_offset with
         | Some offset' =>
             fetchPages remote fuel accessToken endpoint (Some offset')
                        (acc ++ filter completed data)
         | None => ret (acc ++ filter completed data)
         end
     | _ => ret acc
     end).
Proof. reflexivity. Qed.

Lemma fetchPages_traffic fuel accessToken endpoint :
  forall offset acc w,
    traffic (isPageFetch accessToken endpoint) w
            (run (fetchPages remote fuel accessToken endpoint offset acc) w).
Proof.
  induction fuel as [|fuel IH]; intros offset acc w.
  - apply traffic_refl.
  - rewrite fetchPages_S. unfold run, bind.
    pose proof (fetchPage_traffic accessToken (endpoint offset) w) as T.
    pose proof (fetchPage_outcome accessToken (endpoint offset) w) as O.
    unfold run, outcome in T, O.
    destruct (fetchPage remote accessToken (endpoint offset) w) as [o w1].
    simpl in T, O.
    assert (T' : traffic (isPageFetch accessToken endpoint) w w1).
    { destruct T as [s a f r c [evs [Ht HF]]]. constructor; auto.
      exists evs. split; [assumption|].
      eapply Forall_impl; [|exact HF]. intros e <-. now exists offset. }
    destruct o as [reply|e|]; simpl; try exact T'.
    destruct reply as [e|status txt|data next]; simpl; try exact T'.
    destruct (Js.truthy next) as [offset'|]; simpl; [|exact T'].
    eapply traffic_trans; [exact T'|]. apply IH.
Qed.

(** What a listing returns depends on the remote alone. *)
Lemma fetchPages_outcome fuel accessToken endpoint :
  forall offset acc w1 w2,
    outcome (fetchPages remote fuel accessToken endpoint offset acc) w1
    = outcome (fetchPages remote fuel accessToken endpoint offset acc) w2.
Proof.
  induction fuel as [|fuel IH]; intros offset acc w1 w2; [reflexivity|].
  rewrite fetchPages_S. unfold outcome, bind.
  pose proof (fetchPage_outcome accessToken (endpoint offset) w1) as O1.
  pose proof (fetchPage_outcome accessToken (endpoint offset) w2) as O2.
  unfold outcome in O1, O2.
  destruct (fetchPage remote accessToken (endpoint offset) w1) as [o1 w1'].
  destruct (fetchPage remote accessToken (endpoint offset) w2) as [o2 w2'].
  simpl in O1, O2. rewrite O1, O2.
  destruct (pageReply remote accessToken (endpoint offset))
    as [e|status txt|data next]; simpl; try reflexivity.
  destruct (Js.truthy next); simpl; [apply IH|reflexivity].
Qed.


(** More fuel does not change what a listing that returned did. *)
Lemma fetchPages_more_fuel fuel accessToken endpoint :
  forall offset acc w,
    outcome (fetchPages remote fuel accessToken endpoint offset acc) w
    <> Starved ->
    fetchPages remote (S fuel) accessToken endpoint offset acc w
    = fetchPages remote fuel accessToken endpoint offset acc w.
Proof.
  induction fuel as [|fuel IH]; intros offset acc w Hret.
  - exfalso. now apply Hret.
  - rewrite (fetchPages_S (S fuel)). rewrite fetchPages_S in Hret |- *.
    unfold outcome, bind in Hret. unfold bind.
    destruct (fetchPage remote accessToken (endpoint offset) w)
      as [[[e|status txt|data next]|e|] w1]; try reflexivity.
    destruct (Js.truthy next) as [offset'|]; [|reflexivity].
    apply IH. exact Hret.
Qed.

End Frames.

(* ===================================================================== *)
(** * The connect form *)
(* ===================================================================== *)

Lemma trimStart_blank_upto n :
  forall s, String.length s <= n -> Js.blank s = true -> Js.trimStart s = "".
Proof.
  induction n as [|n IH]; intros s Hlen Hb.
  - destruct s; [reflexivity|simpl in Hlen; lia].
  - destruct s as [|a r1]; [reflexivity|]. simpl in Hlen, Hb |- *.
    destruct (Js.ws1 a); [apply IH; [lia|exact Hb]|].
    destruct r1 as [|b r2]; [discriminate|]. simpl in Hlen.
    destruct (Js.ws2 a b); [apply IH; [lia|exact Hb]|].
    destruct r2 as [|c r3]; [discriminate|]. simpl in Hlen.
    destruct (Js.ws3 a b c); [apply IH; [lia|exact Hb]|discriminate].
Qed.

Lemma trim_blank s : Js.blank s = true -> Js.trim s = "".
Proof.
  intros Hb. unfold Js.trim.
  now rewrite (trimStart_blank_upto (String.length s) s (le_n _) Hb).
Qed.

Example trim_samples :
  Js.trim "  1/1201  " = "1/1201"
  /\ Js.trim "" = ""
  /\ Js.trim (String (ascii_of_nat 9) (String (ascii_of_nat 194)
               (String (ascii_of_nat 160) " "))) = "".
Proof. repeat split; reflexivity. Qed.

(* ===================================================================== *)
(** * Staleness and bootstrap *)
(* ===================================================================== *)

Lemma mountEffect_reads w :
  let w1 := run mountEffect w in
  storage w1 = storage w /\ clock w1 = clock w
  /\ exists evs, trace w1 = trace w ++ evs /\ Forall isRead evs.
Proof.
  destruct w as [[ti ci li] a f c r tr].
  unfold run, mountEffect. cbn.
  destruct ti as [tok|]; cbn.
  2:{ repeat split. exists [GetItem TOKEN_STORAGE_KEY]. repeat constructor. }
  destruct (tok =? ""); cbn.
  { repeat split. exists [GetItem TOKEN_STORAGE_KEY]. repeat constructor. }
  destruct ci as [[ts stamp]|]; cbn.
  2:{ repeat split. rewrite <- app_assoc.
      exists [GetItem TOKEN_STORAGE_KEY; GetItem TASKS_STORAGE_KEY].
      repeat constructor. }
  destruct (nonEmpty ts); cbn.
  2:{ repeat split. rewrite <- app_assoc.
    exists [GetItem TOKEN_STORAGE_KEY; GetItem TASKS_STORAGE_KEY].
    repeat constructor. }
  assert (R : forall X : list Event,
             X = tr ++ [GetItem TOKEN_STORAGE_KEY; GetItem TASKS_STORAGE_KEY;
                        GetItem TASKS_STORAGE_KEY] ->
             exists evs, X = tr ++ evs /\ Forall isRead evs).
  { intros X ->. eexists. split; [reflexivity|repeat constructor]. }
  destruct (stamp =? 0)%Z; cbn;
    [|unfold isCacheStale; cbn; destruct (c - stamp >? _)%Z; cbn];
    (repeat split; apply R; now rewrite <- !app_assoc).
Qed.

Lemma mountEffect_cached w tok cache :
  Js.truthy (tokenItem (storage w)) = Some tok ->
  tasksItem (storage w) = Some cache ->
  nonEmpty (TaskCache.tasks cache) = true ->
  tasks (app (run mountEffect w)) = TaskCache.tasks cache
  /\ outcome mountEffect w
     = Ret (if negb (TaskCache.timestamp cache =? 0)%Z
               && (clock w - TaskCache.timestamp cache >? FIVE_MINUTES_MS)%Z
            then Some tok else None).
Proof.
  destruct w as [[ti ci li] a f c r tr]. cbn. intros Ht Hc Hn. subst ci.
  unfold run, outcome, mountEffect. cbn. rewrite Ht. cbn.
  destruct cache as [ts stamp]. cbn in *. rewrite Hn. cbn.
  destruct (stamp =? 0)%Z; cbn; [split; reflexivity|].
  unfold isCacheStale. cbn.
  destruct (c - stamp >? _)%Z; cbn; split; reflexivity.
Qed.

Lemma mountEffect_triggered w tok :
  outcome mountEffect w = Ret (Some tok) ->
  exists cache,
    tasksItem (storage w) = Some cache
    /\ nonEmpty (TaskCache.tasks cache) = true
    /\ (clock w - TaskCache.timestamp cache > FIVE_MINUTES_MS)%Z.
Proof.
  destruct w as [[ti ci li] a f c r tr].
  unfold outcome, mountEffect. cbn.
  destruct ti as [tok0|]; cbn; [|discriminate].
  destruct (tok0 =? ""); cbn; [discriminate|].
  destruct ci as [[ts stamp]|]; cbn; [|discriminate].
  destruct (nonEmpty ts) eqn:Hn; cbn; [|discriminate].
  destruct (stamp =? 0)%Z; cbn; [discriminate|].
  unfold isCacheStale. cbn.
  destruct (c - stamp >? _)%Z eqn:Hs; cbn; [|discriminate].
  intros _. eexists. repeat split; [exact Hn|]. cbn.
  now apply Z.gtb_gt.
Qed.

(* ===================================================================== *)
(** * Synthetic tasks *)
(* ===================================================================== *)

Lemma mockLoop_eq remote n :
  forall i acc w,
    mockLoop remote n i acc w
    = (Ret (acc ++ map (fun j => mockTask (i + j)
                                  (dice remote (rolls w + j) mod 30) (clock w))
                       (seq 0 n)),
       rolled n w).
Proof.
  induction n as [|n IH]; intros i acc w.
  - simpl. unfold ret, rolled. rewrite app_nil_r, Nat.add_0_r.
    now destruct w.
  - cbn [mockLoop]. unfold bind, dateNow, randomBelow. rewrite IH.
    cbn [rolls clock storage app form trace]. unfold rolled.
    cbn [rolls clock storage app form trace].
    rewrite <- app_assoc. cbn [seq map]. rewrite <- seq_shift, map_map.
    rewrite !Nat.add_0_r. f_equal.
    + f_equal. cbn [List.app]. f_equal. f_equal. apply map_ext. intros j.
      now rewrite !Nat.add_succ_r.
    + f_equal. lia.
Qed.

Lemma generateMockTasks_eq remote count w :
  generateMockTasks remote count w
  = (Ret (mockList remote (clock w) (rolls w) count), rolled count w).
Proof. unfold generateMockTasks. now rewrite mockLoop_eq. Qed.

Lemma mockList_length remote today drawn count :
  List.length (mockList remote today drawn count) = count.
Proof. unfold mockList. now rewrite length_map, length_seq. Qed.

Lemma mockList_synthetic remote today drawn count :
  Forall (synthetic today) (mockList remote today drawn count).
Proof.
  unfold mockList. apply Forall_forall. intros t Ht.
  apply in_map_iff in Ht. destruct Ht as [j [<- _]].
  repeat split. eexists. split; [|reflexivity].
  apply Nat.mod_upper_bound. discriminate.
Qed.

(* ===================================================================== *)
(** * The fetch operations, case by case *)
(* ===================================================================== *)

(** Run the monadic code as far as it goes. *)
Ltac mstep :=
  cbv beta iota zeta delta
    [bind ret throw starve tryCatch tryFinally emit elapse dateNow
     newDateISOString getStorage getApp getForm modifyStorage modifyApp
     modifyForm setToken setTasks setLoading setError setAutoRefreshing
     setFormToken setHasSavedToken setTimeout
     taskStorage.saveTasks taskStorage.getTasks
     taskStorage.getLastSyncTimestamp taskStorage.saveLastSyncDate
     taskStorage.getLastSyncDate taskStorage.clearTasks
     tokenStorage.saveToken tokenStorage.getToken tokenStorage.clearToken
     fetchUser fetchUserData getThirtyDaysAgoISOString
     getOneYearAgoISOString demoMode run outcome];
  cbn [storage app form clock rolls trace tokenItem tasksItem lastSyncItem
       token tasks loading error autoRefreshing formToken hasSavedToken
       TaskCache.tasks TaskCache.timestamp fst snd firstWorkspace].

(** Name the call of [fetchAssignedTasks] in the goal and bring in what
    is known of it: its frame and its outcome at world [w0]. *)
Ltac listing w0 o1 w1 HT HO :=
  match goal with
  | |- context [fetchAssignedTasks ?r ?f ?t ?ws ?u ?s ?W] =>
      tryif constr_eq W w0 then fail else idtac;
      pose proof (fetchPages_traffic r f t (assignedEndpoint ws u s) None [] W) as HT;
      pose proof (fetchPages_outcome r f t (assignedEndpoint ws u s) None [] W w0) as HO;
      unfold run, outcome in HT, HO;
      change (fetchPages r f t (assignedEndpoint ws u s) None [])
        with (fetchAssignedTasks r f t ws u s) in HT, HO;
      destruct (fetchAssignedTasks r f t ws u s W) as [o1 w1];
      cbn [fst snd] in HT, HO
  end.

Section Lookback.

Variable remote : Remote.
Variable fuel : nat.

Lemma pageFetch_listedSince tok ws uid since evs :
  Forall (isPageFetch tok (assignedEndpoint ws uid since)) evs ->
  Forall (listedSince since) evs.
Proof.
  apply Forall_impl. intros e [off ->]. reflexivity.
Qed.

Lemma lookback_listed tok since w ws uid data :
  (tok =? "demo") = false ->
  userReply remote tok = UserOk data ->
  firstWorkspace data = Some (ws, uid) ->
  let o := outcome (fetchTasksWithLookback remote fuel tok since) w in
  let w' := run (fetchTasksWithLookback remote fuel tok since) w in
  (exists evs, trace w' = trace w ++ FetchUser tok :: evs
               /\ Forall (listedSince since) evs)
  /\ tokenItem (storage w') = tokenItem (storage w)
  /\ (clock w <= clock w')%Z
  /\ match outcome (fetchAssignedTasks remote fuel tok ws uid since) w with
     | Ret records =>
         if nonEmpty records then
           o = Ret LookbackCached
           /\ tasks (app w') = records
           /\ tasksItem (storage w') = Some (TaskCache.make records (clock w'))
           /\ lastSyncItem (storage w') = Some (IsoOf (clock w'))
           /\ error (app w') = None
         else
           o = Ret LookbackEmpty
           /\ tasks (app w') = []
           /\ storage w' = storage w
     | Throw e =>
         o = Ret (LookbackTasksError e)
         /\ tasks (app w') = tasks (app w)
         /\ storage w' = storage w
         /\ error (app w')
            = Some ("Failed to fetch tasks: " ++ errorToString e)%string
     | Starved => o = Starved
     end.
Proof.
  intros Hdemo Hu Hws o w'. subst o w'.
  destruct w as [[ti ci li] a f c r tr].
  unfold fetchTasksWithLookback. rewrite Hdemo.
  mstep. rewrite Hu. mstep. rewrite Hws. mstep.
  listing (mkWorld (mkStorage ti ci li) a f c r tr) o1 w1 T Ho.
  rewrite <- Ho. clear Ho.
  destruct T as [Ts Ta Tf Tr Tc [evs [Tt TF]]].
  apply pageFetch_listedSince in TF.
  destruct w1 as [s1 a1 f1 c1 r1 tr1]. cbn in Ts, Ta, Tf, Tr, Tc, Tt.
  subst s1 a1 f1 r1 tr1.
  assert (Hc : (c <= c1)%Z) by lia.
  destruct o1 as [records|e|]; [destruct (nonEmpty records)|..]; mstep;
    (split; [|split; [reflexivity|split; [exact Hc|]]]);
    try (repeat split; reflexivity).
  - exists (evs ++ [SetItem TASKS_STORAGE_KEY; SetItem LAST_SYNC_KEY]).
    split; [now rewrite <- !app_assoc|].
    apply Forall_app. split; [exact TF|repeat constructor].
  - exists evs. split; [now rewrite <- !app_assoc|exact TF].
  - exists evs. split; [now rewrite <- !app_assoc|exact TF].
  - exists evs. split; [now rewrite <- !app_assoc|exact TF].
Qed.


End Lookback.

(* ===================================================================== *)
(** * Full history *)
(* ===================================================================== *)

Lemma fetchAssignedTasks_outcome remote fuel tok ws uid since w1 w2 :
  outcome (fetchAssignedTasks remote fuel tok ws uid since) w1
  = outcome (fetchAssignedTasks remote fuel tok ws uid since) w2.
Proof. apply fetchPages_outcome. Qed.

Lemma fetchAllHistoricalTasks_eq remote fuel w tok :
  Js.truthy (token (app w)) = Some tok ->
  let cleared := run taskStorage.clearTasks w in
  let fetched :=
    fetchTasksWithLookback remote fuel tok (IsoYearsBefore 1 (clock w)) cleared in
  run (fetchAllHistoricalTasks remote fuel) w = snd fetched
  /\ outcome (fetchAllHistoricalTasks remote fuel) w
     = match fst fetched with
       | Ret r => Ret (Some r)
       | Throw e => Throw e
       | Starved => Starved
       end.
Proof.
  intros Htok cleared fetched. subst cleared fetched.
  destruct w as [[ti ci li] a f c r tr]. cbn in Htok.
  unfold fetchAllHistoricalTasks. mstep. rewrite Htok. mstep.
  destruct (fetchTasksWithLookback remote fuel tok (IsoYearsBefore 1 c) _)
    as [[e|e|] w1]; split; reflexivity.
Qed.

(** Name the next listing call in the goal, split its result and bring
    in its frame. *)
Ltac pages o1 w1 :=
  let HT := fresh "HT" in
  match goal with
  | |- context [fetchAssignedTasks ?r ?f ?t ?ws ?u ?s ?W] =>
      pose proof (fetchPages_traffic r f t (assignedEndpoint ws u s) None [] W) as HT;
      unfold run in HT;
      change (fetchPages r f t (assignedEndpoint ws u s) None [])
        with (fetchAssignedTasks r f t ws u s) in HT;
      destruct (fetchAssignedTasks r f t ws u s W) as [o1 w1]
  | |- context [fetchPages ?r ?f ?t ?ep ?off ?acc ?W] =>
      pose proof (fetchPages_traffic r f t ep off acc W) as HT;
      unfold run in HT;
      destruct (fetchPages r f t ep off acc W) as [o1 w1]
  end;
  cbn [fst snd] in HT;
  destruct HT as [? ? ? ? ? [? [? ?]]];
  destruct w1;
  cbn [storage app form clock rolls trace] in *;
  subst.

Ltac done_end :=
  repeat split; try reflexivity; try assumption; try lia.

Ltac mock_end :=
  rewrite generateMockTasks_eq; unfold rolled; mstep; done_end.

Section ForToken.

Variable remote : Remote.
Variable fuel : nat.

Lemma forToken_cases tok w :
  (tok =? "demo") = false ->
  let '(o, w') := fetchTasksForToken remote fuel tok w in
  tokenItem (storage w') = tokenItem (storage w)
  /\ token (app w') = token (app w)
  /\ (clock w <= clock w')%Z
  /\ match o with
     | Ret MergedAndCached =>
         exists newTasks,
           nonEmpty newTasks = true
           /\ tasks (app w') = mergeTasks (cachedTasks (storage w)) newTasks
           /\ tasksItem (storage w')
              = Some (TaskCache.make
                        (mergeTasks (cachedTasks (storage w)) newTasks)
                        (clock w'))
           /\ lastSyncItem (storage w') = Some (IsoOf (clock w'))
           /\ error (app w') = None
     | Ret (FetchError e) =>
         error (app w') = Some (classify (message e))
         /\ tasks (app w') = mockList remote (clock w') (rolls w) 20
         /\ storage w' = storage w
     | Ret (TasksApiError e) =>
         error (app w') = None
         /\ tasks (app w') = mockList remote (clock w') (rolls w) 20
         /\ storage w' = storage w
     | Ret UsedCache =>
         tasks (app w') = cachedTasks (storage w)
         /\ storage w' = storage w /\ error (app w') = None
     | Ret FoundNothing =>
         tasks (app w') = tasks (app w)
         /\ storage w' = storage w /\ error (app w') = None
     | Ret FoundAsMe | Ret FoundUndated =>
         nonEmpty (tasks (app w')) = true
         /\ storage w' = storage w /\ error (app w') = None
     | Ret DemoData => False
     | Throw _ => False
     | Starved => storage w' = storage w
     end.
Proof.
  intros Hdemo.
  destruct w as [[ti ci li] a f c r tr].
  unfold fetchTasksForToken. rewrite Hdemo.
  assert (Hlat : (0 <= Z.of_N (userLatency remote))%Z) by lia.
  mstep.
  destruct ci as [[cts cstamp]|]; mstep;
    (destruct (userReply remote tok) as [e|st txt|data]; mstep;
     [ mock_end | mock_end
     | destruct (firstWorkspace data) as [[ws uid]|]; mstep; [|mock_end] ]).
  - pages o1 w1.
    destruct o1 as [l1|e1|]; [|mstep; mock_end|mstep; done_end].
    destruct (nonEmpty l1) eqn:Hn1; mstep.
    { split; [reflexivity|split; [reflexivity|split; [lia|]]].
      exists l1. repeat split. exact Hn1. }
    destruct (nonEmpty cts) eqn:Hc; mstep; [done_end|].
    pages o2 w2.
    destruct o2 as [l2|e2|]; [|mstep; mock_end|mstep; done_end].
    destruct (nonEmpty l2) eqn:Hn2; mstep; [done_end|].
    pages o3 w3.
    destruct o3 as [l3|e3|]; [|mstep; mock_end|mstep; done_end].
    destruct (nonEmpty l3) eqn:Hn3; mstep; done_end.
  - pages o1 w1.
    destruct o1 as [l1|e1|]; [|mstep; mock_end|mstep; done_end].
    destruct (nonEmpty l1) eqn:Hn1; mstep.
    { split; [reflexivity|split; [reflexivity|split; [lia|]]].
      exists l1. repeat split. exact Hn1. }
    change (nonEmpty (@nil Task)) with false. mstep.
    pages o2 w2.
    destruct o2 as [l2|e2|]; [|mstep; mock_end|mstep; done_end].
    destruct (nonEmpty l2) eqn:Hn2; mstep; [done_end|].
    pages o3 w3.
    destruct o3 as [l3|e3|]; [|mstep; mock_end|mstep; done_end].
    destruct (nonEmpty l3) eqn:Hn3; mstep; done_end.
Qed.

(** Which ending the replies of the remote lead to. *)
Lemma forToken_ending tok w :
  (tok =? "demo") = false ->
  let o := outcome (fetchTasksForToken remote fuel tok) w in
  match userReply remote tok with
  | UserRejected e => o = Ret (FetchError e)
  | UserNotOk status errorText =>
      o = Ret (FetchError (newError ("Asana API error: " ++ Js.ofNat status
                                     ++ " - " ++ errorText)%string))
  | UserOk data =>
      match firstWorkspace data with
      | None =>
          o = Ret (FetchError (newError "No workspaces found in your Asana account. Please ensure you have access to at least one workspace."))
      | Some (ws, uid) =>
          match outcome (fetchAssignedTasks remote fuel tok ws uid
                                            (completedSinceAt remote w)) w with
          | Throw e => o = Ret (TasksApiError e)
          | Starved => o = Starved
          | Ret newTasks =>
              if nonEmpty newTasks then o = Ret MergedAndCached
              else if nonEmpty (cachedTasks (storage w)) then o = Ret UsedCache
              else True
          end
      end
  end.
Proof.
  intros Hdemo o. subst o. unfold completedSinceAt.
  destruct w as [[ti ci li] a f c r tr].
  unfold fetchTasksForToken. rewrite Hdemo.
  mstep. unfold cachedTasks. mstep.
  destruct ci as [[cts cstamp]|]; mstep;
    (destruct (userReply remote tok) as [e|st txt|data]; mstep;
     [ now rewrite generateMockTasks_eq
     | now rewrite generateMockTasks_eq
     | destruct (firstWorkspace data) as [[ws uid]|]; mstep;
       [|now rewrite generateMockTasks_eq] ]).
  - listing (mkWorld (mkStorage ti (Some (TaskCache.make cts cstamp)) li)
                     a f c r tr) o1 w1 T Ho.
    rewrite <- Ho. clear Ho T.
    destruct o1 as [l1|e1|]; mstep;
      [|now rewrite generateMockTasks_eq|reflexivity].
    destruct (nonEmpty l1); mstep; [reflexivity|].
    destruct (nonEmpty cts); mstep; [reflexivity|exact I].
  - listing (mkWorld (mkStorage ti None li) a f c r tr) o1 w1 T Ho.
    rewrite <- Ho. clear Ho T.
    destruct o1 as [l1|e1|]; mstep;
      [|now rewrite generateMockTasks_eq|reflexivity].
    destruct (nonEmpty l1); mstep; [reflexivity|].
    change (nonEmpty (@nil Task)) with false. exact I.
Qed.

End ForToken.

Section Refresh.

Variable remote : Remote.
Variable fuel : nat.

Lemma refresh_cases tok w :
  let '(o, w') := autoRefreshTasks remote fuel tok w in
  tokenItem (storage w') = tokenItem (storage w)
  /\ error (app w') = error (app w)
  /\ token (app w') = token (app w)
  /\ (clock w <= clock w')%Z
  /\ match o with
     | Ret RefreshMerged =>
         exists newTasks,
           nonEmpty newTasks = true
           /\ tasks (app w') = mergeTasks (cachedTasks (storage w)) newTasks
           /\ tasksItem (storage w')
              = Some (TaskCache.make
                        (mergeTasks (cachedTasks (storage w)) newTasks)
                        (clock w'))
           /\ lastSyncItem (storage w') = Some (IsoOf (clock w'))
           /\ truthyDate (lastSyncItem (storage w)) <> None
     | Ret NoAccessToken => w' = w
     | Ret NoLastSyncDate =>
         storage w' = storage w /\ tasks (app w') = tasks (app w)
         /\ clock w' = clock w
         /\ trace w' = trace w ++ [GetItem LAST_SYNC_KEY]
     | Ret (RefreshError _) | Ret NoWorkspace | Ret NoNewTasks | Starved =>
         storage w' = storage w /\ tasks (app w') = tasks (app w)
     | Throw _ => False
     end.
Proof.
  destruct w as [[ti ci li] a f c r tr].
  unfold autoRefreshTasks.
  assert (Hlat : (0 <= Z.of_N (userLatency remote))%Z) by lia.
  destruct (tok =? ""); mstep; [done_end|].
  destruct (truthyDate li) as [since|] eqn:Hsince; mstep; [|done_end].
  unfold cachedTasks. mstep.
  destruct ci as [[cts cstamp]|]; mstep;
    (destruct (userReply remote tok) as [e|st txt|data]; mstep;
     [ done_end | done_end
     | destruct (firstWorkspace data) as [[ws uid]|]; mstep; [|done_end] ];
     pages o1 w1;
     (destruct o1 as [l1|e1|]; mstep; [|done_end|done_end]);
     destruct (nonEmpty l1) eqn:Hn1; mstep; [|done_end];
     (split; [reflexivity|split; [reflexivity|split; [reflexivity|split; [lia|]]]]);
     exists l1; repeat split; try assumption; discriminate).
Qed.

(** Which ending the stored cursor and the replies lead to. *)
Lemma refresh_ending tok w :
  (tok =? "") = false ->
  let o := outcome (autoRefreshTasks remote fuel tok) w in
  match truthyDate (lastSyncItem (storage w)) with
  | None => o = Ret NoLastSyncDate
  | Some since =>
      match userReply remote tok with
      | UserRejected e => o = Ret (RefreshError e)
      | UserNotOk _ _ => o = Ret NoWorkspace
      | UserOk data =>
          match firstWorkspace data with
          | None => o = Ret NoWorkspace
          | Some (ws, uid) =>
              match outcome (fetchAssignedTasks remote fuel tok ws uid since) w with
              | Ret newTasks =>
                  if nonEmpty newTasks then o = Ret RefreshMerged
                  else o = Ret NoNewTasks
              | Throw e => o = Ret (RefreshError e)
              | Starved => o = Starved
              end
          end
      end
  end.
Proof.
  intros Htok o. subst o.
  destruct w as [[ti ci li] a f c r tr].
  unfold autoRefreshTasks. rewrite Htok. mstep.
  destruct (truthyDate li) as [since|]; mstep; [|reflexivity].
  destruct ci as [[cts cstamp]|]; mstep;
    (destruct (userReply remote tok) as [e|st txt|data]; mstep;
     [ reflexivity | reflexivity
     | destruct (firstWorkspace data) as [[ws uid]|]; mstep; [|reflexivity] ]).
  - listing (mkWorld (mkStorage ti (Some (TaskCache.make cts cstamp)) li)
                     a f c r tr) o1 w1 T Ho.
    rewrite <- Ho. clear Ho T.
    destruct o1 as [l1|e1|]; mstep; try reflexivity.
    destruct (nonEmpty l1); reflexivity.
  - listing (mkWorld (mkStorage ti None li) a f c r tr) o1 w1 T Ho.
    rewrite <- Ho. clear Ho T.
    destruct o1 as [l1|e1|]; mstep; try reflexivity.
    destruct (nonEmpty l1); reflexivity.
Qed.

End Refresh.

Section LookbackCases.

Variable remote : Remote.
Variable fuel : nat.

Lemma lookback_cases tok since w :
  (tok =? "demo") = false ->
  let '(o, w') := fetchTasksWithLookback remote fuel tok since w in
  tokenItem (storage w') = tokenItem (storage w)
  /\ token (app w') = token (app w)
  /\ match o with
     | Ret (LookbackError e) =>
         error (app w')
         = Some ("Failed to connect to Asana: " ++ errorToString e)%string
         /\ tasks (app w') = tasks (app w) /\ storage w' = storage w
     | Ret (LookbackTasksError e) =>
         error (app w')
         = Some ("Failed to fetch tasks: " ++ errorToString e)%string
         /\ tasks (app w') = tasks (app w) /\ storage w' = storage w
     | Ret LookbackNoWorkspace =>
         error (app w') = Some "No workspaces found in your Asana account"
         /\ tasks (app w') = tasks (app w) /\ storage w' = storage w
     | Ret LookbackEmpty => tasks (app w') = [] /\ storage w' = storage w
     | Ret LookbackCached =>
         tasksItem (storage w')
         = Some (TaskCache.make (tasks (app w')) (clock w'))
         /\ lastSyncItem (storage w') = Some (IsoOf (clock w'))
     | Ret LookbackDemo => False
     | Throw _ => False
     | Starved => storage w' = storage w
     end.
Proof.
  intros Hdemo.
  destruct w as [[ti ci li] a f c r tr].
  unfold fetchTasksWithLookback. rewrite Hdemo. mstep.
  destruct (userReply remote tok) as [e|st txt|data]; mstep;
    [ done_end | done_end
    | destruct (firstWorkspace data) as [[ws uid]|]; mstep; [|done_end] ].
  pages o1 w1.
  destruct o1 as [l1|e1|]; mstep; [|done_end|done_end].
  destruct (nonEmpty l1); mstep; done_end.
Qed.

End LookbackCases.

(** The case lemmas, read through [outcome] and [run]. *)
Lemma by_outcome_run {A} (m : M A) (w : World) (P : Outcome A -> World -> Prop) :
  (let '(o, w') := m w in P o w') -> P (outcome m w) (run m w).
Proof. unfold outcome, run. now destruct (m w). Qed.

(* ===================================================================== *)
(** * Demo mode *)
(* ===================================================================== *)

Lemma demo_fetchTasksForToken remote fuel w :
  fetchTasksForToken remote fuel "demo" w = (Ret DemoData, afterDemo remote w).
Proof.
  destruct w as [s a f c r tr]. unfold fetchTasksForToken, afterDemo.
  cbn [String.eqb Ascii.eqb Bool.eqb andb]. mstep.
  rewrite generateMockTasks_eq. unfold rolled. mstep. reflexivity.
Qed.

Lemma demo_fetchTasksWithLookback remote fuel since w :
  fetchTasksWithLookback remote fuel "demo" since w
  = (Ret LookbackDemo, afterDemo remote w).
Proof.
  destruct w as [s a f c r tr]. unfold fetchTasksWithLookback, afterDemo.
  cbn [String.eqb Ascii.eqb Bool.eqb andb]. mstep.
  rewrite generateMockTasks_eq. unfold rolled. mstep. reflexivity.
Qed.

Lemma demo_connect remote fuel w :
  connect remote fuel "demo" w
  = (Ret (Some DemoData),
     afterDemo remote
       (mkWorld (mkStorage (tokenItem (storage w)) None None)
                (mkApp (Some "demo") (tasks (app w)) (loading (app w)) None
                       (autoRefreshing (app w)))
                (form w) (clock w) (rolls w)
                (trace w ++ [RemoveItem TASKS_STORAGE_KEY;
                             RemoveItem LAST_SYNC_KEY]))).
Proof.
  destruct w as [[ti ci li] a f c r tr].
  unfold connect, handleAsanaConnect, tokenEffect.
  cbn [String.eqb Ascii.eqb Bool.eqb andb]. mstep.
  cbn [Js.truthy String.eqb Ascii.eqb Bool.eqb andb]. rewrite orb_true_r.
  rewrite <- app_assoc. cbn [List.app].
  rewrite demo_fetchTasksForToken. reflexivity.
Qed.

Lemma demo_fetchAllHistoricalTasks remote fuel w :
  Js.truthy (token (app w)) = Some "demo" ->
  fetchAllHistoricalTasks remote fuel w
  = (Ret (Some LookbackDemo),
     afterDemo remote
       (mkWorld (mkStorage (tokenItem (storage w)) None None)
                (app w) (form w) (clock w) (rolls w)
                (trace w ++ [RemoveItem TASKS_STORAGE_KEY;
                             RemoveItem LAST_SYNC_KEY]))).
Proof.
  destruct w as [[ti ci li] a f c r tr]. cbn [app token]. intros Htok.
  unfold fetchAllHistoricalTasks. mstep. rewrite Htok. mstep.
  rewrite <- app_assoc. cbn [List.app].
  rewrite demo_fetchTasksWithLookback. reflexivity.
Qed.

(* ===================================================================== *)
(** * Failures of the foreground fetches *)
(* ===================================================================== *)

Example classify_samples :
  classify "Asana API error: 401 - Not Authorized"
  = "Authentication failed: Your Asana token might be invalid or expired. Please get a new token."
  /\ classify "Asana API error: 429 - slow down"
     = "Rate limit exceeded: Too many requests to Asana. Please try again later."
  /\ classify "Asana API error: 502 - Bad Gateway"
     = "Asana server error: The Asana service might be experiencing issues. Please try again later."
  /\ classify "Failed to fetch"
     = "Network error: Could not connect to Asana. Please check your internet connection."
  /\ classify "Unexpected token <"
     = "Failed to fetch tasks from Asana: Unexpected token <".
Proof. repeat split; vm_compute; reflexivity. Qed.

(* ===================================================================== *)
(** * What the operations merge *)
(* ===================================================================== *)

Section Merges.

Variable remote : Remote.
Variable fuel : nat.

(** The records [autoRefreshTasks] merges into the cache are the ones
    the listing returned. *)
Lemma refresh_merges tok w since data ws uid newTasks :
  (tok =? "") = false ->
  truthyDate (lastSyncItem (storage w)) = Some since ->
  userReply remote tok = UserOk data ->
  firstWorkspace data = Some (ws, uid) ->
  outcome (fetchAssignedTasks remote fuel tok ws uid since) w = Ret newTasks ->
  nonEmpty newTasks = true ->
  let w' := run (autoRefreshTasks remote fuel tok) w in
  tasks (app w') = mergeTasks (cachedTasks (storage w)) newTasks
  /\ cachedTasks (storage w') = mergeTasks (cachedTasks (storage w)) newTasks.
Proof.
  intros Htok Hsince Hu Hws Hlist Hn w'. subst w'.
  destruct w as [[ti ci li] a f c r tr]. cbn [storage lastSyncItem] in Hsince.
  revert Hlist. unfold autoRefreshTasks. rewrite Htok. mstep.
  rewrite Hsince. unfold cachedTasks. mstep.
  destruct ci as [[cts cstamp]|]; mstep; rewrite Hu; mstep; rewrite Hws; mstep.
  - listing (mkWorld (mkStorage ti (Some (TaskCache.make cts cstamp)) li)
                     a f c r tr) o1 w1 T Ho.
    rewrite <- Ho. intros ->. rewrite Hn. mstep. split; reflexivity.
  - listing (mkWorld (mkStorage ti None li) a f c r tr) o1 w1 T Ho.
    rewrite <- Ho. intros ->. rewrite Hn. mstep. split; reflexivity.
Qed.

(** And so are the ones [fetchTasksForToken] merges. *)
Lemma forToken_merges tok w data ws uid newTasks :
  (tok =? "demo") = false ->
  userReply remote tok = UserOk data ->
  firstWorkspace data = Some (ws, uid) ->
  outcome (fetchAssignedTasks remote fuel tok ws uid (completedSinceAt remote w)) w
  = Ret newTasks ->
  nonEmpty newTasks = true ->
  let w' := run (fetchTasksForToken remote fuel tok) w in
  tasks (app w') = mergeTasks (cachedTasks (storage w)) newTasks
  /\ cachedTasks (storage w') = mergeTasks (cachedTasks (storage w)) newTasks.
Proof.
  intros Hdemo Hu Hws Hlist Hn w'. subst w'.
  destruct w as [[ti ci li] a f c r tr].
  revert Hlist. unfold completedSinceAt, fetchTasksForToken. rewrite Hdemo.
  mstep. unfold cachedTasks. mstep.
  destruct ci as [[cts cstamp]|]; mstep; rewrite Hu; mstep; rewrite Hws; mstep.
  - listing (mkWorld (mkStorage ti (Some (TaskCache.make cts cstamp)) li)
                     a f c r tr) o1 w1 T Ho.
    rewrite <- Ho. intros ->. rewrite Hn. mstep. split; reflexivity.
  - listing (mkWorld (mkStorage ti None li) a f c r tr) o1 w1 T Ho.
    rewrite <- Ho. intros ->. rewrite Hn. mstep. split; reflexivity.
Qed.

End Merges.

(* ===================================================================== *)
(** * The properties of the specification *)
(* ===================================================================== *)

(** ** The merge is the reference merge *)

(** C1.  The merged output of [autoRefreshTasks] and [fetchTasksForToken]
    is the insertion-ordered map built by inserting the cached records,
    then the incoming ones in response order, records without identifier
    skipped.  Hence: the last incoming record under an identifier is the
    one record the output holds under it; the identifiers of the output
    are those of the cache in their order, then the new ones in response
    order; every record of the output has an identifier and no two share
    one.  The last two parts say that this output, for the records the
    listing returned, is what each operation displays and persists. *)
Theorem merge_reference_definition (cached incoming : list Task) :
  let merged := mergeTasks cached incoming in
  merged = mergeReference cached incoming
  /\ (forall k t,
        lastInserted k (insertions incoming) = Some t ->
        In t merged /\
        forall r, In r merged -> identifier r = Some k -> r = t)
  /\ identifiers merged
     = firstOccurrences (identifiers cached)
       ++ filter (fun k => negb (knownIn (identifiers cached) k))
                 (firstOccurrences (identifiers incoming))
  /\ Forall (fun r => identifier r <> None) merged
  /\ NoDup (identifiers merged)
  /\ List.length (identifiers merged) = List.length merged
  /\ (forall remote fuel tok w since data ws uid,
        (tok =? "") = false ->
        truthyDate (lastSyncItem (storage w)) = Some since ->
        userReply remote tok = UserOk data ->
        firstWorkspace data = Some (ws, uid) ->
        outcome (fetchAssignedTasks remote fuel tok ws uid since) w
        = Ret incoming ->
        nonEmpty incoming = true ->
        cachedTasks (storage w) = cached ->
        let w' := run (autoRefreshTasks remote fuel tok) w in
        tasks (app w') = merged /\ cachedTasks (storage w') = merged)
  /\ (forall remote fuel tok w data ws uid,
        (tok =? "demo") = false ->
        userReply remote tok = UserOk data ->
        firstWorkspace data = Some (ws, uid) ->
        outcome (fetchAssignedTasks remote fuel tok ws uid
                                    (completedSinceAt remote w)) w
        = Ret incoming ->
        nonEmpty incoming = true ->
        cachedTasks (storage w) = cached ->
        let w' := run (fetchTasksForToken remote fuel tok) w in
        tasks (app w') = merged /\ cachedTasks (storage w') = merged).
Proof.
  intros merged. subst merged.
  assert (Hops :
    (forall remote fuel tok w since data ws uid,
        (tok =? "") = false ->
        truthyDate (lastSyncItem (storage w)) = Some since ->
        userReply remote tok = UserOk data ->
        firstWorkspace data = Some (ws, uid) ->
        outcome (fetchAssignedTasks remote fuel tok ws uid since) w
        = Ret incoming ->
        nonEmpty incoming = true ->
        cachedTasks (storage w) = cached ->
        let w' := run (autoRefreshTasks remote fuel tok) w in
        tasks (app w') = mergeTasks cached incoming
        /\ cachedTasks (storage w') = mergeTasks cached incoming)
    /\ (forall remote fuel tok w data ws uid,
        (tok =? "demo") = false ->
        userReply remote tok = UserOk data ->
        firstWorkspace data = Some (ws, uid) ->
        outcome (fetchAssignedTasks remote fuel tok ws uid
                                    (completedSinceAt remote w)) w
        = Ret incoming ->
        nonEmpty incoming = true ->
        cachedTasks (storage w) = cached ->
        let w' := run (fetchTasksForToken remote fuel tok) w in
        tasks (app w') = mergeTasks cached incoming
        /\ cachedTasks (storage w') = mergeTasks cached incoming)).
  { split.
    - intros remote fuel tok w since data ws uid H1 H2 H3 H4 H5 H6 <-.
      now apply (refresh_merges remote fuel tok w since data ws uid).
    - intros remote fuel tok w data ws uid H1 H2 H3 H4 H5 <-.
      now apply (forToken_merges remote fuel tok w data ws uid). }
  revert Hops.
  pose proof (mergedMap_keyed cached incoming) as HK.
  pose proof (mergedMap_NoDup cached incoming) as ND.
  rewrite mergeTasks_mergedMap. intros [Hrefresh HforToken].
  split; [|split; [|split; [|split; [|split; [|split; [|split;
    [exact Hrefresh|exact HforToken]]]]]]].
  - unfold mergeReference, mergedMap, JsMap.values.
    now rewrite insertAll_empty.
  - intros k t Hlast.
    assert (Hget : JsMap.get k (mergedMap cached incoming) = Some t).
    { rewrite mergedMap_split, get_insertAll, Hlast. reflexivity. }
    split.
    + unfold JsMap.values. change t with (snd (k, t)).
      apply in_map. now apply get_In.
    + intros r Hr Hid.
      destruct (In_values_keyed r _ HK Hr) as [k' [Hk' Hin]].
      assert (k' = k) by congruence. subst k'.
      apply (In_get _ _ _ ND) in Hin. congruence.
  - rewrite identifiers_values by exact HK.
    rewrite mergedMap_split, keys_insertAll, keys_insertAll. simpl.
    rewrite forallb_filter_id by (apply forallb_forall; reflexivity).
    f_equal. apply filter_ext. intros k. f_equal.
    rewrite has_knownIn, keys_insertAll. simpl.
    rewrite forallb_filter_id by (apply forallb_forall; reflexivity).
    apply knownIn_firstOccurrences.
  - apply Forall_forall. intros r Hr.
    destruct (In_values_keyed r _ HK Hr) as [k [Hk _]]. congruence.
  - now rewrite identifiers_values.
  - rewrite identifiers_values by exact HK.
    unfold JsMap.keys, JsMap.values. now rewrite !length_map.
Qed.

Lemma merge_reference_definition_witness :
  lastInserted "1202" (insertions [Sample.pond; Sample.hedge'; Sample.stray])
  = Some Sample.hedge'
  /\ In Sample.hedge'
        (mergeTasks [Sample.roses; Sample.stray; Sample.hedge]
                    [Sample.pond; Sample.hedge'; Sample.stray]).
Proof.
  split; [reflexivity|].
  apply (proj1 (proj2 (merge_reference_definition
                         [Sample.roses; Sample.stray; Sample.hedge]
                         [Sample.pond; Sample.hedge'; Sample.stray]))
           "1202" Sample.hedge').
  reflexivity.
Defined.

(** ** Background refresh *)




(** ** The cursor *)

Section Saved.

Variable remote : Remote.
Variable fuel : nat.




End Saved.




(** ** Full history *)

(** C4.  With a credential present, fetching the full history first
    removes the cached tasks and the cursor, then lists the tasks
    completed since one year ago whatever the cursor was; when the listing
    returns [K] records, the task set displayed afterwards is exactly
    those [K] records, and so is the cache when [K] is not zero. *)
Theorem full_history_reset (remote : Remote) (fuel : nat) (w : World)
    (tok ws uid : string) (data : option UserData) (records : list Task) :
  Js.truthy (token (app w)) = Some tok ->
  (tok =? "demo") = false ->
  userReply remote tok = UserOk data ->
  firstWorkspace data = Some (ws, uid) ->
  let since := IsoYearsBefore 1 (clock w) in
  outcome (fetchAssignedTasks remote fuel tok ws uid since) w = Ret records ->
  let cleared := run taskStorage.clearTasks w in
  let w' := run (fetchAllHistoricalTasks remote fuel) w in
  tasksItem (storage cleared) = None
  /\ lastSyncItem (storage cleared) = None
  /\ w' = run (fetchTasksWithLookback remote fuel tok since) cleared
  /\ (exists evs,
        trace w' = trace w ++ RemoveItem TASKS_STORAGE_KEY
                              :: RemoveItem LAST_SYNC_KEY
                              :: FetchUser tok :: evs
        /\ Forall (listedSince since) evs)
  /\ tasks (app w') = records
  /\ List.length (tasks (app w')) = List.length records
  /\ tasksItem (storage w')
     = (if nonEmpty records then Some (TaskCache.make records (clock w'))
        else None).
Proof.
  intros Htok Hdemo Hu Hws since Hlist cleared w'.
  destruct (fetchAllHistoricalTasks_eq remote fuel w tok Htok) as [Hrun _].
  fold cleared in Hrun. fold since in Hrun.
  change (snd (fetchTasksWithLookback remote fuel tok since cleared))
    with (run (fetchTasksWithLookback remote fuel tok since) cleared) in Hrun.
  fold w' in Hrun.
  pose proof (lookback_listed remote fuel tok since cleared ws uid data
                Hdemo Hu Hws) as L.
  cbv zeta in L. rewrite <- Hrun in L.
  rewrite (fetchAssignedTasks_outcome remote fuel tok ws uid since cleared w),
    Hlist in L.
  destruct L as [[evs [Ht HF]] [_ [_ L]]].
  assert (Hcleared : tasksItem (storage cleared) = None
                     /\ lastSyncItem (storage cleared) = None
                     /\ trace cleared
                        = trace w ++ [RemoveItem TASKS_STORAGE_KEY;
                                      RemoveItem LAST_SYNC_KEY]).
  { subst cleared. destruct w as [[ti ci li] a f c r tr]. mstep.
    repeat split. now rewrite <- app_assoc. }
  destruct Hcleared as [Hc1 [Hc2 Hc3]].
  split; [exact Hc1|]. split; [exact Hc2|]. split; [exact Hrun|].
  split.
  { exists evs. split; [|exact HF]. rewrite Ht, Hc3, <- app_assoc. reflexivity. }
  destruct (nonEmpty records) eqn:Hn.
  - destruct L as [_ [L1 [L2 _]]]. rewrite L1. repeat split. exact L2.
  - destruct L as [_ [L1 L2]]. rewrite L1.
    assert (records = []) by (destruct records; [reflexivity|discriminate]).
    subst records. repeat split. rewrite L2. exact Hc1.
Qed.

Lemma full_history_reset_witness :
  tasks (app (run (fetchAllHistoricalTasks Sample.garden 5) Sample.connected))
  = [Sample.roses; Sample.hedge; Sample.pond].
Proof.
  exact (proj1 (proj2 (proj2 (proj2 (proj2
           (full_history_reset Sample.garden 5 Sample.connected
              Sample.credential "ws1" "u7" (Some Sample.me)
              [Sample.roses; Sample.hedge; Sample.pond]
              eq_refl eq_refl eq_refl eq_refl eq_refl)))))).
Defined.

(** ** Demo mode *)

(** C5, as amended.  With the credential ['demo'], both fetch functions
    end in fifteen synthetic completed records, dated at most 29 days
    back, set by a timer of one second: no request is sent and
    localStorage is neither read nor written.  [connect('demo')] stores no
    credential and reads nothing, but removes the cached tasks and the
    cursor from localStorage, as the full-history action does before its
    fetch. *)
Theorem demo_mode (remote : Remote) (fuel : nat) (since : DateStr) (w : World) :
  let shown := mockList remote (clock w + 1000) (rolls w) 15 in
  let cleared := mkStorage (tokenItem (storage w)) None None in
  let removals := [RemoveItem TASKS_STORAGE_KEY; RemoveItem LAST_SYNC_KEY] in
  List.length shown = 15
  /\ Forall (synthetic (clock w + 1000)) shown
  /\ (let w1 := run (fetchTasksForToken remote fuel "demo") w in
      outcome (fetchTasksForToken remote fuel "demo") w = Ret DemoData
      /\ tasks (app w1) = shown
      /\ storage w1 = storage w
      /\ trace w1 = trace w ++ [SetTimeout 1000])
  /\ (let w1 := run (fetchTasksWithLookback remote fuel "demo" since) w in
      outcome (fetchTasksWithLookback remote fuel "demo" since) w
      = Ret LookbackDemo
      /\ tasks (app w1) = shown
      /\ storage w1 = storage w
      /\ trace w1 = trace w ++ [SetTimeout 1000])
  /\ (let w2 := run (connect remote fuel "demo") w in
      outcome (connect remote fuel "demo") w = Ret (Some DemoData)
      /\ token (app w2) = Some "demo"
      /\ tasks (app w2) = shown
      /\ storage w2 = cleared
      /\ trace w2 = trace w ++ removals ++ [SetTimeout 1000])
  /\ (Js.truthy (token (app w)) = Some "demo" ->
      let w3 := run (fetchAllHistoricalTasks remote fuel) w in
      tasks (app w3) = shown
      /\ storage w3 = cleared
      /\ trace w3 = trace w ++ removals ++ [SetTimeout 1000]).
Proof.
  intros shown cleared removals.
  split; [apply mockList_length|].
  split; [apply mockList_synthetic|].
  unfold run, outcome.
  rewrite demo_fetchTasksForToken, demo_fetchTasksWithLookback, demo_connect.
  cbn [fst snd afterDemo storage app form clock rolls trace tasks token].
  repeat split; try (now rewrite <- app_assoc).
  - rewrite demo_fetchAllHistoricalTasks by assumption. reflexivity.
  - rewrite demo_fetchAllHistoricalTasks by assumption. reflexivity.
  - rewrite demo_fetchAllHistoricalTasks by assumption.
    cbn [snd afterDemo trace]. now rewrite <- app_assoc.
Qed.

Lemma demo_mode_witness :
  Js.truthy (token (app Sample.demoSession)) = Some "demo"
  /\ List.length
       (tasks (app (run (fetchAllHistoricalTasks Sample.offline 3)
                        Sample.demoSession))) = 15.
Proof.
  split; [reflexivity|].
  rewrite (proj1 (proj2 (proj2 (proj2 (proj2 (proj2
             (demo_mode Sample.offline 3 (IsoOf 0) Sample.demoSession)))))
             eq_refl)).
  apply mockList_length.
Defined.

(** C5 as stated fails: connecting in demo mode from a browser that still
    holds a cache removes that cache and its cursor from localStorage. *)
Lemma demo_connect_clears_cache :
  let w := Sample.leftover in
  let w' := run (connect Sample.offline 3 "demo") w in
  token (app w') = Some "demo"
  /\ cachedTasks (storage w) = [Sample.roses; Sample.hedge]
  /\ cachedTasks (storage w') = []
  /\ lastSyncItem (storage w) = Some (IsoOf 1699990000000)
  /\ lastSyncItem (storage w') = None
  /\ trace w' = [RemoveItem TASKS_STORAGE_KEY; RemoveItem LAST_SYNC_KEY;
                 SetTimeout 1000]
  /\ storage w' <> storage w.
Proof.
  intros w w'. subst w'. unfold run. rewrite demo_connect.
  cbn [snd afterDemo storage app form clock rolls trace tasks token
       tokenItem tasksItem lastSyncItem cachedTasks].
  repeat split. discriminate.
Qed.

(** ** Failures of the foreground fetches *)




(** ** Staleness *)

(** C7.  The cache is stale exactly when it is more than five minutes
    old: ten minutes old is stale, one minute old is fresh.  On page load
    the cached tasks are displayed by reads of localStorage alone, and
    the background refresh is started only for a stale cache. *)
Theorem staleness_gate (remote : Remote) (fuel : nat) (w : World) (t : Z) :
  (outcome (isCacheStale t) w = Ret true <-> (clock w - t > 5 * 60 * 1000)%Z)
  /\ run (isCacheStale t) w = w
  /\ outcome (isCacheStale (clock w - 10 * 60 * 1000)) w = Ret true
  /\ outcome (isCacheStale (clock w - 1 * 60 * 1000)) w = Ret false
  /\ (forall tok cache,
        Js.truthy (tokenItem (storage w)) = Some tok ->
        tasksItem (storage w) = Some cache ->
        nonEmpty (TaskCache.tasks cache) = true ->
        tasks (app (run mountEffect w)) = TaskCache.tasks cache
        /\ (outcome mountEffect w = Ret (Some tok) ->
            (clock w - TaskCache.timestamp cache > 5 * 60 * 1000)%Z))
  /\ (storage (run mountEffect w) = storage w
      /\ exists evs, trace (run mountEffect w) = trace w ++ evs
                     /\ Forall isRead evs)
  /\ (forall r,
        outcome (bootstrap remote fuel) w = Ret (Some r) ->
        exists cache,
          tasksItem (storage w) = Some cache
          /\ (clock w - TaskCache.timestamp cache > 5 * 60 * 1000)%Z).
Proof.
  split; [|split; [|split; [|split; [|split; [|split]]]]].
  - unfold outcome, isCacheStale. cbn. split.
    + intros [= H]. now apply Z.gtb_gt.
    + intros H. f_equal. now apply Z.gtb_gt.
  - reflexivity.
  - unfold outcome, isCacheStale. cbn. f_equal. apply Z.gtb_gt.
    unfold FIVE_MINUTES_MS. lia.
  - unfold outcome, isCacheStale. cbn. f_equal.
    rewrite Z.gtb_ltb. apply Z.ltb_ge. unfold FIVE_MINUTES_MS. lia.
  - intros tok cache Ht Hc Hn.
    destruct (mountEffect_cached w tok cache Ht Hc Hn) as [Hd Ho].
    split; [exact Hd|]. intros Htrig.
    destruct (mountEffect_triggered w tok Htrig) as [cache' [Hc' [_ Hs]]].
    assert (cache' = cache) by congruence. subst cache'. exact Hs.
  - pose proof (mountEffect_reads w) as [Hs [_ He]]. split; assumption.
  - intros r Hb. unfold bootstrap in Hb. rewrite outcome_bind in Hb.
    destruct (outcome mountEffect w) as [[tok|]|e|] eqn:Hm; try discriminate.
    + destruct (mountEffect_triggered w tok Hm) as [cache [Hc [_ Hs]]].
      exists cache. split; assumption.
    + rewrite outcome_bind in Hb.
      destruct (outcome (tokenEffect remote fuel) _); discriminate.
Qed.

Lemma staleness_gate_witness :
  (outcome (isCacheStale 1699999000000) (Sample.loginPage "") = Ret true)
  /\ (1700000000000 - 1699999000000 > 5 * 60 * 1000)%Z.
Proof.
  split; [reflexivity|].
  apply (proj1 (proj1 (staleness_gate Sample.offline 1
                         (Sample.loginPage "") 1699999000000))).
  reflexivity.
Defined.

(** ** Idempotence of the merge *)

(** C8.  Merging a record the cached set already holds, with the same
    identifier and the same fields, changes neither the size of the set
    nor any record of it; and merging an incoming sequence a second time
    gives what merging it once gave. *)
Theorem merge_idempotent (cached incoming : list Task) (r : Task) :
  (In r (mergeTasks cached []) ->
   mergeTasks cached [r] = mergeTasks cached [])
  /\ (wellFormed cached -> In r cached ->
      mergeTasks cached [r] = cached
      /\ List.length (mergeTasks cached [r]) = List.length cached)
  /\ mergeTasks (mergeTasks cached incoming) incoming
     = mergeTasks cached incoming.
Proof.
  split; [|split].
  - apply mergeTasks_present.
  - intros WF Hin.
    assert (E : mergeTasks cached [r] = cached).
    { pose proof (mergeTasks_wellFormed _ WF) as Hc.
      rewrite <- Hc at 2. apply mergeTasks_present. now rewrite Hc. }
    split; [exact E|now rewrite E].
  - apply mergeTasks_again.
Qed.

Lemma merge_idempotent_witness :
  wellFormed [Sample.roses; Sample.hedge]
  /\ In Sample.hedge [Sample.roses; Sample.hedge]
  /\ mergeTasks [Sample.roses; Sample.hedge] [Sample.hedge]
     = [Sample.roses; Sample.hedge].
Proof.
  assert (WF : wellFormed [Sample.roses; Sample.hedge]).
  { split.
    - repeat constructor; discriminate.
    - repeat constructor; simpl; intuition discriminate. }
  assert (Hin : In Sample.hedge [Sample.roses; Sample.hedge])
    by (right; left; reflexivity).
  split; [exact WF|split; [exact Hin|]].
  exact (proj1 (proj1 (proj2 (merge_idempotent
                                [Sample.roses; Sample.hedge]
                                [Sample.pond] Sample.hedge)) WF Hin)).
Defined.

(** ** The blank connect *)

(** C9.  Submitting the connect form with an empty or white-space-only
    token does not fail and is the demo connect: [handleConnect] then
    behaves exactly as [handleDemoConnect], the token ['demo'] is set, no
    credential is written to localStorage, and the fetch that follows runs
    in demo mode. *)
Theorem blank_connect_is_demo (remote : Remote) (fuel : nat) (w : World) :
  Js.trim (formToken (form w)) = "" ->
  let submit := AsanaConnect.handleConnect handleAsanaConnect in
  submit w = AsanaConnect.handleDemoConnect handleAsanaConnect w
  /\ outcome submit w = Ret tt
  /\ token (app (run submit w)) = Some "demo"
  /\ tokenItem (storage (run submit w)) = tokenItem (storage w)
  /\ trace (run submit w)
     = trace w ++ [RemoveItem TASKS_STORAGE_KEY; RemoveItem LAST_SYNC_KEY]
  /\ outcome (submit ;; tokenEffect remote fuel) w = Ret (Some DemoData)
  /\ (forall s, Js.blank s = true -> Js.trim s = "").
Proof.
  intros Hblank submit. subst submit.
  assert (E : AsanaConnect.handleConnect handleAsanaConnect w
              = AsanaConnect.handleDemoConnect handleAsanaConnect w).
  { unfold AsanaConnect.handleConnect, AsanaConnect.handleDemoConnect.
    unfold bind at 1. unfold getForm at 1. rewrite Hblank. reflexivity. }
  rewrite !(f_equal snd E : run _ w = run _ w).
  unfold outcome at 1. rewrite E.
  split; [reflexivity|]. split; [reflexivity|]. split; [reflexivity|].
  split; [reflexivity|].
  split; [simpl; now rewrite <- app_assoc|].
  split; [|apply trim_blank].
  unfold outcome, bind at 1. rewrite E.
  unfold AsanaConnect.handleDemoConnect, handleAsanaConnect, tokenEffect.
  cbn. rewrite orb_true_r. reflexivity.
Qed.

Lemma blank_connect_is_demo_witness :
  Js.trim (formToken (form (Sample.loginPage "   "))) = ""
  /\ token (app (run (AsanaConnect.handleConnect handleAsanaConnect)
                     (Sample.loginPage "   "))) = Some "demo".
Proof.
  split; [reflexivity|].
  exact (proj1 (proj2 (proj2 (blank_connect_is_demo
                                Sample.offline 3 (Sample.loginPage "   ")
                                eq_refl)))).
Defined.

(** ** Size of the fallback *)




(* ===================================================================== *)
(** * Further properties of the code *)
(* ===================================================================== *)

(** ** The merge, over several syncs *)

Lemma insertions_app a b : insertions (a ++ b) = insertions a ++ insertions b.
Proof. unfold insertions. apply flat_map_app. Qed.

Lemma insertAll_app ins1 ins2 m :
  insertAll (ins1 ++ ins2) m = insertAll ins2 (insertAll ins1 m).
Proof. unfold insertAll. apply fold_left_app. Qed.

Lemma mergedMap_values c a :
  insertAll (insertions (JsMap.values (mergedMap c a))) JsMap.empty
  = mergedMap c a.
Proof.
  rewrite insertions_values by apply mergedMap_keyed.
  apply (insertAll_distinct (mergedMap c a) JsMap.empty).
  simpl. apply mergedMap_NoDup.
Qed.

Lemma length_insertions ts : List.length (insertions ts) <= List.length ts.
Proof.
  unfold insertions. induction ts as [|t ts IH]; simpl; [lia|].
  rewrite length_app. unfold insertion at 1. destruct (identifier t); simpl; lia.
Qed.

Lemma length_firstOccurrences ks :
  List.length (firstOccurrences ks) <= List.length ks.
Proof.
  induction ks as [|k ks IH]; simpl; [lia|].
  pose proof (filter_length_le (fun k' => negb (k' =? k)) (firstOccurrences ks)).
  lia.
Qed.

Lemma length_values m : List.length (JsMap.values m) = List.length (JsMap.keys m).
Proof. unfold JsMap.values, JsMap.keys. now rewrite !length_map. Qed.

Lemma wellFormed_seed c :
  wellFormed c -> insertAll (insertions c) JsMap.empty = insertions c.
Proof.
  intros [_ ND]. apply (insertAll_distinct (insertions c) JsMap.empty). exact ND.
Qed.

Lemma In_insertions r k :
  forall ts, In r ts -> identifier r = Some k -> In (k, r) (insertions ts).
Proof.
  unfold insertions. induction ts as [|t ts IH]; simpl; [tauto|].
  intros [->|Hin] Hk; apply in_or_app.
  - left. unfold insertion. rewrite Hk. now left.
  - right. now apply IH.
Qed.

(** X1.  Two syncs in a row leave the cache one sync with both responses
    would: merging [second] into the result of merging [first] is merging
    [first ++ second]. *)
Theorem merge_accumulates (cached first second : list Task) :
  mergeTasks (mergeTasks cached first) second
  = mergeTasks cached (first ++ second).
Proof.
  rewrite !mergeTasks_mergedMap. f_equal.
  rewrite (mergedMap_split (JsMap.values (mergedMap cached first))).
  rewrite mergedMap_values.
  unfold mergedMap. now rewrite insertions_app, app_assoc, !insertAll_app.
Qed.

(** X2.  New records are added at the end: when cache and response are
    well formed and share no identifier, the merge is the cache followed
    by the response, N + M records in all. *)
Theorem merge_new_records (cached incoming : list Task) :
  wellFormed cached -> wellFormed incoming -> apart cached incoming ->
  mergeTasks cached incoming = cached ++ incoming
  /\ List.length (mergeTasks cached incoming)
     = List.length cached + List.length incoming.
Proof.
  intros [Hc NDc] [Hi NDi] Hap.
  assert (E : mergeTasks cached incoming = cached ++ incoming).
  { rewrite mergeTasks_mergedMap. unfold mergedMap.
    rewrite (insertAll_distinct _ JsMap.empty).
    - simpl. unfold JsMap.values. rewrite map_app.
      change (map snd (insertions cached)) with (JsMap.values (insertions cached)).
      change (map snd (insertions incoming)) with (JsMap.values (insertions incoming)).
      now rewrite !values_insertions.
    - simpl. unfold JsMap.keys. rewrite map_app.
      apply NoDup_app; [exact NDc|exact NDi|exact Hap]. }
  split; [exact E|]. rewrite E. apply length_app.
Qed.

Lemma merge_new_records_witness :
  wellFormed [Sample.roses] /\ wellFormed [Sample.hedge; Sample.pond]
  /\ mergeTasks [Sample.roses] [Sample.hedge; Sample.pond]
     = [Sample.roses; Sample.hedge; Sample.pond].
Proof.
  assert (W1 : wellFormed [Sample.roses]).
  { split; [repeat constructor; discriminate|].
    repeat constructor; simpl; intuition discriminate. }
  assert (W2 : wellFormed [Sample.hedge; Sample.pond]).
  { split; [repeat constructor; discriminate|].
    repeat constructor; simpl; intuition discriminate. }
  split; [exact W1|split; [exact W2|]].
  apply (merge_new_records [Sample.roses] [Sample.hedge; Sample.pond] W1 W2).
  intros k [<-|[]]. simpl. intuition discriminate.
Defined.

(** X3.  The merge never drops a record: the result holds every
    identifier of the cache, has at most [|cached| + |incoming|] records,
    and for a well-formed cache at least [|cached|], with every cached
    record the response does not mention kept as it is. *)
Theorem merge_never_drops (cached incoming : list Task) :
  let merged := mergeTasks cached incoming in
  (forall k, In k (identifiers cached) -> In k (identifiers merged))
  /\ List.length merged <= List.length cached + List.length incoming
  /\ (wellFormed cached ->
      List.length cached <= List.length merged
      /\ forall r k, In r cached -> identifier r = Some k ->
                     ~ In k (identifiers incoming) -> In r merged).
Proof.
  intros merged. subst merged. rewrite mergeTasks_mergedMap.
  split; [|split].
  - intros k Hk. rewrite identifiers_values by apply mergedMap_keyed.
    unfold mergedMap. rewrite keys_insertAll. simpl.
    apply filter_In. split; [|reflexivity].
    apply In_firstOccurrences. rewrite map_app. apply in_or_app. now left.
  - rewrite length_values. unfold mergedMap. rewrite keys_insertAll. simpl.
    etransitivity; [apply filter_length_le|].
    etransitivity; [apply length_firstOccurrences|].
    rewrite length_map, length_app.
    pose proof (length_insertions cached). pose proof (length_insertions incoming).
    lia.
  - intros WF. pose proof (wellFormed_seed cached WF) as Hseed.
    destruct WF as [Hid ND]. rewrite mergedMap_split, Hseed. split.
    + rewrite length_values, keys_insertAll, length_app.
      unfold JsMap.keys at 1. rewrite length_map.
      rewrite <- (values_insertions cached Hid) at 1.
      unfold JsMap.values. rewrite length_map. lia.
    + intros r k Hr Hk Hnot.
      assert (G : JsMap.get k (insertAll (insertions incoming) (insertions cached))
                  = Some r).
      { rewrite get_insertAll.
        destruct (lastInserted k (insertions incoming)) as [v|] eqn:E.
        - exfalso. apply Hnot. unfold identifiers.
          destruct (in_dec string_dec k (map fst (insertions incoming)))
            as [Hin|Hout]; [exact Hin|].
          exfalso. revert E. unfold lastInserted.
          assert (F : forall acc,
                     fold_left (fun acc kv => if fst kv =? k then Some (snd kv)
                                              else acc)
                               (insertions incoming) acc = acc).
          { revert Hout. generalize (insertions incoming).
            induction l as [|[k0 v0] l IH]; simpl; intros Hout acc;
              [reflexivity|].
            destruct (String.eqb_spec k0 k) as [->|ne]; [tauto|].
            apply IH. tauto. }
          rewrite F. discriminate.
        - apply In_get; [exact ND|]. now apply In_insertions. }
      apply get_In in G. unfold JsMap.values.
      change r with (snd (k, r)). now apply in_map.
Qed.

Lemma merge_never_drops_witness :
  wellFormed [Sample.roses; Sample.hedge]
  /\ In Sample.roses (mergeTasks [Sample.roses; Sample.hedge] [Sample.hedge'; Sample.pond]).
Proof.
  assert (W : wellFormed [Sample.roses; Sample.hedge]).
  { split; [repeat constructor; discriminate|].
    repeat constructor; simpl; intuition discriminate. }
  split; [exact W|].
  apply (proj2 (proj2 (proj2 (merge_never_drops [Sample.roses; Sample.hedge]
                                 [Sample.hedge'; Sample.pond])) W)
           Sample.roses "1201").
  - now left.
  - reflexivity.
  - simpl. intuition discriminate.
Defined.

(** ** The listing *)

Section Listing.

Variable remote : Remote.
Variable tok : string.
Variable endpoint : option string -> TaskQuery.

Lemma fetchPages_acc fuel :
  forall offset acc w,
    outcome (fetchPages remote fuel tok endpoint offset acc) w
    = mapOutcome (List.app acc)
        (outcome (fetchPages remote fuel tok endpoint offset []) w).
Proof.
  induction fuel as [|fuel IH]; intros offset acc w; [reflexivity|].
  rewrite !fetchPages_S, !outcome_bind, fetchPage_outcome.
  destruct (pageReply remote tok (endpoint offset)) as [e|status txt|data next];
    cbn [mapOutcome]; [reflexivity|cbn; now rewrite app_nil_r|].
  destruct (Js.truthy next) as [offset'|]; [|reflexivity].
  rewrite IH. rewrite (IH _ ([] ++ filter completed data)).
  destruct (outcome (fetchPages remote fuel tok endpoint (Some offset') []) _);
    cbn [mapOutcome List.app]; try reflexivity.
  now rewrite app_assoc.
Qed.

Lemma fetchPages_sent fuel :
  forall offset acc w ts,
    outcome (fetchPages remote fuel tok endpoint offset acc) w = Ret ts ->
    exists more,
      ts = acc ++ more
      /\ Forall (fun t => completed t = true /\ sentBy remote tok endpoint t)
                more.
Proof.
  induction fuel as [|fuel IH]; intros offset acc w ts; [discriminate|].
  rewrite fetchPages_S, outcome_bind, fetchPage_outcome.
  destruct (pageReply remote tok (endpoint offset))
    as [e|status txt|data next] eqn:Hp; [discriminate|..].
  - intros [= <-]. exists []. split; [now rewrite app_nil_r|constructor].
  - assert (F : Forall (fun t => completed t = true
                                 /\ sentBy remote tok endpoint t)
                       (filter completed data)).
    { apply Forall_forall. intros t Ht. apply filter_In in Ht.
      destruct Ht as [Hin Hc]. split; [exact Hc|].
      now exists offset, data, next. }
    destruct (Js.truthy next) as [offset'|].
    + intros H. destruct (IH _ _ _ _ H) as [more [-> Hmore]].
      exists (filter completed data ++ more). split; [now rewrite app_assoc|].
      now apply Forall_app.
    + intros [= <-]. now exists (filter completed data).
Qed.

Lemma fetchPages_throws fuel :
  forall offset acc w e,
    outcome (fetchPages remote fuel tok endpoint offset acc) w = Throw e ->
    exists offset', pageReply remote tok (endpoint offset') = PageRejected e.
Proof.
  induction fuel as [|fuel IH]; intros offset acc w e; [discriminate|].
  rewrite fetchPages_S, outcome_bind, fetchPage_outcome.
  destruct (pageReply remote tok (endpoint offset))
    as [e0|status txt|data next] eqn:Hp.
  - intros [= <-]. now exists offset.
  - discriminate.
  - destruct (Js.truthy next) as [offset'|]; [apply IH|discriminate].
Qed.

End Listing.

(** X4.  A listing returns only what the remote sent and only completed
    records: every record [fetchAssignedTasks] returns is completed and
    was on some page of the listing it asked for. *)
Theorem listing_returns_completed (remote : Remote) (fuel : nat)
    (tok ws uid : string) (since : DateStr) (w : World) (ts : list Task) :
  outcome (fetchAssignedTasks remote fuel tok ws uid since) w = Ret ts ->
  Forall (fun t => completed t = true
                   /\ sentBy remote tok (assignedEndpoint ws uid since) t) ts.
Proof.
  intros H. apply fetchPages_sent in H. destruct H as [more [-> Hmore]].
  exact Hmore.
Qed.

Lemma listing_returns_completed_witness :
  outcome (fetchAssignedTasks Sample.garden 5 Sample.credential "ws1" "u7"
                              (IsoOf 0)) Sample.connected
  = Ret [Sample.roses; Sample.hedge; Sample.pond]
  /\ Forall (fun t => completed t = true
                      /\ sentBy Sample.garden Sample.credential
                                (assignedEndpoint "ws1" "u7" (IsoOf 0)) t)
            [Sample.roses; Sample.hedge; Sample.pond].
Proof.
  assert (E : outcome (fetchAssignedTasks Sample.garden 5 Sample.credential
                                          "ws1" "u7" (IsoOf 0)) Sample.connected
              = Ret [Sample.roses; Sample.hedge; Sample.pond])
    by (vm_compute; reflexivity).
  split; [exact E|].
  exact (listing_returns_completed Sample.garden 5 Sample.credential "ws1" "u7"
           (IsoOf 0) Sample.connected _ E).
Defined.

(** X5.  The only exception a listing raises is a rejection of the
    remote: an error status ends the pagination without one. *)
Theorem listing_throws_rejections_only (remote : Remote) (fuel : nat)
    (tok : string) (endpoint : option string -> TaskQuery)
    (offset : option string) (acc : list Task) (w : World) (e : Exn) :
  outcome (fetchPages remote fuel tok endpoint offset acc) w = Throw e ->
  exists offset', pageReply remote tok (endpoint offset') = PageRejected e.
Proof. apply fetchPages_throws. Qed.

Lemma listing_throws_rejections_only_witness :
  outcome (fetchPages Sample.offline 3 Sample.credential
                      (assignedEndpoint "ws1" "u7" (IsoOf 0)) None [])
          Sample.connected
  = Throw Sample.failedToFetch
  /\ exists offset',
       pageReply Sample.offline Sample.credential
                 (assignedEndpoint "ws1" "u7" (IsoOf 0) offset')
       = PageRejected Sample.failedToFetch.
Proof.
  assert (E : outcome (fetchPages Sample.offline 3 Sample.credential
                         (assignedEndpoint "ws1" "u7" (IsoOf 0)) None [])
                      Sample.connected
              = Throw Sample.failedToFetch)
    by (vm_compute; reflexivity).
  split; [exact E|].
  exact (listing_throws_rejections_only Sample.offline 3 Sample.credential
           _ None [] Sample.connected _ E).
Defined.

(** X6.  Pages are gathered in order: what a listing returns is what it
    had gathered followed by what the pages ahead give; a page that names
    a next page is followed by the listing from there, and a page with an
    error status ends the listing with what was gathered, as if it were
    complete. *)
Theorem listing_in_page_order (remote : Remote) (fuel : nat) (tok : string)
    (endpoint : option string -> TaskQuery) (offset : option string)
    (acc : list Task) (w : World) :
  outcome (fetchPages remote fuel tok endpoint offset acc) w
  = mapOutcome (List.app acc)
      (outcome (fetchPages remote fuel tok endpoint offset []) w)
  /\ (forall data next offset',
        pageReply remote tok (endpoint offset) = PageOk data next ->
        Js.truthy next = Some offset' ->
        outcome (fetchPages remote (S fuel) tok endpoint offset acc) w
        = mapOutcome (List.app (acc ++ filter completed data))
            (outcome (fetchPages remote fuel tok endpoint (Some offset') []) w))
  /\ (forall data next,
        pageReply remote tok (endpoint offset) = PageOk data next ->
        Js.truthy next = None ->
        outcome (fetchPages remote (S fuel) tok endpoint offset acc) w
        = Ret (acc ++ filter completed data))
  /\ (forall status errorText,
        pageReply remote tok (endpoint offset) = PageNotOk status errorText ->
        outcome (fetchPages remote (S fuel) tok endpoint offset acc) w
        = Ret acc).
Proof.
  split; [apply fetchPages_acc|].
  split; [|split].
  - intros data next offset' Hp Hn.
    rewrite fetchPages_S, outcome_bind, fetchPage_outcome, Hp, Hn.
    rewrite fetchPages_acc.
    now rewrite (fetchPages_outcome remote fuel tok endpoint (Some offset') [] _ w).
  - intros data next Hp Hn.
    now rewrite fetchPages_S, outcome_bind, fetchPage_outcome, Hp, Hn.
  - intros status txt Hp.
    now rewrite fetchPages_S, outcome_bind, fetchPage_outcome, Hp.
Qed.

Lemma listing_in_page_order_witness :
  pageReply Sample.brokenSecondPage Sample.credential
            (assignedEndpoint "ws1" "u7" (IsoOf 0) (Some "p2"))
  = PageNotOk 500 "Internal Server Error"
  /\ outcome (fetchPages Sample.brokenSecondPage 1 Sample.credential
                (assignedEndpoint "ws1" "u7" (IsoOf 0)) (Some "p2")
                [Sample.pond]) Sample.connected
     = Ret [Sample.pond].
Proof.
  split; [reflexivity|].
  apply (proj2 (proj2 (proj2 (listing_in_page_order Sample.brokenSecondPage 0
           Sample.credential (assignedEndpoint "ws1" "u7" (IsoOf 0))
           (Some "p2") [Sample.pond] Sample.connected)))
           500 "Internal Server Error").
  reflexivity.
Defined.

(** ** An error status on the first page *)

Section FirstPage.

Variable remote : Remote.
Variable fuel : nat.

Lemma listing_first_page_error tok ws uid since status txt w :
  pageReply remote tok (assignedEndpoint ws uid since None) = PageNotOk status txt ->
  outcome (fetchAssignedTasks remote (S fuel) tok ws uid since) w = Ret [].
Proof.
  intros Hp. unfold fetchAssignedTasks.
  now rewrite fetchPages_S, outcome_bind, fetchPage_outcome, Hp.
Qed.

Lemma lookback_empty tok since w ws uid data :
  (tok =? "demo") = false ->
  userReply remote tok = UserOk data ->
  firstWorkspace data = Some (ws, uid) ->
  outcome (fetchAssignedTasks remote fuel tok ws uid since) w = Ret [] ->
  let w' := run (fetchTasksWithLookback remote fuel tok since) w in
  outcome (fetchTasksWithLookback remote fuel tok since) w = Ret LookbackEmpty
  /\ tasks (app w') = []
  /\ error (app w') = None
  /\ loading (app w') = false
  /\ storage w' = storage w.
Proof.
  intros Hdemo Hu Hws Hlist w'. subst w'.
  destruct w as [[ti ci li] a f c r tr].
  revert Hlist. unfold fetchTasksWithLookback. rewrite Hdemo.
  mstep. rewrite Hu. mstep. rewrite Hws. mstep.
  listing (mkWorld (mkStorage ti ci li) a f c r tr) o1 w1 T Ho.
  rewrite <- Ho. intros ->.
  destruct T as [Ts Ta Tf Tr Tc [evs [Tt TF]]].
  destruct w1 as [s1 a1 f1 c1 r1 tr1]. cbn in Ts, Ta, Tf, Tr, Tc, Tt.
  subst s1 a1 f1 r1 tr1.
  change (nonEmpty (@nil Task)) with false. mstep.
  repeat split; reflexivity.
Qed.

End FirstPage.

(** X7.  An error status on the first page of the listing is not
    reported: the foreground fetch shows the cached tasks without a
    message and leaves storage alone; the full-history fetch, which has
    cleared the cache, empties the garden, again without a message. *)
Theorem listing_error_status_is_silent (remote : Remote) (fuel : nat)
    (tok ws uid : string) (data : option UserData) (status : nat)
    (errorText : string) (w : World) :
  (tok =? "demo") = false ->
  userReply remote tok = UserOk data ->
  firstWorkspace data = Some (ws, uid) ->
  (forall since,
      pageReply remote tok (assignedEndpoint ws uid since None)
      = PageNotOk status errorText) ->
  (nonEmpty (cachedTasks (storage w)) = true ->
   let w' := run (fetchTasksForToken remote (S fuel) tok) w in
   outcome (fetchTasksForToken remote (S fuel) tok) w = Ret UsedCache
   /\ tasks (app w') = cachedTasks (storage w)
   /\ error (app w') = None
   /\ storage w' = storage w)
  /\ (forall since,
        let w' := run (fetchTasksWithLookback remote (S fuel) tok since) w in
        outcome (fetchTasksWithLookback remote (S fuel) tok since) w
        = Ret LookbackEmpty
        /\ tasks (app w') = []
        /\ error (app w') = None
        /\ storage w' = storage w)
  /\ (Js.truthy (token (app w)) = Some tok ->
      let w' := run (fetchAllHistoricalTasks remote (S fuel)) w in
      tasks (app w') = []
      /\ error (app w') = None
      /\ storage w' = mkStorage (tokenItem (storage w)) None None).
Proof.
  intros Hdemo Hu Hws Hp.
  assert (L : forall since v,
             let v' := run (fetchTasksWithLookback remote (S fuel) tok since) v in
             outcome (fetchTasksWithLookback remote (S fuel) tok since) v
             = Ret LookbackEmpty
             /\ tasks (app v') = [] /\ error (app v') = None
             /\ storage v' = storage v).
  { intros since v.
    destruct (lookback_empty remote (S fuel) tok since v ws uid data Hdemo Hu Hws
                (listing_first_page_error remote fuel tok ws uid since status
                   errorText v (Hp since)))
      as [L1 [L2 [L3 [_ L5]]]].
    auto. }
  split; [|split].
  - intros Hcache w'.
    pose proof (by_outcome_run (fetchTasksForToken remote (S fuel) tok) w _
                  (forToken_cases remote (S fuel) tok w Hdemo)) as C.
    pose proof (forToken_ending remote (S fuel) tok w Hdemo) as E.
    cbv beta zeta in C, E. fold w' in C.
    rewrite Hu, Hws in E.
    rewrite (listing_first_page_error remote fuel tok ws uid _ status errorText
               w (Hp _)) in E.
    change (nonEmpty (@nil Task)) with false in E. rewrite Hcache in E.
    rewrite E in C. destruct C as [_ [_ [_ [C1 [C2 C3]]]]].
    auto.
  - intros since. apply L.
  - intros Htok w'.
    destruct (fetchAllHistoricalTasks_eq remote (S fuel) w tok Htok) as [R _].
    subst w'. rewrite R.
    destruct (L (IsoYearsBefore 1 (clock w)) (run taskStorage.clearTasks w))
      as [_ [L2 [L3 L4]]].
    unfold run in L2, L3, L4 |- *.
    split; [exact L2|split; [exact L3|]]. rewrite L4.
    destruct w as [[ti ci li] a f c r tr]. reflexivity.
Qed.

Lemma listing_error_status_is_silent_witness :
  nonEmpty (cachedTasks (storage Sample.connected)) = true
  /\ outcome (fetchTasksForToken Sample.outage 1 Sample.credential)
             Sample.connected
     = Ret UsedCache.
Proof.
  split; [reflexivity|].
  apply (proj1 (listing_error_status_is_silent Sample.outage 0 Sample.credential
                  "ws1" "u7" (Some Sample.me) 503 "Service Unavailable"
                  Sample.connected eq_refl eq_refl eq_refl
                  (fun _ => eq_refl))).
  reflexivity.
Defined.

(** ** The storage services *)

(** Run straight-line code on a world given by its fields. *)
Ltac wstep :=
  cbv beta iota zeta delta
    [bind ret throw starve tryCatch tryFinally emit elapse dateNow
     newDateISOString getStorage getApp getForm modifyStorage modifyApp
     modifyForm setToken setTasks setLoading setError setAutoRefreshing
     setFormToken setHasSavedToken setTimeout
     taskStorage.saveTasks taskStorage.getTasks
     taskStorage.getLastSyncTimestamp taskStorage.saveLastSyncDate
     taskStorage.getLastSyncDate taskStorage.clearTasks
     tokenStorage.saveToken tokenStorage.getToken tokenStorage.clearToken
     tokenStorage.hasToken handleAsanaConnect handleDisconnect
     AsanaConnect.handleConnect AsanaConnect.handleDemoConnect
     AsanaConnect.handleClearToken AsanaConnect.handleForceReset
     AsanaConnect.handleTokenChange AsanaConnect.handleSubmit
     AsanaConnect.autoConnectEffect reload run outcome
     storage app form clock rolls trace tokenItem tasksItem lastSyncItem
     token tasks loading error autoRefreshing formToken hasSavedToken
     TaskCache.tasks TaskCache.timestamp fst snd].

(** X8.  What [saveTasks] stores [getTasks] reads back, stamped with the
    time of the save; the sync cursor is a separate item, which saving
    the tasks leaves alone and saving the cursor sets without touching
    the tasks or their stamp. *)
Theorem cache_round_trip (saved : list Task) (date : DateStr) (w : World) :
  let w1 := run (taskStorage.saveTasks saved) w in
  let w2 := run (taskStorage.saveLastSyncDate date) w1 in
  outcome taskStorage.getTasks w1 = Ret saved
  /\ outcome taskStorage.getLastSyncTimestamp w1 = Ret (Some (clock w))
  /\ outcome taskStorage.getLastSyncDate w1 = Ret (lastSyncItem (storage w))
  /\ tokenItem (storage w1) = tokenItem (storage w)
  /\ outcome taskStorage.getLastSyncDate w2 = Ret (Some date)
  /\ outcome taskStorage.getTasks w2 = Ret saved
  /\ outcome taskStorage.getLastSyncTimestamp w2 = Ret (Some (clock w))
  /\ tokenItem (storage w2) = tokenItem (storage w).
Proof.
  destruct w as [[ti ci li] a f c r tr]. wstep. repeat split; reflexivity.
Qed.

(** X9.  After [clearTasks] nothing of the cache is left, whatever it
    held: no tasks, no stamp, no cursor; the credential stays.  With the
    cursor gone, a background refresh does nothing. *)
Theorem clear_forgets_cache (remote : Remote) (fuel : nat) (tok : string)
    (w : World) :
  let w1 := run taskStorage.clearTasks w in
  outcome taskStorage.getTasks w1 = Ret []
  /\ outcome taskStorage.getLastSyncTimestamp w1 = Ret None
  /\ outcome taskStorage.getLastSyncDate w1 = Ret None
  /\ storage w1 = mkStorage (tokenItem (storage w)) None None
  /\ app w1 = app w
  /\ ((tok =? "") = false ->
      outcome (autoRefreshTasks remote fuel tok) w1 = Ret NoLastSyncDate
      /\ storage (run (autoRefreshTasks remote fuel tok) w1) = storage w1).
Proof.
  intros w1.
  assert (S1 : storage w1 = mkStorage (tokenItem (storage w)) None None).
  { subst w1. destruct w as [[ti ci li] a f c r tr]. reflexivity. }
  split; [|split; [|split; [|split; [exact S1|split]]]];
    try (subst w1; destruct w as [[ti ci li] a f c r tr]; reflexivity).
  intros Htok. clearbody w1.
  pose proof (refresh_ending remote fuel tok w1 Htok) as E.
  pose proof (by_outcome_run (autoRefreshTasks remote fuel tok) w1 _
                (refresh_cases remote fuel tok w1)) as C.
  cbv beta zeta in E, C. rewrite S1 in E. cbn [lastSyncItem truthyDate] in E.
  rewrite E in C. split; [exact E|]. apply C.
Qed.

Lemma clear_forgets_cache_witness :
  (Sample.credential =? "") = false
  /\ outcome (autoRefreshTasks Sample.garden 5 Sample.credential)
             (run taskStorage.clearTasks Sample.connected)
     = Ret NoLastSyncDate.
Proof.
  split; [reflexivity|].
  apply (proj2 (proj2 (proj2 (proj2 (proj2
           (clear_forgets_cache Sample.garden 5 Sample.credential
                                Sample.connected)))))).
  reflexivity.
Defined.

(** X10.  What [saveToken] stores [getToken] reads back, and [hasToken]
    reports it unless it is the empty string; [clearToken] removes it.
    Neither touches the cached tasks or the cursor. *)
Theorem token_round_trip (saved : string) (w : World) :
  let w1 := run (tokenStorage.saveToken saved) w in
  let w2 := run tokenStorage.clearToken w1 in
  outcome tokenStorage.getToken w1 = Ret (Some saved)
  /\ outcome tokenStorage.hasToken w1 = Ret (negb (saved =? ""))
  /\ tasksItem (storage w1) = tasksItem (storage w)
  /\ lastSyncItem (storage w1) = lastSyncItem (storage w)
  /\ outcome tokenStorage.getToken w2 = Ret None
  /\ outcome tokenStorage.hasToken w2 = Ret false
  /\ tasksItem (storage w2) = tasksItem (storage w)
  /\ lastSyncItem (storage w2) = lastSyncItem (storage w).
Proof.
  destruct w as [[ti ci li] a f c r tr].
  wstep. cbn [Js.truthy].
  destruct (saved =? ""); repeat split; reflexivity.
Qed.

(** ** Connecting and disconnecting *)

Lemma truthy_Some s : s <> "" -> Js.truthy (Some s) = Some s.
Proof.
  intros H. unfold Js.truthy. destruct (String.eqb_spec s ""); [contradiction|reflexivity].
Qed.

Lemma truthy_inv v s : Js.truthy v = Some s -> v = Some s /\ s <> "".
Proof.
  unfold Js.truthy. destruct v as [t|]; [|discriminate].
  destruct (String.eqb_spec t ""); [discriminate|].
  intros [= <-]. now split.
Qed.

(** X12.  The form never stores the demo sentinel: whatever is typed,
    submitting, the demo button and [handleAsanaConnect] itself leave a
    credential item that is not ["demo"], if it was not before. *)
Theorem sentinel_never_stored (input : string) (w : World) :
  tokenItem (storage w) <> Some "demo" ->
  let typed := (AsanaConnect.handleTokenChange input ;;
                AsanaConnect.handleSubmit handleAsanaConnect) in
  tokenItem (storage (run typed w)) <> Some "demo"
  /\ tokenItem (storage (run (AsanaConnect.handleDemoConnect handleAsanaConnect) w))
     <> Some "demo"
  /\ (forall newToken,
        tokenItem (storage (run (handleAsanaConnect newToken) w)) <> Some "demo").
Proof.
  intros Hw typed. subst typed.
  assert (H : forall newToken,
             tokenItem (storage (run (handleAsanaConnect newToken) w))
             <> Some "demo").
  { intros newToken. destruct w as [[ti ci li] a f c r tr]. wstep.
    destruct (String.eqb_spec newToken "demo") as [->|ne]; wstep.
    - exact Hw.
    - intros [= E]. contradiction. }
  split; [|split; [apply H|exact H]].
  destruct w as [[ti ci li] a f c r tr]. cbn [storage tokenItem] in Hw.
  wstep.
  destruct (Js.truthy (Some (Js.trim input))) as [t|]; wstep.
  - destruct (String.eqb_spec t "demo") as [->|ne]; wstep.
    + exact Hw.
    + intros [= E]. contradiction.
  - exact Hw.
Qed.

Lemma sentinel_never_stored_witness :
  tokenItem (storage (Sample.loginPage "")) <> Some "demo"
  /\ tokenItem (storage (run (AsanaConnect.handleTokenChange " demo " ;;
                              AsanaConnect.handleSubmit handleAsanaConnect)
                             (Sample.loginPage "")))
     <> Some "demo".
Proof.
  assert (H : tokenItem (storage (Sample.loginPage "")) <> Some "demo")
    by discriminate.
  split; [exact H|].
  exact (proj1 (sentinel_never_stored " demo " (Sample.loginPage "") H)).
Defined.

(** X13.  A token typed with white space around it is stored trimmed:
    after the submit the credential item and the state hold the trimmed
    text, cache and cursor are gone, and the page finds the credential
    again when it is reloaded. *)
Theorem connect_stores_trimmed_token (input : string) (w : World) :
  Js.trim input <> "" -> Js.trim input <> "demo" ->
  let w1 := run (AsanaConnect.handleTokenChange input ;;
                 AsanaConnect.handleSubmit handleAsanaConnect) w in
  storage w1 = mkStorage (Some (Js.trim input)) None None
  /\ token (app w1) = Some (Js.trim input)
  /\ error (app w1) = None
  /\ form w1 = mkForm input true
  /\ outcome tokenStorage.getToken w1 = Ret (Some (Js.trim input))
  /\ token (app (run mountEffect (reload w1))) = Some (Js.trim input).
Proof.
  intros Hne Hnd w1.
  assert (E : w1 = mkWorld (mkStorage (Some (Js.trim input)) None None)
                      (mkApp (Some (Js.trim input)) (tasks (app w))
                             (loading (app w)) None (autoRefreshing (app w)))
                      (mkForm input true) (clock w) (rolls w)
                      (trace w ++ [RemoveItem TOKEN_STORAGE_KEY;
                                   SetItem TOKEN_STORAGE_KEY;
                                   RemoveItem TOKEN_STORAGE_KEY;
                                   SetItem TOKEN_STORAGE_KEY;
                                   RemoveItem TASKS_STORAGE_KEY;
                                   RemoveItem LAST_SYNC_KEY])).
  { subst w1. destruct w as [[ti ci li] a f c r tr]. wstep.
    rewrite (truthy_Some _ Hne). wstep.
    rewrite (proj2 (String.eqb_neq _ "demo") Hnd). wstep.
    now rewrite <- !app_assoc. }
  clearbody w1. subst w1.
  repeat (split; [reflexivity|]).
  unfold mountEffect. wstep. rewrite (truthy_Some _ Hne). wstep.
  change (nonEmpty (@nil Task)) with false. reflexivity.
Qed.

Lemma connect_stores_trimmed_token_witness :
  Js.trim "  1/1201  " <> "" /\ Js.trim "  1/1201  " <> "demo"
  /\ storage (run (AsanaConnect.handleTokenChange "  1/1201  " ;;
                   AsanaConnect.handleSubmit handleAsanaConnect)
                  Sample.leftover)
     = mkStorage (Some "1/1201") None None.
Proof.
  assert (H1 : Js.trim "  1/1201  " <> "") by discriminate.
  assert (H2 : Js.trim "  1/1201  " <> "demo") by discriminate.
  split; [exact H1|split; [exact H2|]].
  exact (proj1 (connect_stores_trimmed_token "  1/1201  " Sample.leftover H1 H2)).
Defined.

(** X14.  The connect form connects by itself: mounted in a browser that
    holds a credential, it shows it and calls [onConnect] with it 100 ms
    later; wired to [handleAsanaConnect], as [App] does, this removes the
    cached tasks and the cursor and keeps the credential.  Without a
    credential it reads the item once and calls nothing. *)
Theorem auto_connect (w : World) :
  let w1 := run (AsanaConnect.autoConnectEffect handleAsanaConnect) w in
  (forall saved,
      Js.truthy (tokenItem (storage w)) = Some saved ->
      storage w1 = mkStorage (Some saved) None None
      /\ token (app w1) = Some saved
      /\ form w1 = mkForm saved true
      /\ clock w1 = (clock w + 100)%Z)
  /\ (Js.truthy (tokenItem (storage w)) = None ->
      storage w1 = storage w /\ app w1 = app w /\ form w1 = form w
      /\ trace w1 = trace w ++ [GetItem TOKEN_STORAGE_KEY; SetTimeout 100]).
Proof.
  intros w1. subst w1. destruct w as [[ti ci li] a f c r tr].
  cbn [storage tokenItem]. split.
  - intros saved Hs. destruct (truthy_inv _ _ Hs) as [-> Hne].
    wstep. rewrite Hs. wstep.
    destruct (saved =? "demo") eqn:Hd; wstep.
    + apply String.eqb_eq in Hd. subst saved. repeat split; reflexivity.
    + repeat split; reflexivity.
  - intros Hs. wstep. rewrite Hs. wstep.
    repeat split. now rewrite <- app_assoc.
Qed.

Lemma auto_connect_witness :
  Js.truthy (tokenItem (storage Sample.connected)) = Some Sample.credential
  /\ storage (run (AsanaConnect.autoConnectEffect handleAsanaConnect) Sample.connected)
     = mkStorage (Some Sample.credential) None None.
Proof.
  split; [reflexivity|].
  exact (proj1 (proj1 (auto_connect Sample.connected) Sample.credential
                  eq_refl)).
Defined.

(** X15.  "Force Reset" and "Clear Token" do the same: both remove the
    credential, blank the form and leave the cached tasks alone; a submit
    right after either connects in demo mode. *)
Theorem force_reset_is_clear_token (w : World) :
  let w1 := run AsanaConnect.handleClearToken w in
  AsanaConnect.handleForceReset w = AsanaConnect.handleClearToken w
  /\ storage w1
     = mkStorage None (tasksItem (storage w)) (lastSyncItem (storage w))
  /\ form w1 = mkForm "" false
  /\ app w1 = app w
  /\ token (app (run (AsanaConnect.handleSubmit handleAsanaConnect) w1))
     = Some "demo"
  /\ tokenItem (storage (run (AsanaConnect.handleSubmit handleAsanaConnect) w1))
     = None.
Proof.
  destruct w as [[ti ci li] a f c r tr]. wstep.
  cbn [Js.trim Js.trimStart Js.trimEnd Js.truthy String.eqb].
  cbn [String.eqb Ascii.eqb Bool.eqb andb]. wstep.
  repeat split; reflexivity.
Qed.

(** ** The credential under the fetch operations *)

Lemma keeps_bind {A B} (m : M A) (k : A -> M B) :
  keepsCredential m -> (forall a, keepsCredential (k a)) ->
  keepsCredential (bind m k).
Proof.
  intros Hm Hk w. rewrite run_bind.
  destruct (outcome m w); [rewrite Hk|..]; apply Hm.
Qed.

Lemma keeps_ret {A} (a : A) : keepsCredential (ret a).
Proof. intros w. reflexivity. Qed.

Lemma keeps_forToken remote fuel tok :
  keepsCredential (fetchTasksForToken remote fuel tok).
Proof.
  intros w. destruct (tok =? "demo") eqn:Hd.
  - apply String.eqb_eq in Hd. subst tok. unfold run.
    now rewrite demo_fetchTasksForToken.
  - apply (by_outcome_run (fetchTasksForToken remote fuel tok) w _
             (forToken_cases remote fuel tok w Hd)).
Qed.

Lemma keeps_refresh remote fuel tok :
  keepsCredential (autoRefreshTasks remote fuel tok).
Proof.
  intros w.
  apply (by_outcome_run (autoRefreshTasks remote fuel tok) w _
           (refresh_cases remote fuel tok w)).
Qed.

Lemma keeps_lookback remote fuel tok since :
  keepsCredential (fetchTasksWithLookback remote fuel tok since).
Proof.
  intros w. destruct (tok =? "demo") eqn:Hd.
  - apply String.eqb_eq in Hd. subst tok. unfold run.
    now rewrite demo_fetchTasksWithLookback.
  - apply (by_outcome_run (fetchTasksWithLookback remote fuel tok since) w _
             (lookback_cases remote fuel tok since w Hd)).
Qed.

Lemma keeps_allHistory remote fuel :
  keepsCredential (fetchAllHistoricalTasks remote fuel).
Proof.
  unfold fetchAllHistoricalTasks.
  apply keeps_bind; [intros w; reflexivity|]. intros a.
  destruct (Js.truthy (token a)) as [tok|]; [|apply keeps_ret].
  apply keeps_bind; [intros [[ti ci li] a0 f c r tr]; reflexivity|]. intros _.
  apply keeps_bind; [intros w; reflexivity|]. intros since.
  apply keeps_bind; [apply keeps_lookback|]. intros r. apply keeps_ret.
Qed.

Lemma keeps_tokenEffect remote fuel : keepsCredential (tokenEffect remote fuel).
Proof.
  unfold tokenEffect.
  apply keeps_bind; [intros w; reflexivity|]. intros a.
  destruct (Js.truthy (token a)) as [tok|]; [|apply keeps_ret].
  destruct ((List.length (tasks a) =? 0)%nat || (tok =? "demo"));
    [|apply keeps_ret].
  apply keeps_bind; [apply keeps_forToken|]. intros r. apply keeps_ret.
Qed.

Lemma keeps_bootstrap remote fuel : keepsCredential (bootstrap remote fuel).
Proof.
  unfold bootstrap.
  apply keeps_bind.
  { intros w. destruct (mountEffect_reads w) as [Hs _]. now rewrite Hs. }
  intros refresh.
  apply keeps_bind; [apply keeps_tokenEffect|]. intros _.
  destruct refresh as [savedToken|]; [|apply keeps_ret].
  apply keeps_bind; [apply keeps_refresh|]. intros r. apply keeps_ret.
Qed.

(** X16.  Fetching never touches the stored credential: whatever the
    remote answers and however the call ends, the foreground fetch, the
    background refresh, both full-history functions and the effects run
    at page load leave the credential item as they found it. *)
Theorem fetching_keeps_credential (remote : Remote) (fuel : nat)
    (tok : string) (since : DateStr) :
  keepsCredential (fetchTasksForToken remote fuel tok)
  /\ keepsCredential (autoRefreshTasks remote fuel tok)
  /\ keepsCredential (fetchTasksWithLookback remote fuel tok since)
  /\ keepsCredential (fetchAllHistoricalTasks remote fuel)
  /\ keepsCredential (tokenEffect remote fuel)
  /\ keepsCredential (bootstrap remote fuel).
Proof.
  repeat split.
  - apply keeps_forToken.
  - apply keeps_refresh.
  - apply keeps_lookback.
  - apply keeps_allHistory.
  - apply keeps_tokenEffect.
  - apply keeps_bootstrap.
Qed.

(** ** Synthetic tasks *)






(** ** The message for a rejected credential *)

(** X18.  A credential the API rejects with status 401 is reported as
    an authentication failure, whatever the body of the answer says; 20
    synthetic tasks are shown and nothing stored is touched. *)
Theorem unauthorized_is_reported (remote : Remote) (fuel : nat)
    (tok errorText : string) (w : World) :
  (tok =? "demo") = false ->
  userReply remote tok = UserNotOk 401 errorText ->
  let w' := run (fetchTasksForToken remote fuel tok) w in
  error (app w')
  = Some "Authentication failed: Your Asana token might be invalid or expired. Please get a new token."
  /\ List.length (tasks (app w')) = 20
  /\ storage w' = storage w
  /\ token (app w') = token (app w).
Proof.
  intros Hdemo Hu w'.
  pose proof (by_outcome_run (fetchTasksForToken remote fuel tok) w _
                (forToken_cases remote fuel tok w Hdemo)) as C.
  pose proof (forToken_ending remote fuel tok w Hdemo) as E.
  cbv beta zeta in C, E. fold w' in C. rewrite Hu in E. rewrite E in C.
  destruct C as [_ [Ct [_ [C1 [C2 C3]]]]].
  split; [rewrite C1; reflexivity|].
  split; [rewrite C2; apply mockList_length|].
  split; assumption.
Qed.

Lemma unauthorized_is_reported_witness :
  (Sample.credential =? "demo") = false
  /\ error (app (run (fetchTasksForToken Sample.revoked 3 Sample.credential)
                     Sample.connected))
     = Some "Authentication failed: Your Asana token might be invalid or expired. Please get a new token.".
Proof.
  split; [reflexivity|].
  exact (proj1 (unauthorized_is_reported Sample.revoked 3 Sample.credential
                  "Not Authorized" Sample.connected eq_refl eq_refl)).
Defined.

(** ** The fallback queries of the foreground fetch *)

(** Name the next call of [fetchPages] in the goal that is not run at
    [w0], split its result and bring in its frame and its outcome. *)
Ltac paged w0 o1 w1 HO :=
  let HT := fresh "HT" in
  match goal with
  | |- context [fetchPages ?r ?f ?t ?ep ?off ?acc ?W] =>
      tryif constr_eq W w0 then fail else idtac;
      pose proof (fetchPages_traffic r f t ep off acc W) as HT;
      pose proof (fetchPages_outcome r f t ep off acc W w0) as HO;
      unfold run, outcome in HT, HO;
      destruct (fetchPages r f t ep off acc W) as [o1 w1];
      cbn [fst snd] in HT, HO;
      destruct HT as [? ? ? ? ? [? [? ?]]];
      destruct w1;
      cbn [storage app form clock rolls trace] in *;
      revert HO; subst; intro HO
  end.

Section Fallback.

Variable remote : Remote.
Variable fuel : nat.

Lemma forToken_fallbacks tok w data ws uid :
  (tok =? "demo") = false ->
  userReply remote tok = UserOk data ->
  firstWorkspace data = Some (ws, uid) ->
  cachedTasks (storage w) = [] ->
  outcome (fetchAssignedTasks remote fuel tok ws uid (completedSinceAt remote w)) w
  = Ret [] ->
  let '(o, w') := fetchTasksForToken remote fuel tok w in
  storage w' = storage w
  /\ error (app w') = None
  /\ match outcome (fetchPages remote fuel tok
                      (meEndpoint ws (completedSinceAt remote w)) None []) w with
     | Ret asMe =>
         if nonEmpty asMe then
           o = Ret FoundAsMe /\ tasks (app w') = asMe /\ loading (app w') = false
         else
           match outcome (fetchPages remote fuel tok (allTasksEndpoint ws)
                                     None []) w with
           | Ret undated =>
               if nonEmpty undated then
                 o = Ret FoundUndated /\ tasks (app w') = undated
                 /\ loading (app w') = false
               else
                 o = Ret FoundNothing /\ tasks (app w') = tasks (app w)
                 /\ loading (app w') = false
           | Throw e => o = Ret (TasksApiError e)
           | Starved => o = Starved
           end
     | Throw e => o = Ret (TasksApiError e)
     | Starved => o = Starved
     end.
Proof.
  intros Hdemo Hu Hws Hcache.
  destruct w as [[ti ci li] a f c r tr].
  assert (Hc : nonEmpty (cachedTasks (mkStorage ti ci li)) = false)
    by (cbn [storage] in Hcache; now rewrite Hcache).
  clear Hcache.
  unfold completedSinceAt, fetchTasksForToken. rewrite Hdemo.
  mstep. unfold cachedTasks in Hc. cbn [tasksItem] in Hc.
  set (w0 := mkWorld (mkStorage ti ci li) a f c r tr).
  destruct ci as [[cts cstamp]|]; cbn [TaskCache.tasks] in Hc; mstep;
    rewrite Hu; mstep; rewrite Hws; mstep.
  - listing w0 o1 w1 T Ho. rewrite <- Ho. intros ->. clear Ho.
    destruct T as [Ts Ta Tf Tr Tc [evs [Tt TF]]].
    destruct w1 as [s1 a1 f1 c1 r1 tr1]. cbn in Ts, Ta, Tf, Tr, Tc, Tt.
    subst s1 a1 f1 r1 tr1.
    change (nonEmpty (@nil Task)) with false. rewrite Hc. mstep.
    paged w0 o2 w2 Ho2. rewrite <- Ho2. clear Ho2.
    destruct o2 as [l2|e2|]; mstep; [|mock_end|done_end].
    destruct (nonEmpty l2); mstep; [done_end|].
    paged w0 o3 w3 Ho3. rewrite <- Ho3. clear Ho3.
    destruct o3 as [l3|e3|]; mstep; [|mock_end|done_end].
    destruct (nonEmpty l3); mstep; done_end.
  - listing w0 o1 w1 T Ho. rewrite <- Ho. intros ->. clear Ho.
    destruct T as [Ts Ta Tf Tr Tc [evs [Tt TF]]].
    destruct w1 as [s1 a1 f1 c1 r1 tr1]. cbn in Ts, Ta, Tf, Tr, Tc, Tt.
    subst s1 a1 f1 r1 tr1.
    change (nonEmpty (@nil Task)) with false. mstep.
    paged w0 o2 w2 Ho2. rewrite <- Ho2. clear Ho2.
    destruct o2 as [l2|e2|]; mstep; [|mock_end|done_end].
    destruct (nonEmpty l2); mstep; [done_end|].
    paged w0 o3 w3 Ho3. rewrite <- Ho3. clear Ho3.
    destruct o3 as [l3|e3|]; mstep; [|mock_end|done_end].
    destruct (nonEmpty l3); mstep; done_end.
Qed.

End Fallback.

(** X21.  What the fallback queries find is shown but not kept: when
    the cache is empty and the listing under the user's identifier
    returns nothing, the tasks found under [assignee=me], with or
    without the date bound, are displayed without a message, and
    localStorage is left as it was, cache and cursor included; when
    they find nothing either, the displayed tasks stay as they were. *)
Theorem fallback_listing_is_not_cached (remote : Remote) (fuel : nat)
    (tok ws uid : string) (data : option UserData) (w : World) :
  (tok =? "demo") = false ->
  userReply remote tok = UserOk data ->
  firstWorkspace data = Some (ws, uid) ->
  cachedTasks (storage w) = [] ->
  let since := completedSinceAt remote w in
  outcome (fetchAssignedTasks remote fuel tok ws uid since) w = Ret [] ->
  let o := outcome (fetchTasksForToken remote fuel tok) w in
  let w' := run (fetchTasksForToken remote fuel tok) w in
  let asMe := outcome (fetchPages remote fuel tok (meEndpoint ws since) None []) w in
  let undated := outcome (fetchPages remote fuel tok (allTasksEndpoint ws) None []) w in
  storage w' = storage w
  /\ error (app w') = None
  /\ (forall shown,
        asMe = Ret shown -> nonEmpty shown = true ->
        o = Ret FoundAsMe /\ tasks (app w') = shown /\ loading (app w') = false)
  /\ (forall shown,
        asMe = Ret [] -> undated = Ret shown -> nonEmpty shown = true ->
        o = Ret FoundUndated /\ tasks (app w') = shown
        /\ loading (app w') = false)
  /\ (asMe = Ret [] -> undated = Ret [] ->
      o = Ret FoundNothing /\ tasks (app w') = tasks (app w)
      /\ loading (app w') = false).
Proof.
  intros Hdemo Hu Hws Hcache since Hlist o w' asMe undated.
  pose proof (by_outcome_run (fetchTasksForToken remote fuel tok) w _
                (forToken_fallbacks remote fuel tok w data ws uid
                   Hdemo Hu Hws Hcache Hlist)) as F.
  cbv beta in F. fold o w' since in F. fold asMe undated in F.
  destruct F as [Fs [Fe F]].
  split; [exact Fs|split; [exact Fe|split; [|split]]].
  - intros shown Ha Hn. rewrite Ha, Hn in F. exact F.
  - intros shown Ha Hu' Hn. rewrite Ha in F.
    change (nonEmpty (@nil Task)) with false in F.
    rewrite Hu', Hn in F. exact F.
  - intros Ha Hu'. rewrite Ha in F.
    change (nonEmpty (@nil Task)) with false in F.
    rewrite Hu' in F. exact F.
Qed.

Lemma fallback_listing_is_not_cached_witness :
  cachedTasks (storage Sample.returning) = []
  /\ tasks (app (run (fetchTasksForToken Sample.onlyAsMe 3 Sample.credential)
                     Sample.returning))
     = [Sample.roses]
  /\ storage (run (fetchTasksForToken Sample.onlyAsMe 3 Sample.credential)
                  Sample.returning)
     = storage Sample.returning.
Proof.
  split; [reflexivity|].
  assert (L : outcome (fetchAssignedTasks Sample.onlyAsMe 3 Sample.credential
                         "ws1" "u7"
                         (completedSinceAt Sample.onlyAsMe Sample.returning))
                      Sample.returning = Ret [])
    by (vm_compute; reflexivity).
  assert (A : outcome (fetchPages Sample.onlyAsMe 3 Sample.credential
                         (meEndpoint "ws1"
                            (completedSinceAt Sample.onlyAsMe Sample.returning))
                         None [])
                      Sample.returning = Ret [Sample.roses])
    by (vm_compute; reflexivity).
  destruct (fallback_listing_is_not_cached Sample.onlyAsMe 3 Sample.credential
              "ws1" "u7" (Some Sample.me) Sample.returning
              eq_refl eq_refl eq_refl eq_refl L) as [Hs [_ [Hme _]]].
  destruct (Hme [Sample.roses] A eq_refl) as [_ [Ht _]].
  split; [exact Ht|exact Hs].
Defined.

(** ** The plant catalogue *)

Lemma plants_pick i j :
  i < 4 ->
  exists category assets p,
    nth_error (map fst plants.PLANTS) i = Some category
    /\ plants.lookup category plants.PLANTS = Some assets
    /\ nth_error assets (j mod List.length assets) = Some p
    /\ In (category, assets) plants.PLANTS
    /\ In p assets.
Proof.
  intros Hi.
  assert (H2 : j mod 2 < 2) by (apply Nat.mod_upper_bound; discriminate).
  destruct i as [|[|[|[|i]]]]; [..|lia].
  - destruct (j mod 2) as [|[|k]] eqn:E; [..|lia];
      do 3 eexists; (split; [reflexivity|split; [reflexivity|]]);
      cbn [List.length]; rewrite E; (split; [reflexivity|]); cbn; tauto.
  - destruct (j mod 2) as [|[|k]] eqn:E; [..|lia];
      do 3 eexists; (split; [reflexivity|split; [reflexivity|]]);
      cbn [List.length]; rewrite E; (split; [reflexivity|]); cbn; tauto.
  - do 3 eexists. split; [reflexivity|split; [reflexivity|]].
    cbn [List.length]. rewrite Nat.mod_1_r. split; [reflexivity|]. cbn. tauto.
  - destruct (j mod 2) as [|[|k]] eqn:E; [..|lia];
      do 3 eexists; (split; [reflexivity|split; [reflexivity|]]);
      cbn [List.length]; rewrite E; (split; [reflexivity|]); cbn; tauto.
Qed.

(** X22.  [getPlantForTask] always returns a plant of the catalogue:
    whatever the task and whatever the generator draws, the two indices
    fall inside the category list and the category, so the result is
    never [undefined] and nothing is thrown; two numbers are drawn. *)
Theorem plant_is_from_catalogue (remote : Remote) (task : Task) (w : World) :
  exists category assets p,
    In (category, assets) plants.PLANTS
    /\ In p assets
    /\ plants.getPlantForTask remote task w = (Ret (Some p), rolled 2 w).
Proof.
  destruct (plants_pick (dice remote (rolls w) mod 4) (dice remote (S (rolls w))))
    as [category [assets [p [E1 [E2 [E3 [H1 H2]]]]]]];
    [apply Nat.mod_upper_bound; discriminate|].
  exists category, assets, p. split; [exact H1|split; [exact H2|]].
  unfold plants.getPlantForTask, randomBelow, bind, rolled.
  change (List.length (map fst plants.PLANTS)) with 4.
  rewrite E1, E2. cbn [rolls]. rewrite E3.
  unfold ret. do 2 f_equal. lia.
Qed.

(** ** The grid of the garden *)

Lemma plantsPerRow_spec n :
  0 < n ->
  0 < Garden.plantsPerRow n
  /\ n * 2 <= Garden.plantsPerRow n * Garden.plantsPerRow n.
Proof.
  intros Hn. unfold Garden.plantsPerRow.
  assert (H2 : 0 < n * 2) by lia.
  split; [now apply Nat.sqrt_up_pos|apply (Nat.sqrt_up_spec _ H2)].
Qed.

(** X23.  Every task gets a cell of its own inside the grid: for a
    list of [n > 0] tasks the column of each index is below
    [plantsPerRow] and its row below [rows], two indices never share a
    cell, and the grid has at most half as many rows as columns, rounded
    up. *)
Theorem grid_cells_are_distinct (n : nat) :
  0 < n ->
  (forall index, index < n ->
     Garden.col n index < Garden.plantsPerRow n
     /\ Garden.row n index < Garden.rows n
     /\ Garden.zIndex n index < 10 + Garden.rows n)
  /\ (forall i j,
        Garden.row n i = Garden.row n j -> Garden.col n i = Garden.col n j ->
        i = j)
  /\ n <= Garden.rows n * Garden.plantsPerRow n
  /\ 2 * Garden.rows n <= Garden.plantsPerRow n + 1.
Proof.
  intros Hn. destruct (plantsPerRow_spec n Hn) as [Hk Hsq].
  unfold Garden.zIndex, Garden.row, Garden.col, Garden.rows.
  set (k := Garden.plantsPerRow n) in *.
  assert (Hrows : n <= (n + k - 1) / k * k).
  { pose proof (Nat.div_mod_eq (n + k - 1) k) as D.
    pose proof (Nat.mod_upper_bound (n + k - 1) k) as M. nia. }
  split; [|split; [|split]].
  - intros index Hi.
    assert (Hrow : index / k < (n + k - 1) / k).
    { apply Nat.Div0.div_lt_upper_bound. nia. }
    split; [apply Nat.mod_upper_bound; lia|]. split; [exact Hrow|lia].
  - intros i j Hr Hc.
    rewrite (Nat.div_mod_eq i k), (Nat.div_mod_eq j k). now rewrite Hr, Hc.
  - exact Hrows.
  - assert (Hup : (n + k - 1) / k < (k + 1) / 2 + 1).
    { apply Nat.Div0.div_lt_upper_bound.
      pose proof (Nat.div_mod_eq (k + 1) 2) as D.
      pose proof (Nat.mod_upper_bound (k + 1) 2) as M. nia. }
    pose proof (Nat.div_mod_eq (k + 1) 2) as D. lia.
Qed.

Lemma grid_cells_are_distinct_witness :
  0 < 15
  /\ Garden.plantsPerRow 15 = 6 /\ Garden.rows 15 = 3
  /\ 2 * Garden.rows 15 <= Garden.plantsPerRow 15 + 1.
Proof.
  assert (H : 0 < 15) by lia.
  split; [exact H|]. split; [reflexivity|]. split; [reflexivity|].
  exact (proj2 (proj2 (proj2 (grid_cells_are_distinct 15 H)))).
Defined.

(** ** The requests sent and the flags left *)

Lemma assigned_sentWith tok ws uid since evs :
  Forall (isPageFetch tok (assignedEndpoint ws uid since)) evs ->
  Forall (sentWith tok) evs.
Proof. apply Forall_impl. intros e [off ->]. now split. Qed.

Lemma me_sentWith tok ws since evs :
  Forall (isPageFetch tok (meEndpoint ws since)) evs ->
  Forall (sentWith tok) evs.
Proof. apply Forall_impl. intros e [off ->]. now split. Qed.

Lemma undated_sentWith tok ws evs :
  Forall (isPageFetch tok (allTasksEndpoint ws)) evs ->
  Forall (sentWith tok) evs.
Proof. apply Forall_impl. intros e [off ->]. now split. Qed.

(** Close a goal on the events added to the trace. *)
Ltac sent_end :=
  repeat match goal with
         | H : Forall (isPageFetch _ (assignedEndpoint _ _ _)) _ |- _ =>
             apply assigned_sentWith in H
         | H : Forall (isPageFetch _ (meEndpoint _ _)) _ |- _ =>
             apply me_sentWith in H
         | H : Forall (isPageFetch _ (allTasksEndpoint _)) _ |- _ =>
             apply undated_sentWith in H
         end;
  rewrite <- ?app_assoc; cbn [List.app];
  eexists; split; [reflexivity|];
  repeat first [ assumption
               | apply Forall_nil
               | apply Forall_cons; [cbn; auto; fail|]
               | apply Forall_app; split ].

Ltac flag_end := first [exact I | reflexivity].

Section Sent.

Variable remote : Remote.
Variable fuel : nat.

Lemma forToken_sent tok w :
  (tok =? "demo") = false ->
  let '(o, w') := fetchTasksForToken remote fuel tok w in
  (exists evs, trace w' = trace w ++ evs /\ Forall (sentWith tok) evs)
  /\ match o with Starved => True | _ => loading (app w') = false end.
Proof.
  intros Hdemo.
  destruct w as [[ti ci li] a f c r tr].
  unfold fetchTasksForToken. rewrite Hdemo.
  mstep.
  destruct ci as [[cts cstamp]|]; mstep;
    (destruct (userReply remote tok) as [e|st txt|data]; mstep;
     [ rewrite generateMockTasks_eq; unfold rolled; mstep;
       split; [sent_end|flag_end]
     | rewrite generateMockTasks_eq; unfold rolled; mstep;
       split; [sent_end|flag_end]
     | destruct (firstWorkspace data) as [[ws uid]|]; mstep;
       [|rewrite generateMockTasks_eq; unfold rolled; mstep;
         split; [sent_end|flag_end]] ]).
  - pages o1 w1.
    destruct o1 as [l1|e1|]; mstep;
      [|rewrite generateMockTasks_eq; unfold rolled; mstep;
        split; [sent_end|flag_end]
       |split; [sent_end|flag_end]].
    destruct (nonEmpty l1) eqn:Hn1; mstep; [split; [sent_end|flag_end]|].
    destruct (nonEmpty cts) eqn:Hc; mstep; [split; [sent_end|flag_end]|].
    pages o2 w2.
    destruct o2 as [l2|e2|]; mstep;
      [|rewrite generateMockTasks_eq; unfold rolled; mstep;
        split; [sent_end|flag_end]
       |split; [sent_end|flag_end]].
    destruct (nonEmpty l2) eqn:Hn2; mstep; [split; [sent_end|flag_end]|].
    pages o3 w3.
    destruct o3 as [l3|e3|]; mstep;
      [|rewrite generateMockTasks_eq; unfold rolled; mstep;
        split; [sent_end|flag_end]
       |split; [sent_end|flag_end]].
    destruct (nonEmpty l3) eqn:Hn3; mstep; split; [sent_end|flag_end|sent_end|flag_end].
  - pages o1 w1.
    destruct o1 as [l1|e1|]; mstep;
      [|rewrite generateMockTasks_eq; unfold rolled; mstep;
        split; [sent_end|flag_end]
       |split; [sent_end|flag_end]].
    destruct (nonEmpty l1) eqn:Hn1; mstep; [split; [sent_end|flag_end]|].
    change (nonEmpty (@nil Task)) with false. mstep.
    pages o2 w2.
    destruct o2 as [l2|e2|]; mstep;
      [|rewrite generateMockTasks_eq; unfold rolled; mstep;
        split; [sent_end|flag_end]
       |split; [sent_end|flag_end]].
    destruct (nonEmpty l2) eqn:Hn2; mstep; [split; [sent_end|flag_end]|].
    pages o3 w3.
    destruct o3 as [l3|e3|]; mstep;
      [|rewrite generateMockTasks_eq; unfold rolled; mstep;
        split; [sent_end|flag_end]
       |split; [sent_end|flag_end]].
    destruct (nonEmpty l3) eqn:Hn3; mstep; split; [sent_end|flag_end|sent_end|flag_end].
Qed.

Lemma refresh_sent tok w :
  let '(o, w') := autoRefreshTasks remote fuel tok w in
  (exists evs, trace w' = trace w ++ evs /\ Forall (sentWith tok) evs)
  /\ match o with
     | Starved => True
     | _ => (tok =? "") = false -> autoRefreshing (app w') = false
     end.
Proof.
  destruct w as [[ti ci li] a f c r tr].
  unfold autoRefreshTasks.
  destruct (tok =? "") eqn:Htok; mstep;
    [split; [exists []; split; [now rewrite app_nil_r|constructor]
            |discriminate]|].
  destruct (truthyDate li) as [since|] eqn:Hsince; mstep;
    [|split; [sent_end|reflexivity]].
  destruct ci as [[cts cstamp]|]; mstep;
    (destruct (userReply remote tok) as [e|st txt|data]; mstep;
     [ split; [sent_end|reflexivity] | split; [sent_end|reflexivity]
     | destruct (firstWorkspace data) as [[ws uid]|]; mstep;
       [|split; [sent_end|reflexivity]] ];
     pages o1 w1;
     (destruct o1 as [l1|e1|]; mstep;
      [|split; [sent_end|reflexivity]|split; [sent_end|exact I]]);
     destruct (nonEmpty l1) eqn:Hn1; mstep; split;
     [sent_end|reflexivity|sent_end|reflexivity]).
Qed.

Lemma lookback_sent tok since w :
  (tok =? "demo") = false ->
  let '(o, w') := fetchTasksWithLookback remote fuel tok since w in
  (exists evs, trace w' = trace w ++ evs /\ Forall (sentWith tok) evs)
  /\ match o with Starved => True | _ => loading (app w') = false end.
Proof.
  intros Hdemo.
  destruct w as [[ti ci li] a f c r tr].
  unfold fetchTasksWithLookback. rewrite Hdemo. mstep.
  destruct (userReply remote tok) as [e|st txt|data]; mstep;
    [ split; [sent_end|flag_end] | split; [sent_end|flag_end]
    | destruct (firstWorkspace data) as [[ws uid]|]; mstep;
      [|split; [sent_end|flag_end]] ].
  pages o1 w1.
  destruct o1 as [l1|e1|]; mstep;
    [|split; [sent_end|flag_end]|split; [sent_end|flag_end]].
  destruct (nonEmpty l1); mstep; split; [sent_end|flag_end|sent_end|flag_end].
Qed.

End Sent.

Lemma demo_sent remote w tok :
  (exists evs, trace (afterDemo remote w) = trace w ++ evs
               /\ Forall (sentWith tok) evs)
  /\ loading (app (afterDemo remote w)) = false.
Proof.
  split; [|reflexivity]. exists [SetTimeout 1000]. split; [reflexivity|].
  repeat constructor.
Qed.

(** X24.  A fetch sends the credential it was given and no other: every
    request of the foreground fetch, the background refresh and the
    full-history fetch carries the token passed in, and every listing
    request asks for pages of 100; in demo mode none goes out. *)
Theorem requests_carry_the_token (remote : Remote) (fuel : nat) (tok : string)
    (since : DateStr) (w : World) :
  (exists evs,
      trace (run (fetchTasksForToken remote fuel tok) w) = trace w ++ evs
      /\ Forall (sentWith tok) evs)
  /\ (exists evs,
        trace (run (autoRefreshTasks remote fuel tok) w) = trace w ++ evs
        /\ Forall (sentWith tok) evs)
  /\ (exists evs,
        trace (run (fetchTasksWithLookback remote fuel tok since) w)
        = trace w ++ evs
        /\ Forall (sentWith tok) evs)
  /\ (exists evs,
        trace (run (fetchTasksForToken remote fuel "demo") w) = trace w ++ evs
        /\ Forall isLocal evs).
Proof.
  split; [|split; [|split]].
  - destruct (tok =? "demo") eqn:Hd.
    + apply String.eqb_eq in Hd. subst tok. unfold run.
      rewrite demo_fetchTasksForToken. apply demo_sent.
    + apply (by_outcome_run (fetchTasksForToken remote fuel tok) w _
               (forToken_sent remote fuel tok w Hd)).
  - apply (by_outcome_run (autoRefreshTasks remote fuel tok) w _
             (refresh_sent remote fuel tok w)).
  - destruct (tok =? "demo") eqn:Hd.
    + apply String.eqb_eq in Hd. subst tok. unfold run.
      rewrite demo_fetchTasksWithLookback. apply demo_sent.
    + apply (by_outcome_run (fetchTasksWithLookback remote fuel tok since) w _
               (lookback_sent remote fuel tok since w Hd)).
  - unfold run. rewrite demo_fetchTasksForToken.
    exists [SetTimeout 1000]. split; [reflexivity|repeat constructor].
Qed.

(** X25.  The flags are reset.  With a credential other than ['demo'],
    whenever a foreground fetch returns, by any of its paths, [loading]
    is false, and whenever the background refresh returns,
    [autoRefreshing] is false.  In demo mode the fetch returns at once,
    with [loading] still true and the timer set; [loading] becomes false
    when the timer fires, a second later. *)
Theorem flags_are_reset (remote : Remote) (fuel : nat) (tok : string)
    (since : DateStr) (w : World) :
  ((tok =? "demo") = false ->
   outcome (fetchTasksForToken remote fuel tok) w <> Starved ->
   loading (app (run (fetchTasksForToken remote fuel tok) w)) = false)
  /\ ((tok =? "demo") = false ->
      outcome (fetchTasksWithLookback remote fuel tok since) w <> Starved ->
      loading (app (run (fetchTasksWithLookback remote fuel tok since) w))
      = false)
  /\ ((tok =? "") = false ->
      outcome (autoRefreshTasks remote fuel tok) w <> Starved ->
      autoRefreshing (app (run (autoRefreshTasks remote fuel tok) w)) = false)
  /\ (let atReturn :=
        run (setLoading true ;; setError None ;; emit (SetTimeout 1000)) w in
      let fired :=
        (elapse 1000 ;;
         mockTasks <- generateMockTasks remote 15 ;;
         setTasks mockTasks ;;
         setLoading false) in
      loading (app atReturn) = true
      /\ tasks (app atReturn) = tasks (app w)
      /\ run (fetchTasksForToken remote fuel "demo") w = run fired atReturn
      /\ run (fetchTasksWithLookback remote fuel "demo" since) w
         = run fired atReturn
      /\ loading (app (run fired atReturn)) = false).
Proof.
  split; [|split; [|split]].
  - intros Hd Hs.
    pose proof (by_outcome_run (fetchTasksForToken remote fuel tok) w _
                  (forToken_sent remote fuel tok w Hd)) as C.
    cbv beta in C. destruct C as [_ C].
    destruct (outcome (fetchTasksForToken remote fuel tok) w);
      [exact C|exact C|contradiction].
  - intros Hd Hs.
    pose proof (by_outcome_run (fetchTasksWithLookback remote fuel tok since)
                  w _ (lookback_sent remote fuel tok since w Hd)) as C.
    cbv beta in C. destruct C as [_ C].
    destruct (outcome (fetchTasksWithLookback remote fuel tok since) w);
      [exact C|exact C|contradiction].
  - intros Htok Hs.
    pose proof (by_outcome_run (autoRefreshTasks remote fuel tok) w _
                  (refresh_sent remote fuel tok w)) as C.
    cbv beta in C. destruct C as [_ C].
    destruct (outcome (autoRefreshTasks remote fuel tok) w);
      [exact (C Htok)|exact (C Htok)|contradiction].
  - intros atReturn fired.
    assert (F : run fired atReturn = afterDemo remote w).
    { subst atReturn fired. destruct w as [s a f c r tr]. unfold afterDemo.
      mstep. rewrite generateMockTasks_eq. unfold rolled. mstep. reflexivity. }
    split; [subst atReturn; destruct w as [s a f c r tr]; reflexivity|].
    split; [subst atReturn; destruct w as [s a f c r tr]; reflexivity|].
    rewrite F. unfold run.
    rewrite demo_fetchTasksForToken, demo_fetchTasksWithLookback.
    repeat split; reflexivity.
Qed.

Lemma flags_are_reset_witness :
  (Sample.credential =? "demo") = false
  /\ outcome (fetchTasksForToken Sample.offline 3 Sample.credential)
             Sample.connected <> Starved
  /\ loading (app (run (fetchTasksForToken Sample.offline 3 Sample.credential)
                       Sample.connected)) = false.
Proof.
  assert (H : outcome (fetchTasksForToken Sample.offline 3 Sample.credential)
                      Sample.connected <> Starved)
    by (vm_compute; discriminate).
  split; [reflexivity|]. split; [exact H|].
  exact (proj1 (flags_are_reset Sample.offline 3 Sample.credential (IsoOf 0)
                  Sample.connected) eq_refl H).
Defined.

(** ** The cache under the sync operations *)





(** ** The page load *)

Lemma nonEmpty_length {A} (l : list A) :
  nonEmpty l = true -> (List.length l =? 0)%nat = false.
Proof. unfold nonEmpty. now destruct l. Qed.

Lemma readAll_run keys :
  forall w,
    tokenStorage.readAll keys w
    = (Ret tt,
       mkWorld (storage w) (app w) (form w) (clock w) (rolls w)
               (trace w ++ map GetItem keys)).
Proof.
  induction keys as [|k keys IH]; intros [s a f c r tr].
  - cbn. now rewrite app_nil_r.
  - cbn [tokenStorage.readAll]. unfold bind, emit. rewrite IH.
    cbn [storage app form clock rolls trace map]. now rewrite <- app_assoc.
Qed.

Lemma debugStorage_run w :
  tokenStorage.debugStorage w
  = (Ret tt,
     mkWorld (storage w) (app w) (form w) (clock w) (rolls w)
             (trace w ++ GetItem TOKEN_STORAGE_KEY
                         :: map GetItem (tokenStorage.presentKeys (storage w)))).
Proof.
  destruct w as [s a f c r tr].
  unfold tokenStorage.debugStorage, bind, emit, getStorage.
  rewrite readAll_run. cbn [storage app form clock rolls trace].
  now rewrite <- app_assoc.
Qed.

Lemma mountBody_run w :
  AsanaConnect.mountBody w
  = match Js.truthy (tokenItem (storage w)) with
    | Some saved =>
        (Ret (Some saved),
         mkWorld (storage w) (app w) (mkForm saved true) (clock w) (rolls w)
                 (trace w ++ [GetItem TOKEN_STORAGE_KEY; SetTimeout 100;
                              SetTimeout 100]))
    | None =>
        (Ret None,
         mkWorld (storage w) (app w) (form w) (clock w) (rolls w)
                 (trace w ++ [GetItem TOKEN_STORAGE_KEY; SetTimeout 100]))
    end.
Proof.
  destruct w as [[ti ci li] a [ft hs] c r tr].
  unfold AsanaConnect.mountBody. cbn.
  destruct (Js.truthy ti); cbn; now rewrite <- !app_assoc.
Qed.

(** The form's effect is its two parts in a row. *)
Lemma autoConnectEffect_parts onConnect w :
  AsanaConnect.autoConnectEffect onConnect w
  = (saved <- AsanaConnect.mountBody ;;
     AsanaConnect.timersFire onConnect saved) w.
Proof.
  unfold bind at 1. rewrite mountBody_run.
  destruct w as [[ti ci li] a [ft hs] c r tr].
  unfold AsanaConnect.autoConnectEffect, AsanaConnect.timersFire. cbn.
  destruct (Js.truthy ti); cbn; rewrite <- ?app_assoc; reflexivity.
Qed.

Lemma mountEffect_logged_out w :
  Js.truthy (tokenItem (storage w)) = None ->
  mountEffect w
  = (Ret None,
     mkWorld (storage w) (app w) (form w) (clock w) (rolls w)
             (trace w ++ [GetItem TOKEN_STORAGE_KEY])).
Proof.
  destruct w as [[ti ci li] [tk ts ld er ar] f c r tr].
  cbn [storage tokenItem]. intros Hs.
  unfold mountEffect. cbn. rewrite Hs. reflexivity.
Qed.

Lemma mountEffect_no_cache w tok :
  Js.truthy (tokenItem (storage w)) = Some tok ->
  cachedTasks (storage w) = [] ->
  mountEffect w
  = (Ret None,
     mkWorld (storage w)
             (mkApp (Some tok) (tasks (app w)) (loading (app w)) (error (app w))
                    (autoRefreshing (app w)))
             (form w) (clock w) (rolls w)
             (trace w ++ [GetItem TOKEN_STORAGE_KEY; GetItem TASKS_STORAGE_KEY])).
Proof.
  destruct w as [[ti ci li] [tk ts ld er ar] f c r tr].
  cbn [storage tokenItem]. intros Hs Hc.
  assert (Hn : nonEmpty (cachedTasks (mkStorage ti ci li)) = false)
    by now rewrite Hc.
  unfold cachedTasks in Hn. cbn [tasksItem] in Hn.
  unfold mountEffect. cbn. rewrite Hs. cbn.
  destruct ci as [[cts stamp]|]; cbn in Hn |- *.
  - rewrite Hn. cbn. now rewrite <- app_assoc.
  - change (nonEmpty (@nil Task)) with false. cbn. now rewrite <- app_assoc.
Qed.

Lemma mountEffect_fresh w tok cache :
  Js.truthy (tokenItem (storage w)) = Some tok ->
  tasksItem (storage w) = Some cache ->
  nonEmpty (TaskCache.tasks cache) = true ->
  (clock w - TaskCache.timestamp cache <= FIVE_MINUTES_MS)%Z ->
  mountEffect w
  = (Ret None,
     mkWorld (storage w)
             (mkApp (Some tok) (TaskCache.tasks cache) false (error (app w))
                    (autoRefreshing (app w)))
             (form w) (clock w) (rolls w)
             (trace w ++ [GetItem TOKEN_STORAGE_KEY; GetItem TASKS_STORAGE_KEY;
                          GetItem TASKS_STORAGE_KEY])).
Proof.
  destruct w as [[ti ci li] [tk ts ld er ar] f c r tr].
  destruct cache as [cts stamp].
  cbn [storage tokenItem tasksItem app clock TaskCache.tasks TaskCache.timestamp
       error autoRefreshing form rolls trace].
  intros Hs -> Hn Hfresh.
  assert (Hstale : (c - stamp >? FIVE_MINUTES_MS)%Z = false).
  { rewrite Z.gtb_ltb. apply Z.ltb_ge. exact Hfresh. }
  unfold mountEffect, isCacheStale. cbn. rewrite Hs. cbn. rewrite Hn. cbn.
  destruct (stamp =? 0)%Z; cbn;
    [|change (c - stamp >? 300000)%Z with (c - stamp >? FIVE_MINUTES_MS)%Z;
      rewrite Hstale; cbn];
    now rewrite <- !app_assoc.
Qed.

Lemma mountEffect_stale w tok cache :
  Js.truthy (tokenItem (storage w)) = Some tok ->
  tasksItem (storage w) = Some cache ->
  nonEmpty (TaskCache.tasks cache) = true ->
  TaskCache.timestamp cache <> 0%Z ->
  (clock w - TaskCache.timestamp cache > FIVE_MINUTES_MS)%Z ->
  mountEffect w
  = (Ret (Some tok),
     mkWorld (storage w)
             (mkApp (Some tok) (TaskCache.tasks cache) (loading (app w))
                    (error (app w)) true)
             (form w) (clock w) (rolls w)
             (trace w ++ [GetItem TOKEN_STORAGE_KEY; GetItem TASKS_STORAGE_KEY;
                          GetItem TASKS_STORAGE_KEY])).
Proof.
  destruct w as [[ti ci li] [tk ts ld er ar] f c r tr].
  destruct cache as [cts stamp].
  cbn [storage tokenItem tasksItem app clock TaskCache.tasks TaskCache.timestamp].
  intros Hs -> Hn H0 Hstale.
  assert (Hz : (stamp =? 0)%Z = false) by now apply Z.eqb_neq.
  assert (Hg : (c - stamp >? FIVE_MINUTES_MS)%Z = true)
    by (apply Z.gtb_lt; lia).
  unfold mountEffect, isCacheStale. cbn. rewrite Hs. cbn. rewrite Hn. cbn.
  rewrite Hz. cbn.
  change (c - stamp >? 300000)%Z with (c - stamp >? FIVE_MINUTES_MS)%Z.
  rewrite Hg. cbn. now rewrite <- !app_assoc.
Qed.

Lemma tokenEffectTarget_run w :
  tokenEffectTarget w
  = (Ret match Js.truthy (token (app w)) with
         | Some tok =>
             if (List.length (tasks (app w)) =? 0)%nat || (tok =? "demo")
             then Some tok else None
         | None => None
         end, w).
Proof.
  unfold tokenEffectTarget, bind, getApp.
  destruct (Js.truthy (token (app w))) as [tok|]; [|reflexivity].
  now destruct ((List.length (tasks (app w)) =? 0)%nat || (tok =? "demo")).
Qed.

(** The second effect of [App] calls [fetchTasksForToken] with the token
    its test yields. *)
Lemma tokenEffect_target remote fuel w :
  tokenEffect remote fuel w
  = (target <- tokenEffectTarget ;;
     match target with
     | Some tok => r <- fetchTasksForToken remote fuel tok ;; ret (Some r)
     | None => ret None
     end) w.
Proof.
  unfold bind at 1. rewrite tokenEffectTarget_run.
  unfold tokenEffect, bind at 1, getApp.
  destruct (Js.truthy (token (app w))) as [tok|]; [|reflexivity].
  now destruct ((List.length (tasks (app w)) =? 0)%nat || (tok =? "demo")).
Qed.

Lemma handleAsanaConnect_run tok w :
  (tok =? "demo") = false ->
  handleAsanaConnect tok w
  = (Ret tt,
     mkWorld (mkStorage (Some tok) None None)
             (mkApp (Some tok) (tasks (app w)) (loading (app w)) None
                    (autoRefreshing (app w)))
             (form w) (clock w) (rolls w)
             (trace w ++ [RemoveItem TOKEN_STORAGE_KEY;
                          SetItem TOKEN_STORAGE_KEY;
                          RemoveItem TASKS_STORAGE_KEY;
                          RemoveItem LAST_SYNC_KEY])).
Proof.
  intros Hd. destruct w as [[ti ci li] [tk ts ld er ar] f c r tr].
  wstep. rewrite Hd. now rewrite <- !app_assoc.
Qed.

Lemma presentKeys_reads s :
  Forall isQuiet (map GetItem (tokenStorage.presentKeys s)).
Proof.
  apply Forall_forall. intros e He. apply in_map_iff in He.
  now destruct He as [k [<- _]].
Qed.

Lemma isQuiet_isLocal evs : Forall isQuiet evs -> Forall isLocal evs.
Proof. apply Forall_impl. now intros [k|k|k|t|t q|ms]. Qed.

(** Step the page load: run the next function of the composition by its
    equation. *)
Ltac load_step :=
  match goal with
  | |- context [tokenStorage.debugStorage ?W] => rewrite (debugStorage_run W)
  | |- context [AsanaConnect.mountBody ?W] => rewrite (mountBody_run W)
  | |- context [tokenEffectTarget ?W] => rewrite (tokenEffectTarget_run W)
  end;
  cbn [storage app form clock rolls trace token tasks loading error
       autoRefreshing reload fst snd].

Ltac load_tidy :=
  cbn [storage app form clock rolls trace token tasks loading error
       autoRefreshing reload fst snd].

(** A page load without a credential: reads, the focus timer, and
    nothing else. *)
Lemma pageLoad_logged_out w :
  Js.truthy (tokenItem (storage w)) = None ->
  pageLoad w
  = (Ret Settled,
     mkWorld (storage w) (mkApp None [] false None false) (mkForm "" false)
             (clock w + 100) (rolls w)
             (trace w
              ++ GetItem TOKEN_STORAGE_KEY
                 :: map GetItem (tokenStorage.presentKeys (storage w))
              ++ [GetItem TOKEN_STORAGE_KEY; SetTimeout 100;
                  GetItem TOKEN_STORAGE_KEY])).
Proof.
  intros Hs. unfold pageLoad, bind.
  load_step. load_step. rewrite Hs.
  match goal with
  | |- context [mountEffect ?W] => rewrite (mountEffect_logged_out W Hs)
  end.
  load_tidy.
  load_step. cbn [Js.truthy]. unfold AsanaConnect.timersFire, bind, elapse, ret.
  cbn [storage app form clock rolls trace].
  rewrite <- !app_assoc. reflexivity.
Qed.

(** A page load with a credential and a cache not older than five
    minutes: [App] shows the cache, and the timer of the form then
    connects anew, which empties the cache. *)
Lemma pageLoad_fresh w tok cache :
  Js.truthy (tokenItem (storage w)) = Some tok ->
  (tok =? "demo") = false ->
  tasksItem (storage w) = Some cache ->
  nonEmpty (TaskCache.tasks cache) = true ->
  (clock w - TaskCache.timestamp cache <= FIVE_MINUTES_MS)%Z ->
  pageLoad w
  = (Ret Settled,
     mkWorld (mkStorage (Some tok) None None)
             (mkApp (Some tok) (TaskCache.tasks cache) false None false)
             (mkForm tok true) (clock w + 100) (rolls w)
             (trace w
              ++ GetItem TOKEN_STORAGE_KEY
                 :: map GetItem (tokenStorage.presentKeys (storage w))
              ++ [GetItem TOKEN_STORAGE_KEY; SetTimeout 100; SetTimeout 100;
                  GetItem TOKEN_STORAGE_KEY; GetItem TASKS_STORAGE_KEY;
                  GetItem TASKS_STORAGE_KEY;
                  RemoveItem TOKEN_STORAGE_KEY; SetItem TOKEN_STORAGE_KEY;
                  RemoveItem TASKS_STORAGE_KEY; RemoveItem LAST_SYNC_KEY])).
Proof.
  intros Hs Hd Hc Hn Hfresh.
  destruct (truthy_inv _ _ Hs) as [_ Hne].
  unfold pageLoad, bind.
  load_step. load_step. rewrite Hs.
  match goal with
  | |- context [mountEffect ?W] =>
      rewrite (mountEffect_fresh W tok cache Hs Hc Hn Hfresh)
  end.
  load_tidy. load_step.
  rewrite (truthy_Some _ Hne), (nonEmpty_length _ Hn), Hd. cbn [orb].
  unfold AsanaConnect.timersFire, bind, elapse.
  match goal with
  | |- context [handleAsanaConnect tok ?W] =>
      rewrite (handleAsanaConnect_run tok W Hd)
  end.
  load_tidy. unfold ret. rewrite <- !app_assoc. reflexivity.
Qed.

(** X11.  Disconnecting forgets everything: credential, cached tasks and
    cursor leave localStorage, token and tasks leave the state; the
    full-history action then does nothing, and a reload of the page only
    reads localStorage and sets the focus timer of the form: it sends no
    request, writes nothing and shows no task. *)
Theorem disconnect_forgets (remote : Remote) (fuel : nat) (w : World) :
  let w1 := run handleDisconnect w in
  let w2 := run pageLoad w1 in
  storage w1 = mkStorage None None None
  /\ token (app w1) = None
  /\ tasks (app w1) = []
  /\ fetchAllHistoricalTasks remote fuel w1 = (Ret None, w1)
  /\ outcome pageLoad w1 = Ret Settled
  /\ storage w2 = storage w1
  /\ token (app w2) = None
  /\ tasks (app w2) = []
  /\ (exists evs, trace w2 = trace w1 ++ evs /\ Forall isQuiet evs).
Proof.
  intros w1 w2.
  assert (E : w1 = mkWorld (mkStorage None None None)
                      (mkApp None [] (loading (app w)) (error (app w))
                             (autoRefreshing (app w)))
                      (form w) (clock w) (rolls w)
                      (trace w ++ [RemoveItem TOKEN_STORAGE_KEY;
                                   GetItem TOKEN_STORAGE_KEY;
                                   RemoveItem TASKS_STORAGE_KEY;
                                   RemoveItem LAST_SYNC_KEY])).
  { subst w1. destruct w as [[ti ci li] a f c r tr]. wstep.
    now rewrite <- !app_assoc. }
  assert (L : pageLoad w1 = (Ret Settled, w2) /\ w2 = snd (pageLoad w1))
    by (subst w2; unfold run; rewrite E, pageLoad_logged_out; now split).
  destruct L as [L _]. unfold outcome. rewrite L. clear L. subst w2.
  unfold run. clearbody w1. subst w1.
  rewrite pageLoad_logged_out by reflexivity.
  cbn [fst snd storage app token tasks trace].
  repeat split; try reflexivity.
  eexists. split; [reflexivity|].
  cbn. repeat constructor.
Qed.

(** X19.  A page load with a credential other than ['demo'] and a cache
    taken at most five minutes ago needs no network: [App] shows the
    cached tasks and starts neither fetch nor refresh.  The timer of the
    connect form then calls [handleAsanaConnect] with the credential it
    found, 100 ms after the load: the credential is written again and the
    cached tasks and the cursor are removed from localStorage, while the
    tasks stay on display. *)
Theorem fresh_cache_load_is_local (w : World) (tok : string)
    (cache : TaskCache.t) :
  Js.truthy (tokenItem (storage w)) = Some tok ->
  (tok =? "demo") = false ->
  tasksItem (storage w) = Some cache ->
  nonEmpty (TaskCache.tasks cache) = true ->
  (clock w - TaskCache.timestamp cache <= FIVE_MINUTES_MS)%Z ->
  let w' := run pageLoad w in
  outcome pageLoad w = Ret Settled
  /\ token (app w') = Some tok
  /\ tasks (app w') = TaskCache.tasks cache
  /\ loading (app w') = false
  /\ autoRefreshing (app w') = false
  /\ storage w' = mkStorage (Some tok) None None
  /\ (clock w + 100 <= clock w')%Z
  /\ (exists evs, trace w' = trace w ++ evs /\ Forall isLocal evs).
Proof.
  intros Hs Hd Hc Hn Hfresh w'. subst w'. unfold outcome, run.
  rewrite (pageLoad_fresh w tok cache Hs Hd Hc Hn Hfresh).
  cbn [fst snd app token tasks loading autoRefreshing storage clock trace].
  repeat split; [lia|]. eexists. split; [reflexivity|].
  constructor; [exact I|]. apply Forall_app. split.
  - apply isQuiet_isLocal, presentKeys_reads.
  - repeat constructor.
Qed.

Lemma fresh_cache_load_is_local_witness :
  Js.truthy (tokenItem (storage Sample.fresh)) = Some Sample.credential
  /\ tasks (app (run pageLoad Sample.fresh)) = [Sample.roses; Sample.hedge]
  /\ storage (run pageLoad Sample.fresh)
     = mkStorage (Some Sample.credential) None None.
Proof.
  split; [reflexivity|].
  assert (Hfresh : (clock Sample.fresh - 1699999940000 <= FIVE_MINUTES_MS)%Z)
    by (vm_compute; discriminate).
  pose proof (fresh_cache_load_is_local Sample.fresh Sample.credential
                (TaskCache.make [Sample.roses; Sample.hedge] 1699999940000)
                eq_refl eq_refl eq_refl eq_refl Hfresh) as H.
  cbv zeta in H.
  split; [exact (proj1 (proj2 (proj2 H)))|].
  exact (proj1 (proj2 (proj2 (proj2 (proj2 (proj2 H)))))).
Defined.

(** A page load with a credential and no cached task reaches the call of
    [fetchTasksForToken]. *)
Lemma pageLoad_no_cache w tok :
  Js.truthy (tokenItem (storage w)) = Some tok ->
  cachedTasks (storage w) = [] ->
  pageLoad w
  = (Ret (FetchStarted tok),
     mkWorld (storage w) (mkApp (Some tok) [] false None false)
             (mkForm tok true) (clock w) (rolls w)
             (trace w
              ++ GetItem TOKEN_STORAGE_KEY
                 :: map GetItem (tokenStorage.presentKeys (storage w))
              ++ [GetItem TOKEN_STORAGE_KEY; SetTimeout 100; SetTimeout 100;
                  GetItem TOKEN_STORAGE_KEY; GetItem TASKS_STORAGE_KEY])).
Proof.
  intros Hs Hc.
  destruct (truthy_inv _ _ Hs) as [_ Hne].
  unfold pageLoad, bind.
  load_step. load_step. rewrite Hs.
  match goal with
  | |- context [mountEffect ?W] => rewrite (mountEffect_no_cache W tok Hs Hc)
  end.
  load_tidy. load_step.
  rewrite (truthy_Some _ Hne). cbn [List.length Nat.eqb orb].
  unfold ret. rewrite <- !app_assoc. reflexivity.
Qed.

(** X20.  What a connect cached, a reload shows once: when [connect]
    ends with a merged and cached task set, reloading the page within
    five minutes of the stamp of that cache shows the very tasks the
    connect showed, without a request.  The timer of the connect form then removes the cache, so
    that the load after that one starts the fetch again. *)
Theorem reload_shows_what_connect_cached (remote : Remote) (fuel : nat)
    (tok : string) (w : World) (ms : Z) (cache : TaskCache.t) :
  tok <> "" -> (tok =? "demo") = false ->
  tasks (app w) = [] ->
  outcome (connect remote fuel tok) w = Ret (Some MergedAndCached) ->
  let w1 := run (connect remote fuel tok) w in
  nonEmpty (tasks (app w1)) = true ->
  tasksItem (storage w1) = Some cache ->
  (0 <= ms)%Z ->
  (clock w1 + ms - TaskCache.timestamp cache <= FIVE_MINUTES_MS)%Z ->
  let w2 := run pageLoad (later ms w1) in
  outcome pageLoad (later ms w1) = Ret Settled
  /\ tasks (app w2) = tasks (app w1)
  /\ token (app w2) = Some tok
  /\ (exists evs, trace w2 = trace w1 ++ evs /\ Forall isLocal evs)
  /\ storage w2 = mkStorage (Some tok) None None
  /\ outcome pageLoad w2 = Ret (FetchStarted tok).
Proof.
  intros Hne Hd Hts Hout w1 Hshown Hcache Hms Hfresh w2.
  set (w0 := mkWorld (mkStorage (Some tok) None None)
                     (mkApp (Some tok) [] (loading (app w)) None
                            (autoRefreshing (app w)))
                     (form w) (clock w) (rolls w)
                     (trace w ++ [RemoveItem TOKEN_STORAGE_KEY;
                                  SetItem TOKEN_STORAGE_KEY;
                                  RemoveItem TASKS_STORAGE_KEY;
                                  RemoveItem LAST_SYNC_KEY])).
  assert (H0 : handleAsanaConnect tok w = (Ret tt, w0)).
  { subst w0. rewrite (handleAsanaConnect_run tok w Hd). now rewrite Hts. }
  assert (H0s : tokenItem (storage w0) = Some tok) by reflexivity.
  assert (Hrun : connect remote fuel tok w
                 = (match outcome (fetchTasksForToken remote fuel tok) w0 with
                    | Ret r => Ret (Some r)
                    | Throw e => Throw e
                    | Starved => Starved
                    end,
                    run (fetchTasksForToken remote fuel tok) w0)).
  { unfold connect, bind at 1. rewrite H0.
    unfold tokenEffect, bind, getApp. subst w0. cbn [app token tasks].
    rewrite (truthy_Some _ Hne). cbn [List.length Nat.eqb orb].
    unfold outcome, run, ret.
    now destruct (fetchTasksForToken remote fuel tok _) as [[x|e|] w3]. }
  assert (Hw1 : w1 = run (fetchTasksForToken remote fuel tok) w0).
  { subst w1. unfold run at 1. now rewrite Hrun. }
  assert (Ho : outcome (fetchTasksForToken remote fuel tok) w0
               = Ret MergedAndCached).
  { revert Hout. unfold outcome at 1. rewrite Hrun. cbn [fst].
    destruct (outcome (fetchTasksForToken remote fuel tok) w0) as [x|e|];
      [|discriminate|discriminate].
    now intros [= ->]. }
  pose proof (by_outcome_run (fetchTasksForToken remote fuel tok) w0 _
                (forToken_cases remote fuel tok w0 Hd)) as C.
  cbv beta zeta in C. rewrite <- Hw1, Ho in C.
  destruct C as [Cs [Ct [_ [newTasks [_ [Cshown [Ccache _]]]]]]].
  rewrite <- Cshown in Ccache.
  clearbody w1. clear Hw1 Hrun Hout Ho.
  rewrite Hcache in Ccache. injection Ccache as Ccache. subst cache.
  assert (B := pageLoad_fresh (later ms w1) tok
                 (TaskCache.make (tasks (app w1)) (clock w1))).
  cbn [later storage clock TaskCache.tasks TaskCache.timestamp] in B, Hfresh.
  rewrite Cs, H0s in B.
  specialize (B (truthy_Some _ Hne) Hd Hcache Hshown Hfresh).
  subst w2. unfold outcome, run.
  rewrite B. cbn [fst snd app tasks token storage trace later].
  split; [reflexivity|]. split; [reflexivity|]. split; [reflexivity|].
  split.
  - eexists. split; [reflexivity|].
    constructor; [exact I|]. apply Forall_app. split.
    + apply isQuiet_isLocal, presentKeys_reads.
    + repeat constructor.
  - split; [reflexivity|].
    rewrite (pageLoad_no_cache _ tok); [reflexivity| |reflexivity].
    exact (truthy_Some _ Hne).
Qed.

Lemma reload_shows_what_connect_cached_witness :
  outcome (connect Sample.garden 5 Sample.credential) (Sample.loginPage "")
  = Ret (Some MergedAndCached)
  /\ tasks (app (run pageLoad
                     (later 60000
                        (run (connect Sample.garden 5 Sample.credential)
                             (Sample.loginPage "")))))
     = [Sample.roses; Sample.hedge; Sample.pond].
Proof.
  assert (E : outcome (connect Sample.garden 5 Sample.credential)
                      (Sample.loginPage "")
              = Ret (Some MergedAndCached)) by (vm_compute; reflexivity).
  assert (T : tasks (app (run (connect Sample.garden 5 Sample.credential)
                              (Sample.loginPage "")))
              = [Sample.roses; Sample.hedge; Sample.pond])
    by (vm_compute; reflexivity).
  split; [exact E|].
  assert (Hne : Sample.credential <> "") by discriminate.
  assert (Hn : nonEmpty (tasks (app (run (connect Sample.garden 5
                                            Sample.credential)
                                         (Sample.loginPage "")))) = true)
    by (rewrite T; reflexivity).
  assert (Hms : (0 <= 60000)%Z) by lia.
  assert (Hc : tasksItem (storage (run (connect Sample.garden 5
                                          Sample.credential)
                                       (Sample.loginPage "")))
               = Some (TaskCache.make
                         [Sample.roses; Sample.hedge; Sample.pond]
                         1700000000620))
    by (vm_compute; reflexivity).
  assert (Hfresh : (clock (run (connect Sample.garden 5 Sample.credential)
                               (Sample.loginPage ""))
                    + 60000 - 1700000000620 <= FIVE_MINUTES_MS)%Z)
    by (vm_compute; discriminate).
  rewrite <- T.
  exact (proj1 (proj2 (reload_shows_what_connect_cached Sample.garden 5
                         Sample.credential (Sample.loginPage "") 60000 _
                         Hne eq_refl eq_refl E Hn Hc Hms Hfresh))).
Defined.

(** X26.  A page load with a credential and no cached task comes to the
    foreground fetch: [App] sets the token, and its second effect calls
    [fetchTasksForToken] with the stored credential.  Up to that call
    the page has read localStorage and set the timers of the connect
    form, and nothing else: no request, no write, no task on display. *)
Theorem first_load_fetches (w : World) (tok : string) :
  Js.truthy (tokenItem (storage w)) = Some tok ->
  cachedTasks (storage w) = [] ->
  let w' := run pageLoad w in
  outcome pageLoad w = Ret (FetchStarted tok)
  /\ token (app w') = Some tok
  /\ tasks (app w') = []
  /\ storage w' = storage w
  /\ (exists evs, trace w' = trace w ++ evs /\ Forall isQuiet evs).
Proof.
  intros Hs Hc w'. subst w'. unfold outcome, run.
  rewrite (pageLoad_no_cache w tok Hs Hc).
  cbn [fst snd app token tasks storage clock trace].
  repeat split. eexists. split; [reflexivity|].
  constructor; [exact I|]. apply Forall_app. split.
  - apply presentKeys_reads.
  - repeat constructor.
Qed.

Lemma first_load_fetches_witness :
  Js.truthy (tokenItem (storage Sample.returning)) = Some Sample.credential
  /\ outcome pageLoad Sample.returning = Ret (FetchStarted Sample.credential).
Proof.
  split; [reflexivity|].
  exact (proj1 (first_load_fetches Sample.returning Sample.credential
                  eq_refl eq_refl)).
Defined.

(** A page load with a credential and a cache older than five minutes
    reaches the call of [autoRefreshTasks]. *)
Lemma pageLoad_stale w tok cache :
  Js.truthy (tokenItem (storage w)) = Some tok ->
  tasksItem (storage w) = Some cache ->
  nonEmpty (TaskCache.tasks cache) = true ->
  TaskCache.timestamp cache <> 0%Z ->
  (clock w - TaskCache.timestamp cache > FIVE_MINUTES_MS)%Z ->
  pageLoad w
  = (Ret (RefreshStarted tok),
     mkWorld (storage w)
             (mkApp (Some tok) (TaskCache.tasks cache) false None true)
             (mkForm tok true) (clock w) (rolls w)
             (trace w
              ++ GetItem TOKEN_STORAGE_KEY
                 :: map GetItem (tokenStorage.presentKeys (storage w))
              ++ [GetItem TOKEN_STORAGE_KEY; SetTimeout 100; SetTimeout 100;
                  GetItem TOKEN_STORAGE_KEY; GetItem TASKS_STORAGE_KEY;
                  GetItem TASKS_STORAGE_KEY])).
Proof.
  intros Hs Hc Hn H0 Hstale.
  unfold pageLoad, bind.
  load_step. load_step. rewrite Hs.
  match goal with
  | |- context [mountEffect ?W] =>
      rewrite (mountEffect_stale W tok cache Hs Hc Hn H0 Hstale)
  end.
  load_tidy. unfold ret. rewrite <- !app_assoc. reflexivity.
Qed.

(** X27.  A page load with a credential and a cache older than five
    minutes comes to the background refresh: [App] shows the cached
    tasks, raises [autoRefreshing] and calls [autoRefreshTasks] with the
    stored credential.  Up to that call the page has read localStorage
    and set the timers of the connect form, and nothing else: no request
    and no write. *)
Theorem stale_load_refreshes (w : World) (tok : string)
    (cache : TaskCache.t) :
  Js.truthy (tokenItem (storage w)) = Some tok ->
  tasksItem (storage w) = Some cache ->
  nonEmpty (TaskCache.tasks cache) = true ->
  TaskCache.timestamp cache <> 0%Z ->
  (clock w - TaskCache.timestamp cache > FIVE_MINUTES_MS)%Z ->
  let w' := run pageLoad w in
  outcome pageLoad w = Ret (RefreshStarted tok)
  /\ token (app w') = Some tok
  /\ tasks (app w') = TaskCache.tasks cache
  /\ autoRefreshing (app w') = true
  /\ storage w' = storage w
  /\ (exists evs, trace w' = trace w ++ evs /\ Forall isQuiet evs).
Proof.
  intros Hs Hc Hn H0 Hstale w'. subst w'. unfold outcome, run.
  rewrite (pageLoad_stale w tok cache Hs Hc Hn H0 Hstale).
  cbn [fst snd app token tasks autoRefreshing storage clock trace].
  repeat split. eexists. split; [reflexivity|].
  constructor; [exact I|]. apply Forall_app. split.
  - apply presentKeys_reads.
  - repeat constructor.
Qed.

Lemma stale_load_refreshes_witness :
  Js.truthy (tokenItem (storage Sample.connected)) = Some Sample.credential
  /\ outcome pageLoad Sample.connected = Ret (RefreshStarted Sample.credential)
  /\ tasks (app (run pageLoad Sample.connected)) = [Sample.roses; Sample.stray].
Proof.
  split; [reflexivity|].
  assert (H0 : 1699990000000%Z <> 0%Z) by discriminate.
  assert (Hstale : (clock Sample.connected - 1699990000000
                    > FIVE_MINUTES_MS)%Z) by (vm_compute; reflexivity).
  pose proof (stale_load_refreshes Sample.connected Sample.credential
                (TaskCache.make [Sample.roses; Sample.stray] 1699990000000)
                eq_refl eq_refl eq_refl H0 Hstale) as H.
  cbv zeta in H.
  split; [exact (proj1 H)|exact (proj1 (proj2 (proj2 H)))].
Defined.
